(** * PantryPal merchant server: inventory reservation, agent runs, cart drafts

    A shallow embedding of the persistence logic of
    [legacy/merchant-server-python/db.py] and
    [legacy/merchant-server-python/routes/agent_state.py].

    The SQL tables touched by the handlers are modelled explicitly:
    tables that are only ever addressed through their primary key
    ([inventory], [agent_runs], [cart_drafts]) are finite maps from the key,
    the two child tables that are scanned by a foreign-key column
    ([cart_draft_line_items], [cart_draft_alternatives]) are lists of rows in
    insertion order.  A handler is a computation in a state-and-exception
    monad over the session. *)

From Stdlib Require Import ZArith List Lia.
From stdpp Require Import base option list gmap strings.

Local Open Scope Z_scope.
Local Open Scope string_scope.
Local Open Scope list_scope.

(** ** Sessions and the handler monad *)

(** A computation either returns a value or raises; in both cases it hands
    back the session as it stands at that point.  The writes of a request
    whose handler raises are never committed. *)

(** The exceptions the modelled code can raise: FastAPI's [HTTPException],
    the store's primary-key violation on INSERT, and the [OverflowError]
    with which Python's [sqlite3] refuses to bind an [int] that does not fit
    SQLite's signed 64-bit INTEGER. *)
Inductive Exn : Type :=
| HTTPException (status_code : Z) (detail : string)
| IntegrityError (table : string) (key : string)
| OverflowError.

Inductive Outcome (A : Type) : Type :=
| Returned (a : A)
| Raised (e : Exn).
Arguments Returned {A} a.
Arguments Raised {A} e.

(** JSON columns ([Column(JSON)], pydantic [Any]). *)
#[local] Unset Elimination Schemes.
Inductive Json : Type :=
| JNull
| JBool (b : bool)
| JNum (n : Z)
| JStr (s : string)
| JArr (items : list Json)
| JObj (members : list (string * Json)).
#[local] Set Elimination Schemes.

(** *** Integers at the boundary between Python and SQLite *)

(** Python's [int] is unbounded; an INTEGER of SQLite is a signed 64-bit
    number.  Binding an [int] outside that range as a statement parameter
    raises [OverflowError] before the statement runs. *)
Definition in_int64 (z : Z) : Prop := - 2 ^ 63 <= z < 2 ^ 63.

#[global] Instance in_int64_dec z : Decision (in_int64 z).
Proof. unfold in_int64. apply _. Defined.

(** A nullable integer parameter: [None] is bound as NULL. *)
Definition binds (o : option Z) : Prop :=
  match o with
  | Some z => in_int64 z
  | None => True
  end.

#[global] Instance binds_dec o : Decision (binds o).
Proof. destruct o; apply _. Defined.

(** The double nearest to an integer (ties to even), as the integer it is:
    what SQLite's conversion of an INTEGER to a REAL yields. *)
Definition round_to_double (z : Z) : Z :=
  let m := Z.abs z in
  if bool_decide (m < 2 ^ 53) then z
  else
    let e := Z.log2 m - 52 in
    let q := m / 2 ^ e in
    let r := m mod 2 ^ e in
    let half := 2 ^ (e - 1) in
    let q' :=
      if bool_decide (half < r) || (bool_decide (r = half) && Z.odd q)
      then q + 1 else q in
    Z.sgn z * (q' * 2 ^ e).

(** SQLite's [stored - quantity] for a bound 64-bit [quantity].  Two
    INTEGERs are subtracted exactly when the difference is an INTEGER again;
    when it overflows, or when the stored value already is a REAL, both
    operands are converted to doubles and subtracted as such. *)
Definition sqlite_sub (stored quantity : Z) : Z :=
  if bool_decide (in_int64 stored /\ in_int64 (stored - quantity))
  then stored - quantity
  else round_to_double (round_to_double stored - round_to_double quantity).

(** Python [float] columns are only stored and copied by the handlers, never
    computed with: a decimal literal is kept as its numerator/denominator. *)
Record PyFloat : Type := { fnum : Z; fden : positive }.

(** *** Rows ([db.py], declarative models) *)

Record AgentRun : Type := {
  ar_id : string;
  ar_user_id : option string;
  ar_device_id : option string;
  ar_recipe_id : option string;
  ar_merchant_base_url : option string;
  ar_store_id : option string;
  ar_created_at : string;
  ar_updated_at : string;
  ar_state : string;
  ar_failure_code : option string;
  ar_failure_detail : option string;
  ar_cart_draft_id : option string;
  ar_order_id : option string
}.

Record CartDraft : Type := {
  cd_id : string;
  cd_agent_run_id : option string;
  cd_recipe_id : option string;
  cd_servings : option Z;
  cd_pantry_items_removed : option Json;
  cd_policies : option Json;
  cd_quote_summary : option Json;
  cd_checkout_session_id : option string;
  cd_cart_hash : option string;
  cd_quote_hash : option string;
  cd_created_at : string;
  cd_updated_at : string
}.

Record CartDraftLineItem : Type := {
  li_id : string;
  li_cart_draft_id : string;
  li_ingredient_key : string;
  li_canonical_ingredient_json : option Json;
  li_primary_sku_json : option Json;
  li_quantity : PyFloat;
  li_unit : option string;
  li_confidence : option PyFloat;
  li_chosen_reason : option string;
  li_substitution_policy_json : option Json;
  li_line_total_cents : option Z
}.

Record CartDraftAlternative : Type := {
  alt_id : string;
  alt_line_item_id : string;
  alt_rank : Z;
  alt_sku_json : option Json;
  alt_score_breakdown_json : option Json;
  alt_reason : option string;
  alt_confidence : option PyFloat
}.

(** The session: the transactional store as the running request sees it,
    together with the two ambient sources the handlers read, the wall clock
    ([_now_iso]) and the number of identifiers drawn so far from
    [uuid.uuid4].

    An [inventory] entry is the numeric value of the row's [quantity], with
    [None] for NULL.  SQLite keeps a value within the signed 64-bit range as
    an INTEGER; a value beyond it can only be there as a REAL, left by a
    decrement that overflowed (see [sqlite_sub]). *)
Record Session : Type := {
  inventory : gmap string (option Z);
  agent_runs : gmap string AgentRun;
  cart_drafts : gmap string CartDraft;
  cart_draft_line_items : list CartDraftLineItem;
  cart_draft_alternatives : list CartDraftAlternative;
  wall_clock : string;
  uuid_drawn : nat
}.

Definition M (A : Type) : Type := Session -> Outcome A * Session.

Definition ret {A} (a : A) : M A := fun s => (Returned a, s).

Definition bind {A B} (c : M A) (k : A -> M B) : M B :=
  fun s =>
    match c s with
    | (Returned a, s') => k a s'
    | (Raised e, s') => (Raised e, s')
    end.

Definition raise {A} (e : Exn) : M A := fun s => (Raised e, s).
Definition gets {A} (f : Session -> A) : M A := fun s => (Returned (f s), s).
Definition modify (f : Session -> Session) : M unit := fun s => (Returned tt, f s).

Notation "'let!' x ':=' c 'in' k" := (bind c (fun x => k))
  (at level 10, x name, c at level 100, k at level 200).
Notation "'run!' c 'in' k" := (bind c (fun _ => k))
  (at level 10, c at level 100, k at level 200).

(** *** Field setters on the session *)

Definition set_inventory (f : gmap string (option Z) -> gmap string (option Z))
    (s : Session) : Session :=
  {| inventory := f (inventory s);
     agent_runs := agent_runs s;
     cart_drafts := cart_drafts s;
     cart_draft_line_items := cart_draft_line_items s;
     cart_draft_alternatives := cart_draft_alternatives s;
     wall_clock := wall_clock s;
     uuid_drawn := uuid_drawn s |}.

Definition set_agent_runs (f : gmap string AgentRun -> gmap string AgentRun)
    (s : Session) : Session :=
  {| inventory := inventory s;
     agent_runs := f (agent_runs s);
     cart_drafts := cart_drafts s;
     cart_draft_line_items := cart_draft_line_items s;
     cart_draft_alternatives := cart_draft_alternatives s;
     wall_clock := wall_clock s;
     uuid_drawn := uuid_drawn s |}.

Definition set_cart_drafts (f : gmap string CartDraft -> gmap string CartDraft)
    (s : Session) : Session :=
  {| inventory := inventory s;
     agent_runs := agent_runs s;
     cart_drafts := f (cart_drafts s);
     cart_draft_line_items := cart_draft_line_items s;
     cart_draft_alternatives := cart_draft_alternatives s;
     wall_clock := wall_clock s;
     uuid_drawn := uuid_drawn s |}.

Definition set_line_items (f : list CartDraftLineItem -> list CartDraftLineItem)
    (s : Session) : Session :=
  {| inventory := inventory s;
     agent_runs := agent_runs s;
     cart_drafts := cart_drafts s;
     cart_draft_line_items := f (cart_draft_line_items s);
     cart_draft_alternatives := cart_draft_alternatives s;
     wall_clock := wall_clock s;
     uuid_drawn := uuid_drawn s |}.

Definition set_alternatives
    (f : list CartDraftAlternative -> list CartDraftAlternative)
    (s : Session) : Session :=
  {| inventory := inventory s;
     agent_runs := agent_runs s;
     cart_drafts := cart_drafts s;
     cart_draft_line_items := cart_draft_line_items s;
     cart_draft_alternatives := f (cart_draft_alternatives s);
     wall_clock := wall_clock s;
     uuid_drawn := uuid_drawn s |}.

Definition set_uuid_drawn (n : nat) (s : Session) : Session :=
  {| inventory := inventory s;
     agent_runs := agent_runs s;
     cart_drafts := cart_drafts s;
     cart_draft_line_items := cart_draft_line_items s;
     cart_draft_alternatives := cart_draft_alternatives s;
     wall_clock := wall_clock s;
     uuid_drawn := n |}.

(** ** The persistence layer ([db.py]) *)

Module db.

(** *** Inventory reservation *)

(** [session.execute(stmt)] for the statement built in [reserve_stock]: the
    single UPDATE [SET quantity = quantity - :quantity] under the WHERE
    clause [product_id == :product_id AND quantity >= :quantity].  Binding
    [quantity] raises [OverflowError] when it does not fit 64 bits, and then
    the statement does not run.  A missing row and a NULL quantity never
    satisfy the clause.  The result is the statement's [rowcount]. *)
Definition execute_stmt (product_id : string) (quantity : Z) : M nat :=
  fun s =>
    if bool_decide (in_int64 quantity)
    then
      match inventory s !! product_id with
      | Some (Some stored) =>
          if bool_decide (quantity <= stored)
          then (Returned 1%nat,
                set_inventory
                  <[product_id := Some (sqlite_sub stored quantity)]> s)
          else (Returned 0%nat, s)
      | _ => (Returned 0%nat, s)
      end
    else (Raised OverflowError, s).

(** The INSERT or UPDATE that [session.flush()] emits for the fallback: it
    binds the fallback, so a fallback that does not fit 64 bits raises
    [OverflowError] and nothing is written. *)
Definition flush_quantity (product_id : string) (fallback : Z) : M unit :=
  fun s =>
    if bool_decide (in_int64 fallback)
    then (Returned tt, set_inventory <[product_id := Some fallback]> s)
    else (Raised OverflowError, s).

(** [session.get(Inventory, product_id)]. *)
Definition session_get (product_id : string) : M (option (option Z)) :=
  gets (fun s => inventory s !! product_id).

(** [reserve_stock(session, product_id, quantity, fallback_quantity=None)]. *)
Definition reserve_stock (product_id : string) (quantity : Z)
    (fallback_quantity : option Z) : M bool :=
  let! rowcount := execute_stmt product_id quantity in
  if bool_decide (0 < rowcount)%nat then ret true
  else
    match fallback_quantity with
    | None => ret false
    | Some fallback =>
        let! existing := session_get product_id in
        run! (match existing with
         | None =>
             (* session.add(Inventory(...)); flush *)
             flush_quantity product_id fallback
         | Some None =>
             (* existing.quantity = fallback_quantity; flush *)
             flush_quantity product_id fallback
         | Some (Some _) => ret tt
         end) in
        let! rowcount' := execute_stmt product_id quantity in
        ret (bool_decide (0 < rowcount')%nat)
    end.

(** [get_inventory(session, product_id)]: the stored quantity, [None] both
    for a missing row and for a NULL quantity.  (Python receives an [int]
    for an INTEGER and a [float] for a REAL.) *)
Definition get_inventory (product_id : string) (s : Session) : option Z :=
  mjoin (inventory s !! product_id).

(** *** Data access helpers and the session operations the routes use *)

Definition get_agent_run (agent_run_id : string) : M (option AgentRun) :=
  gets (fun s => agent_runs s !! agent_run_id).

Definition get_cart_draft (cart_draft_id : string) : M (option CartDraft) :=
  gets (fun s => cart_drafts s !! cart_draft_id).

Definition get_cart_draft_line_items (cart_draft_id : string)
    : M (list CartDraftLineItem) :=
  gets (fun s =>
    filter (fun r => li_cart_draft_id r = cart_draft_id)
           (cart_draft_line_items s)).


Definition delete_cart_draft_line_items (cart_draft_id : string) : M unit :=
  modify (set_line_items
            (filter (fun r => li_cart_draft_id r ≠ cart_draft_id))).

(** [CartDraftAlternative.__table__.delete().where(line_item_id.in_(ids))]. *)
Definition delete_alternatives_in (ids : list string) : M unit :=
  modify (set_alternatives (filter (fun a => alt_line_item_id a ∉ ids))).

(** [session.add] of a new row: the INSERT it stands for cannot bind an
    integer column that does not fit 64 bits ([line_total_cents], [rank]),
    and is refused when the primary key is already taken. *)
Definition add_line_item (record : CartDraftLineItem) : M unit :=
  fun s =>
    if bool_decide (binds (li_line_total_cents record))
    then
      if bool_decide (li_id record ∈ li_id <$> cart_draft_line_items s)
      then (Raised (IntegrityError "cart_draft_line_items" (li_id record)), s)
      else (Returned tt, set_line_items (fun t => t ++ [record]) s)
    else (Raised OverflowError, s).

Definition add_alternative (record : CartDraftAlternative) : M unit :=
  fun s =>
    if bool_decide (in_int64 (alt_rank record))
    then
      if bool_decide (alt_id record ∈ alt_id <$> cart_draft_alternatives s)
      then (Raised (IntegrityError "cart_draft_alternatives" (alt_id record)),
            s)
      else (Returned tt, set_alternatives (fun t => t ++ [record]) s)
    else (Raised OverflowError, s).

(** Writing a parent row back under its primary key (the UPDATE or INSERT
    that [session.commit] / [session.flush] emit for the object).  The
    [session.refresh] that follows reads back the row just written. *)
Definition save_agent_run (key : string) (row : AgentRun) : M unit :=
  modify (set_agent_runs <[key := row]>).

(** For a cart draft the statement binds the one integer column,
    [servings]: the INSERT of a new row binds it always, the UPDATE of a
    stored row only when the value has changed (the UPDATE lists the
    changed columns only). *)
Definition save_cart_draft (key : string) (row : CartDraft) : M unit :=
  fun s =>
    let bound :=
      match cart_drafts s !! key with
      | Some stored =>
          if bool_decide (cd_servings row = cd_servings stored)
          then None else cd_servings row
      | None => cd_servings row
      end in
    if bool_decide (binds bound)
    then (Returned tt, set_cart_drafts <[key := row]> s)
    else (Raised OverflowError, s).

End db.

(** ** Agent-state routes ([routes/agent_state.py]) *)

Module agent_state.

Inductive AgentRunState : Type :=
| DISCOVER_MERCHANT
| CHECK_CAPABILITIES
| RESOLVE_INGREDIENTS
| BUILD_CART_DRAFT
| QUOTE_CART
| AWAITING_APPROVAL
| CHECKOUT
| ORDER_CREATED
| ORDER_TRACKING
| FAILED.

(** The [.value] of an enum member. *)
Definition value (st : AgentRunState) : string :=
  match st with
  | DISCOVER_MERCHANT => "DISCOVER_MERCHANT"
  | CHECK_CAPABILITIES => "CHECK_CAPABILITIES"
  | RESOLVE_INGREDIENTS => "RESOLVE_INGREDIENTS"
  | BUILD_CART_DRAFT => "BUILD_CART_DRAFT"
  | QUOTE_CART => "QUOTE_CART"
  | AWAITING_APPROVAL => "AWAITING_APPROVAL"
  | CHECKOUT => "CHECKOUT"
  | ORDER_CREATED => "ORDER_CREATED"
  | ORDER_TRACKING => "ORDER_TRACKING"
  | FAILED => "FAILED"
  end.

(** *** Request payloads (pydantic models; every optional field defaults to
    [None], and a JSON null is read as [None] as well) *)

Record AgentRunPayload : Type := {
  p_id : option string;
  p_user_id : option string;
  p_device_id : option string;
  p_recipe_id : option string;
  p_merchant_base_url : option string;
  p_store_id : option string;
  p_created_at : option string;
  p_updated_at : option string;
  p_state : option AgentRunState;
  p_failure_code : option string;
  p_failure_detail : option string;
  p_cart_draft_id : option string;
  p_order_id : option string
}.

Record CartDraftPayload : Type := {
  c_id : option string;
  c_agent_run_id : option string;
  c_recipe_id : option string;
  c_servings : option Z;
  c_pantry_items_removed : option Json;
  c_policies : option Json;
  c_quote_summary : option Json;
  c_checkout_session_id : option string;
  c_cart_hash : option string;
  c_quote_hash : option string;
  c_created_at : option string;
  c_updated_at : option string
}.

Record CartDraftAlternativePayload : Type := {
  a_id : option string;
  a_rank : Z;
  a_sku_json : option Json;
  a_score_breakdown_json : option Json;
  a_reason : option string;
  a_confidence : option PyFloat
}.

Record CartDraftLineItemPayload : Type := {
  l_id : option string;
  l_ingredient_key : string;
  l_canonical_ingredient_json : option Json;
  l_primary_sku_json : option Json;
  l_quantity : PyFloat;
  l_unit : option string;
  l_confidence : option PyFloat;
  l_chosen_reason : option string;
  l_substitution_policy_json : option Json;
  l_line_total_cents : option Z;
  l_alternatives : list CartDraftAlternativePayload
}.

Record CartDraftUpsertPayload : Type := {
  u_cart : CartDraftPayload;
  u_line_items : list CartDraftLineItemPayload
}.

(** The body of a cart-draft response: the serialized parent and, per line
    item, the line with its alternatives.  The [_serialize_*] helpers copy
    every column under its camelCase key, so a serialized row is kept as the
    row. *)
Record CartDraftResponse : Type := {
  cart : CartDraft;
  lineItems : list (CartDraftLineItem * list CartDraftAlternative)
}.

(** Python truthiness of [str | None]: [None] and the empty string are
    falsy. *)
Definition truthy (o : option string) : option string :=
  match o with
  | Some "" => None
  | Some v => Some v
  | None => None
  end.

(** [x or default] for [x : str | None]. *)
Definition py_or (o : option string) (default : string) : string :=
  match truthy o with
  | Some v => v
  | None => default
  end.

Section Routes.

(** [uuid4_at n] is the text of the [n]-th identifier [uuid.uuid4] hands out
    in this process. *)
Variable uuid4_at : nat -> string.

Definition _now_iso : M string := gets wall_clock.

Definition uuid4 : M string :=
  fun s => (Returned (uuid4_at (uuid_drawn s)),
            set_uuid_drawn (S (uuid_drawn s)) s).

(** [supplied or str(uuid.uuid4())]: the generator runs only when the
    supplied id is falsy. *)
Definition id_or_uuid4 (supplied : option string) : M string :=
  match truthy supplied with
  | Some v => ret v
  | None => uuid4
  end.

(** The inner loop of [_replace_cart_line_items]. *)
Fixpoint add_alternatives (line_id : string)
    (alternatives : list CartDraftAlternativePayload) : M unit :=
  match alternatives with
  | [] => ret tt
  | alt :: rest =>
      let! alt_id := id_or_uuid4 (a_id alt) in
      run! db.add_alternative
             {| alt_id := alt_id;
                alt_line_item_id := line_id;
                alt_rank := a_rank alt;
                alt_sku_json := a_sku_json alt;
                alt_score_breakdown_json := a_score_breakdown_json alt;
                alt_reason := a_reason alt;
                alt_confidence := a_confidence alt |} in
      add_alternatives line_id rest
  end.

(** The outer loop of [_replace_cart_line_items]; the result is [persisted]. *)
Fixpoint add_line_items (cart_draft_id : string)
    (line_items : list CartDraftLineItemPayload)
    : M (list CartDraftLineItem) :=
  match line_items with
  | [] => ret []
  | line :: rest =>
      let! line_id := id_or_uuid4 (l_id line) in
      let record :=
        {| li_id := line_id;
           li_cart_draft_id := cart_draft_id;
           li_ingredient_key := l_ingredient_key line;
           li_canonical_ingredient_json := l_canonical_ingredient_json line;
           li_primary_sku_json := l_primary_sku_json line;
           li_quantity := l_quantity line;
           li_unit := l_unit line;
           li_confidence := l_confidence line;
           li_chosen_reason := l_chosen_reason line;
           li_substitution_policy_json := l_substitution_policy_json line;
           li_line_total_cents := l_line_total_cents line |} in
      run! db.add_line_item record in
      run! add_alternatives line_id (l_alternatives line) in
      let! persisted := add_line_items cart_draft_id rest in
      ret (record :: persisted)
  end.

Definition _replace_cart_line_items (cart_draft_id : string)
    (line_items : list CartDraftLineItemPayload)
    : M (list CartDraftLineItem) :=
  let! existing_items := db.get_cart_draft_line_items cart_draft_id in
  let existing_ids := li_id <$> existing_items in
  run! (match existing_ids with
        | [] => ret tt
        | _ :: _ => db.delete_alternatives_in existing_ids
        end) in
  run! db.delete_cart_draft_line_items cart_draft_id in
  add_line_items cart_draft_id line_items.
(** [POST /agent-runs]. *)
Definition upsert_agent_run (payload : AgentRunPayload) : M AgentRun :=
  let! agent_run_id := id_or_uuid4 (p_id payload) in
  let! existing := db.get_agent_run agent_run_id in
  let! now_iso := _now_iso in
  match existing with
  | Some existing =>
      let existing :=
        {| ar_id := ar_id existing;
           ar_user_id :=
             match p_user_id payload with
             | Some v => Some v | None => ar_user_id existing end;
           ar_device_id :=
             match p_device_id payload with
             | Some v => Some v | None => ar_device_id existing end;
           ar_recipe_id :=
             match p_recipe_id payload with
             | Some v => Some v | None => ar_recipe_id existing end;
           ar_merchant_base_url :=
             match p_merchant_base_url payload with
             | Some v => Some v | None => ar_merchant_base_url existing end;
           ar_store_id :=
             match p_store_id payload with
             | Some v => Some v | None => ar_store_id existing end;
           ar_created_at := ar_created_at existing;
           ar_updated_at := py_or (p_updated_at payload) now_iso;
           ar_state :=
             match p_state payload with
             | Some st => value st | None => ar_state existing end;
           ar_failure_code :=
             match p_failure_code payload with
             | Some v => Some v | None => ar_failure_code existing end;
           ar_failure_detail :=
             match p_failure_detail payload with
             | Some v => Some v | None => ar_failure_detail existing end;
           ar_cart_draft_id :=
             match p_cart_draft_id payload with
             | Some v => Some v | None => ar_cart_draft_id existing end;
           ar_order_id :=
             match p_order_id payload with
             | Some v => Some v | None => ar_order_id existing end |} in
      run! db.save_agent_run agent_run_id existing in
      ret existing
  | None =>
      let agent_run :=
        {| ar_id := agent_run_id;
           ar_user_id := p_user_id payload;
           ar_device_id := p_device_id payload;
           ar_recipe_id := p_recipe_id payload;
           ar_merchant_base_url := p_merchant_base_url payload;
           ar_store_id := p_store_id payload;
           ar_created_at := py_or (p_created_at payload) now_iso;
           ar_updated_at := py_or (p_updated_at payload) now_iso;
           ar_state :=
             match p_state payload with
             | Some st => value st
             | None => value DISCOVER_MERCHANT
             end;
           ar_failure_code := p_failure_code payload;
           ar_failure_detail := p_failure_detail payload;
           ar_cart_draft_id := p_cart_draft_id payload;
           ar_order_id := p_order_id payload |} in
      run! db.save_agent_run agent_run_id agent_run in
      ret agent_run
  end.

(** [PATCH /agent-runs/{id}]. *)
Definition update_agent_run (agent_run_id : string)
    (payload : AgentRunPayload) : M AgentRun :=
  let! existing := db.get_agent_run agent_run_id in
  match existing with
  | None => raise (HTTPException 404 "Agent run not found.")
  | Some existing =>
      let! now_iso := _now_iso in
      let existing :=
        {| ar_id := ar_id existing;
           ar_user_id :=
             match p_user_id payload with
             | Some v => Some v | None => ar_user_id existing end;
           ar_device_id :=
             match p_device_id payload with
             | Some v => Some v | None => ar_device_id existing end;
           ar_recipe_id :=
             match p_recipe_id payload with
             | Some v => Some v | None => ar_recipe_id existing end;
           ar_merchant_base_url :=
             match p_merchant_base_url payload with
             | Some v => Some v | None => ar_merchant_base_url existing end;
           ar_store_id :=
             match p_store_id payload with
             | Some v => Some v | None => ar_store_id existing end;
           ar_created_at := ar_created_at existing;
           ar_updated_at := py_or (p_updated_at payload) now_iso;
           ar_state :=
             match p_state payload with
             | Some st => value st | None => ar_state existing end;
           ar_failure_code :=
             match p_failure_code payload with
             | Some v => Some v | None => ar_failure_code existing end;
           ar_failure_detail :=
             match p_failure_detail payload with
             | Some v => Some v | None => ar_failure_detail existing end;
           ar_cart_draft_id :=
             match p_cart_draft_id payload with
             | Some v => Some v | None => ar_cart_draft_id existing end;
           ar_order_id :=
             match p_order_id payload with
             | Some v => Some v | None => ar_order_id existing end |} in
      run! db.save_agent_run agent_run_id existing in
      ret existing
  end.

(** [GET /agent-runs/{id}]. *)
Definition get_agent_run (agent_run_id : string) : M AgentRun :=
  let! agent_run := db.get_agent_run agent_run_id in
  match agent_run with
  | None => raise (HTTPException 404 "Agent run not found.")
  | Some agent_run => ret agent_run
  end.

(** The re-read that closes the three cart-draft handlers: the line items of
    the draft, the dictionary [alternatives_map] filled line by line, and the
    list comprehension that pairs every line with
    [alternatives_map.get(line.id, [])]. *)
Definition alternatives_map_of (line_items : list CartDraftLineItem)
    : M (gmap string (list CartDraftAlternative)) :=
  gets (fun s =>
    foldl (fun (m : gmap string (list CartDraftAlternative)) line =>
             <[li_id line :=
                 filter (fun a => alt_line_item_id a = li_id line)
                        (cart_draft_alternatives s)]> m)
          ∅ line_items).

Definition read_line_items (cart_draft_id : string)
    : M (list (CartDraftLineItem * list CartDraftAlternative)) :=
  let! line_items := db.get_cart_draft_line_items cart_draft_id in
  let! alternatives_map := alternatives_map_of line_items in
  ret ((fun line => (line, default [] (alternatives_map !! li_id line)))
         <$> line_items).

(** [POST /cart-drafts]. *)
Definition upsert_cart_draft (payload : CartDraftUpsertPayload)
    : M CartDraftResponse :=
  let cart_payload := u_cart payload in
  let! cart_id := id_or_uuid4 (c_id cart_payload) in
  let! existing := db.get_cart_draft cart_id in
  let! now_iso := _now_iso in
  let! existing :=
    match existing with
    | Some existing =>
        let existing :=
          {| cd_id := cd_id existing;
             cd_agent_run_id :=
               match c_agent_run_id cart_payload with
               | Some v => Some v | None => cd_agent_run_id existing end;
             cd_recipe_id :=
               match c_recipe_id cart_payload with
               | Some v => Some v | None => cd_recipe_id existing end;
             cd_servings :=
               match c_servings cart_payload with
               | Some v => Some v | None => cd_servings existing end;
             cd_pantry_items_removed :=
               match c_pantry_items_removed cart_payload with
               | Some v => Some v
               | None => cd_pantry_items_removed existing end;
             cd_policies :=
               match c_policies cart_payload with
               | Some v => Some v | None => cd_policies existing end;
             cd_quote_summary :=
               match c_quote_summary cart_payload with
               | Some v => Some v | None => cd_quote_summary existing end;
             cd_checkout_session_id :=
               match c_checkout_session_id cart_payload with
               | Some v => Some v
               | None => cd_checkout_session_id existing end;
             cd_cart_hash :=
               match c_cart_hash cart_payload with
               | Some v => Some v | None => cd_cart_hash existing end;
             cd_quote_hash :=
               match c_quote_hash cart_payload with
               | Some v => Some v | None => cd_quote_hash existing end;
             cd_created_at := cd_created_at existing;
             cd_updated_at := py_or (c_updated_at cart_payload) now_iso |} in
        run! db.save_cart_draft cart_id existing in
        run! _replace_cart_line_items cart_id (u_line_items payload) in
        ret existing
    | None =>
        let cart :=
          {| cd_id := cart_id;
             cd_agent_run_id := c_agent_run_id cart_payload;
             cd_recipe_id := c_recipe_id cart_payload;
             cd_servings := c_servings cart_payload;
             cd_pantry_items_removed := c_pantry_items_removed cart_payload;
             cd_policies := c_policies cart_payload;
             cd_quote_summary := c_quote_summary cart_payload;
             cd_checkout_session_id := c_checkout_session_id cart_payload;
             cd_cart_hash := c_cart_hash cart_payload;
             cd_quote_hash := c_quote_hash cart_payload;
             cd_created_at := py_or (c_created_at cart_payload) now_iso;
             cd_updated_at := py_or (c_updated_at cart_payload) now_iso |} in
        run! db.save_cart_draft cart_id cart in
        run! _replace_cart_line_items cart_id (u_line_items payload) in
        ret cart
    end in
  let! line_items := read_line_items cart_id in
  ret {| cart := existing; lineItems := line_items |}.

(** [PATCH /cart-drafts/{id}]. *)
Definition update_cart_draft (cart_draft_id : string)
    (payload : CartDraftPayload) : M CartDraftResponse :=
  let! existing := db.get_cart_draft cart_draft_id in
  match existing with
  | None => raise (HTTPException 404 "Cart draft not found.")
  | Some existing =>
      let! now_iso := _now_iso in
      let existing :=
        {| cd_id := cd_id existing;
           cd_agent_run_id :=
             match c_agent_run_id payload with
             | Some v => Some v | None => cd_agent_run_id existing end;
           cd_recipe_id :=
             match c_recipe_id payload with
             | Some v => Some v | None => cd_recipe_id existing end;
           cd_servings :=
             match c_servings payload with
             | Some v => Some v | None => cd_servings existing end;
           cd_pantry_items_removed :=
             match c_pantry_items_removed payload with
             | Some v => Some v
             | None => cd_pantry_items_removed existing end;
           cd_policies :=
             match c_policies payload with
             | Some v => Some v | None => cd_policies existing end;
           cd_quote_summary :=
             match c_quote_summary payload with
             | Some v => Some v | None => cd_quote_summary existing end;
           cd_checkout_session_id :=
             match c_checkout_session_id payload with
             | Some v => Some v
             | None => cd_checkout_session_id existing end;
           cd_cart_hash :=
             match c_cart_hash payload with
             | Some v => Some v | None => cd_cart_hash existing end;
           cd_quote_hash :=
             match c_quote_hash payload with
             | Some v => Some v | None => cd_quote_hash existing end;
           cd_created_at := cd_created_at existing;
           cd_updated_at := py_or (c_updated_at payload) now_iso |} in
      run! db.save_cart_draft cart_draft_id existing in
      let! line_items := read_line_items cart_draft_id in
      ret {| cart := existing; lineItems := line_items |}
  end.

(** [GET /cart-drafts/{id}]. *)
Definition get_cart_draft (cart_draft_id : string)
    : M CartDraftResponse :=
  let! cart := db.get_cart_draft cart_draft_id in
  match cart with
  | None => raise (HTTPException 404 "Cart draft not found.")
  | Some cart =>
      let! line_items := read_line_items cart_draft_id in
      ret {| cart := cart; lineItems := line_items |}
  end.

End Routes.

End agent_state.

(** ** Runs of reservation calls *)

(** A run of reservation calls against one product with one per-call
    quantity; each call may carry its own fallback.  The result lists, call
    by call, what was returned and the session the call left behind. *)
Fixpoint reserve_all (product_id : string) (quantity : Z)
    (fallbacks : list (option Z)) (s : Session)
    : list (Outcome bool * Session) :=
  match fallbacks with
  | [] => []
  | fb :: rest =>
      let r := db.reserve_stock product_id quantity fb s in
      r :: reserve_all product_id quantity rest (snd r)
  end.

Definition succeeded (r : Outcome bool * Session) : bool :=
  match fst r with
  | Returned true => true
  | _ => false
  end.

Definition successes (trace : list (Outcome bool * Session)) : Z :=
  Z.of_nat (length (List.filter succeeded trace)).

Definition final_session (s : Session) (trace : list (Outcome bool * Session))
    : Session :=
  List.last (map snd trace) s.

(** The conditional decrement as one operation: run the statement once and
    report whether it touched a row. *)
Definition conditional_decrement (product_id : string) (quantity : Z) : M bool :=
  let! rowcount := db.execute_stmt product_id quantity in
  ret (bool_decide (0 < rowcount)%nat).

(** The session after the fallback branch has seeded the product. *)
Definition seeded (product_id : string) (fallback : Z) (s : Session) : Session :=
  set_inventory <[product_id := Some fallback]> s.

(** The product has no usable stock figure: no inventory row, or a row whose
    quantity is NULL. *)
Definition uninitialized (product_id : string) (s : Session) : Prop :=
  inventory s !! product_id = None ∨ inventory s !! product_id = Some None.

(** ** What a cart-draft request supplies *)

(** The id a handler settles on for a supplied, possibly absent, id when it
    starts in session [s]. *)
Definition resolved_id (uuid4_at : nat -> string) (supplied : option string)
    (s : Session) : string :=
  match agent_state.truthy supplied with
  | Some v => v
  | None => uuid4_at (uuid_drawn s)
  end.

(** A persisted line item is the supplied one: every column carries the
    supplied value, the row belongs to the draft, and the id is the supplied
    one, or a generated one when none was supplied. *)
Definition line_matches (uuid4_at : nat -> string) (cart_draft_id : string)
    (line : agent_state.CartDraftLineItemPayload) (row : CartDraftLineItem)
    : Prop :=
  match agent_state.truthy (agent_state.l_id line) with
  | Some v => li_id row = v
  | None => exists n, li_id row = uuid4_at n
  end
  /\ li_cart_draft_id row = cart_draft_id
  /\ li_ingredient_key row = agent_state.l_ingredient_key line
  /\ li_canonical_ingredient_json row
     = agent_state.l_canonical_ingredient_json line
  /\ li_primary_sku_json row = agent_state.l_primary_sku_json line
  /\ li_quantity row = agent_state.l_quantity line
  /\ li_unit row = agent_state.l_unit line
  /\ li_confidence row = agent_state.l_confidence line
  /\ li_chosen_reason row = agent_state.l_chosen_reason line
  /\ li_substitution_policy_json row
     = agent_state.l_substitution_policy_json line
  /\ li_line_total_cents row = agent_state.l_line_total_cents line.

Definition alt_matches (uuid4_at : nat -> string) (line_item_id : string)
    (alt : agent_state.CartDraftAlternativePayload)
    (row : CartDraftAlternative) : Prop :=
  match agent_state.truthy (agent_state.a_id alt) with
  | Some v => alt_id row = v
  | None => exists n, alt_id row = uuid4_at n
  end
  /\ alt_line_item_id row = line_item_id
  /\ alt_rank row = agent_state.a_rank alt
  /\ alt_sku_json row = agent_state.a_sku_json alt
  /\ alt_score_breakdown_json row = agent_state.a_score_breakdown_json alt
  /\ alt_reason row = agent_state.a_reason alt
  /\ alt_confidence row = agent_state.a_confidence alt.


(** The foreign key declared on [cart_draft_alternatives.line_item_id]:
    every alternative points at a line item that is in the store. *)
Definition alternatives_reference_line_items (s : Session) : Prop :=
  Forall (fun a => alt_line_item_id a ∈ li_id <$> cart_draft_line_items s)
         (cart_draft_alternatives s).

(** The stores the service can be in: it starts with no line items and no
    alternatives; the only writer of the two child tables is
    [upsert_cart_draft] (a call that raises is rolled back and writes
    nothing); everything else, the other routes and the passing of time
    included, leaves the two tables as they are. *)
Inductive reachable (uuid4_at : nat -> string) : Session -> Prop :=
| reachable_initial s :
    cart_draft_line_items s = [] ->
    cart_draft_alternatives s = [] ->
    reachable uuid4_at s
| reachable_elsewhere s s' :
    reachable uuid4_at s ->
    cart_draft_line_items s' = cart_draft_line_items s ->
    cart_draft_alternatives s' = cart_draft_alternatives s ->
    reachable uuid4_at s'
| reachable_upsert s payload resp s' :
    reachable uuid4_at s ->
    agent_state.upsert_cart_draft uuid4_at payload s = (Returned resp, s') ->
    reachable uuid4_at s'.

(** The columns no child-table operation writes. *)
Definition same_parents (s s' : Session) : Prop :=
  inventory s' = inventory s
  /\ agent_runs s' = agent_runs s
  /\ cart_drafts s' = cart_drafts s
  /\ wall_clock s' = wall_clock s.

Definition preserves_parents {A} (c : M A) : Prop :=
  forall s, same_parents s (snd (c s)).

(** What a computation raises, when it raises, is among the exceptions
    [P]. *)
Definition raises_only {A} (P : Exn -> Prop) (c : M A) : Prop :=
  forall s e s', c s = (Raised e, s') -> P e.

(** The store refusing a primary key that is taken. *)
Definition key_violation (e : Exn) : Prop :=
  exists table key, e = IntegrityError table key.

(** Every integer an upsert of a cart draft carries fits 64 bits:
    [servings], each [line_total_cents], each [rank]. *)
Definition line_integers_bind (line : agent_state.CartDraftLineItemPayload)
    : Prop :=
  binds (agent_state.l_line_total_cents line)
  /\ Forall (fun alt => in_int64 (agent_state.a_rank alt))
            (agent_state.l_alternatives line).

Definition integers_bind (payload : agent_state.CartDraftUpsertPayload)
    : Prop :=
  binds (agent_state.c_servings (agent_state.u_cart payload))
  /\ Forall line_integers_bind (agent_state.u_line_items payload).

(** ** Merge-patch vocabulary *)

(** A field present in the payload overwrites the stored value. *)
Definition overwrites {A} (supplied after : option A) : Prop :=
  forall v, supplied = Some v -> after = Some v.

(** A field absent from the payload leaves the stored value alone. *)
Definition keeps {A B} (supplied : option A) (before after : B) : Prop :=
  supplied = None -> after = before.

(** *** Sample data *)

Fixpoint tally (n : nat) : string :=
  match n with
  | O => ""
  | S k => "i" +:+ tally k
  end.

(** A stand-in for the identifier generator: ["uuid-"], ["uuid-i"],
    ["uuid-ii"], ... *)
Definition sample_uuid4_at (n : nat) : string := "uuid-" +:+ tally n.

Definition blank_run_payload : agent_state.AgentRunPayload :=
  {| agent_state.p_id := None;
     agent_state.p_user_id := None;
     agent_state.p_device_id := None;
     agent_state.p_recipe_id := None;
     agent_state.p_merchant_base_url := None;
     agent_state.p_store_id := None;
     agent_state.p_created_at := None;
     agent_state.p_updated_at := None;
     agent_state.p_state := None;
     agent_state.p_failure_code := None;
     agent_state.p_failure_detail := None;
     agent_state.p_cart_draft_id := None;
     agent_state.p_order_id := None |}.

(** The payload [{"state": st}]. *)
Definition state_only_payload (st : agent_state.AgentRunState)
    : agent_state.AgentRunPayload :=
  {| agent_state.p_id := None;
     agent_state.p_user_id := None;
     agent_state.p_device_id := None;
     agent_state.p_recipe_id := None;
     agent_state.p_merchant_base_url := None;
     agent_state.p_store_id := None;
     agent_state.p_created_at := None;
     agent_state.p_updated_at := None;
     agent_state.p_state := Some st;
     agent_state.p_failure_code := None;
     agent_state.p_failure_detail := None;
     agent_state.p_cart_draft_id := None;
     agent_state.p_order_id := None |}.

(** The payload [{"id": id, "createdAt": created_at}]. *)
Definition created_at_payload (id created_at : string)
    : agent_state.AgentRunPayload :=
  {| agent_state.p_id := Some id;
     agent_state.p_user_id := None;
     agent_state.p_device_id := None;
     agent_state.p_recipe_id := None;
     agent_state.p_merchant_base_url := None;
     agent_state.p_store_id := None;
     agent_state.p_created_at := Some created_at;
     agent_state.p_updated_at := None;
     agent_state.p_state := None;
     agent_state.p_failure_code := None;
     agent_state.p_failure_detail := None;
     agent_state.p_cart_draft_id := None;
     agent_state.p_order_id := None |}.

(** A payload that carries [updatedAt] only. *)
Definition updated_at_payload (updated_at : string)
    : agent_state.AgentRunPayload :=
  {| agent_state.p_id := None;
     agent_state.p_user_id := None;
     agent_state.p_device_id := None;
     agent_state.p_recipe_id := None;
     agent_state.p_merchant_base_url := None;
     agent_state.p_store_id := None;
     agent_state.p_created_at := None;
     agent_state.p_updated_at := Some updated_at;
     agent_state.p_state := None;
     agent_state.p_failure_code := None;
     agent_state.p_failure_detail := None;
     agent_state.p_cart_draft_id := None;
     agent_state.p_order_id := None |}.

Definition sample_run : AgentRun :=
  {| ar_id := "run-1";
     ar_user_id := Some "user-1";
     ar_device_id := None;
     ar_recipe_id := Some "r1";
     ar_merchant_base_url := None;
     ar_store_id := None;
     ar_created_at := "2025-12-31T00:00:00+00:00";
     ar_updated_at := "2025-12-31T00:00:00+00:00";
     ar_state := "QUOTE_CART";
     ar_failure_code := None;
     ar_failure_detail := None;
     ar_cart_draft_id := None;
     ar_order_id := None |}.

Definition cart_payload_with_id (id : option string)
    : agent_state.CartDraftPayload :=
  {| agent_state.c_id := id;
     agent_state.c_agent_run_id := None;
     agent_state.c_recipe_id := Some "r1";
     agent_state.c_servings := Some 4;
     agent_state.c_pantry_items_removed := None;
     agent_state.c_policies := None;
     agent_state.c_quote_summary := None;
     agent_state.c_checkout_session_id := None;
     agent_state.c_cart_hash := None;
     agent_state.c_quote_hash := None;
     agent_state.c_created_at := None;
     agent_state.c_updated_at := None |}.

Definition sample_alternative : agent_state.CartDraftAlternativePayload :=
  {| agent_state.a_id := None;
     agent_state.a_rank := 1;
     agent_state.a_sku_json := Some (JStr "sku-rye");
     agent_state.a_score_breakdown_json := None;
     agent_state.a_reason := Some "closest match";
     agent_state.a_confidence := None |}.

(** A line with a caller-chosen id and one alternative. *)
Definition flour_line : agent_state.CartDraftLineItemPayload :=
  {| agent_state.l_id := Some "line-flour";
     agent_state.l_ingredient_key := "flour";
     agent_state.l_canonical_ingredient_json := None;
     agent_state.l_primary_sku_json := Some (JStr "sku-wheat");
     agent_state.l_quantity := {| fnum := 5; fden := 2 |};
     agent_state.l_unit := Some "cup";
     agent_state.l_confidence := None;
     agent_state.l_chosen_reason := None;
     agent_state.l_substitution_policy_json := None;
     agent_state.l_line_total_cents := Some 349;
     agent_state.l_alternatives := [sample_alternative] |}.

(** A line without an id and without alternatives. *)
Definition eggs_line : agent_state.CartDraftLineItemPayload :=
  {| agent_state.l_id := None;
     agent_state.l_ingredient_key := "eggs";
     agent_state.l_canonical_ingredient_json := None;
     agent_state.l_primary_sku_json := None;
     agent_state.l_quantity := {| fnum := 6; fden := 1 |};
     agent_state.l_unit := None;
     agent_state.l_confidence := None;
     agent_state.l_chosen_reason := None;
     agent_state.l_substitution_policy_json := None;
     agent_state.l_line_total_cents := None;
     agent_state.l_alternatives := [] |}.

Definition sample_upsert (id : string)
    (lines : list agent_state.CartDraftLineItemPayload)
    : agent_state.CartDraftUpsertPayload :=
  {| agent_state.u_cart := cart_payload_with_id (Some id);
     agent_state.u_line_items := lines |}.

(** What a computation returned, or a fallback when it raised. *)
Definition returned_or {A} (fallback : A) (r : Outcome A * Session) : A :=
  match fst r with
  | Returned a => a
  | Raised _ => fallback
  end.

Definition blank_cart : CartDraft :=
  {| cd_id := "";
     cd_agent_run_id := None;
     cd_recipe_id := None;
     cd_servings := None;
     cd_pantry_items_removed := None;
     cd_policies := None;
     cd_quote_summary := None;
     cd_checkout_session_id := None;
     cd_cart_hash := None;
     cd_quote_hash := None;
     cd_created_at := "";
     cd_updated_at := "" |}.

Definition blank_response : agent_state.CartDraftResponse :=
  {| agent_state.cart := blank_cart; agent_state.lineItems := [] |}.


Definition empty_session : Session :=
  {| inventory := ∅;
     agent_runs := ∅;
     cart_drafts := ∅;
     cart_draft_line_items := [];
     cart_draft_alternatives := [];
     wall_clock := "2026-01-01T00:00:00+00:00";
     uuid_drawn := 0 |}.

(** A store in which ["sku-null"] has a row with a NULL quantity and
    ["sku-5"] has five units. *)
Definition stocked_session : Session :=
  set_inventory (fun _ => <["sku-null" := None]> (<["sku-5" := Some 5]> ∅))
    empty_session.

(** A store holding [sample_run] under ["run-1"]. *)
Definition run_session : Session :=
  set_agent_runs (fun _ => {["run-1" := sample_run]}) empty_session.

(** [POST /cart-drafts] of draft ["draft-1"] with the flour line (one
    alternative) and the eggs line, on the empty store. *)
Definition first_upsert : Outcome agent_state.CartDraftResponse * Session :=
  agent_state.upsert_cart_draft sample_uuid4_at
    (sample_upsert "draft-1" [flour_line; eggs_line]) empty_session.

(** The same draft posted again with the eggs line only. *)
Definition second_upsert : Outcome agent_state.CartDraftResponse * Session :=
  agent_state.upsert_cart_draft sample_uuid4_at
    (sample_upsert "draft-1" [eggs_line]) (snd first_upsert).

(** The store after the first upsert, with [sample_run] added. *)
Definition full_session : Session :=
  set_agent_runs (fun _ => {["run-1" := sample_run]}) (snd first_upsert).

(** A second, empty draft ["draft-2"] next to the first one. *)
Definition two_drafts : Session :=
  snd (agent_state.upsert_cart_draft sample_uuid4_at
         (sample_upsert "draft-2" []) (snd first_upsert)).

(** Three calls for two units each against the five units of ["sku-5"]. *)
Definition sample_trace : list (Outcome bool * Session) :=
  reserve_all "sku-5" 2 [None; Some 100; None] stocked_session.

(** One call for zero units against the five units of ["sku-5"]. *)
Definition zero_trace : list (Outcome bool * Session) :=
  reserve_all "sku-5" 0 [None] stocked_session.

(** [PATCH /agent-runs/run-1] with [{"state": "FAILED"}]. *)
Definition patch_failed : Outcome AgentRun * Session :=
  agent_state.update_agent_run "run-1"
    (state_only_payload agent_state.FAILED) run_session.

(** [PATCH /agent-runs/run-1] with a [createdAt] in the payload. *)
Definition patch_created_at : Outcome AgentRun * Session :=
  agent_state.update_agent_run "run-1"
    (created_at_payload "run-1" "2030-06-01T12:00:00+00:00") run_session.

(** ** Vocabulary of the further properties *)

(** At most the inventory row of [product_id] differs between [s] and
    [s']. *)
Definition inventory_frame (product_id : string) (s s' : Session) : Prop :=
  (forall other, other <> product_id ->
     inventory s' !! other = inventory s !! other)
  /\ agent_runs s' = agent_runs s
  /\ cart_drafts s' = cart_drafts s
  /\ cart_draft_line_items s' = cart_draft_line_items s
  /\ cart_draft_alternatives s' = cart_draft_alternatives s
  /\ wall_clock s' = wall_clock s
  /\ uuid_drawn s' = uuid_drawn s.

(** The same store at another reading of the clock. *)
Definition set_wall_clock (now : string) (s : Session) : Session :=
  {| inventory := inventory s;
     agent_runs := agent_runs s;
     cart_drafts := cart_drafts s;
     cart_draft_line_items := cart_draft_line_items s;
     cart_draft_alternatives := cart_draft_alternatives s;
     wall_clock := now;
     uuid_drawn := uuid_drawn s |}.

Definition with_updated_at (run : AgentRun) (stamp : string) : AgentRun :=
  {| ar_id := ar_id run;
     ar_user_id := ar_user_id run;
     ar_device_id := ar_device_id run;
     ar_recipe_id := ar_recipe_id run;
     ar_merchant_base_url := ar_merchant_base_url run;
     ar_store_id := ar_store_id run;
     ar_created_at := ar_created_at run;
     ar_updated_at := stamp;
     ar_state := ar_state run;
     ar_failure_code := ar_failure_code run;
     ar_failure_detail := ar_failure_detail run;
     ar_cart_draft_id := ar_cart_draft_id run;
     ar_order_id := ar_order_id run |}.

(** The payload pydantic reads from the object [_serialize_agent_run]
    writes for [run] (the handlers answer with that object under the key
    ["agentRun"]; it is the object itself that is read here, not the
    enveloping body): the serializer's keys are the payload's field names
    and aliases, a null reads as [None], and the state string reads as the
    enum member [st] it is the value of. *)
Definition echo_run_payload (run : AgentRun) (st : agent_state.AgentRunState)
    : agent_state.AgentRunPayload :=
  {| agent_state.p_id := Some (ar_id run);
     agent_state.p_user_id := ar_user_id run;
     agent_state.p_device_id := ar_device_id run;
     agent_state.p_recipe_id := ar_recipe_id run;
     agent_state.p_merchant_base_url := ar_merchant_base_url run;
     agent_state.p_store_id := ar_store_id run;
     agent_state.p_created_at := Some (ar_created_at run);
     agent_state.p_updated_at := Some (ar_updated_at run);
     agent_state.p_state := Some st;
     agent_state.p_failure_code := ar_failure_code run;
     agent_state.p_failure_detail := ar_failure_detail run;
     agent_state.p_cart_draft_id := ar_cart_draft_id run;
     agent_state.p_order_id := ar_order_id run |}.

(** The primary keys of the two child tables. *)
Definition line_item_ids_unique (s : Session) : Prop :=
  NoDup (li_id <$> cart_draft_line_items s).

Definition alternative_ids_unique (s : Session) : Prop :=
  NoDup (alt_id <$> cart_draft_alternatives s).

(** The generator does what it is for: it never repeats itself, and from
    the session's position on it yields no id that a child row holds. *)
Definition uuid4_fresh (uuid4_at : nat -> string) (s : Session) : Prop :=
  (forall i j, uuid4_at i = uuid4_at j -> i = j)
  /\ (forall k, (uuid_drawn s <= k)%nat ->
        uuid4_at k ∉ li_id <$> cart_draft_line_items s)
  /\ (forall k, (uuid_drawn s <= k)%nat ->
        uuid4_at k ∉ alt_id <$> cart_draft_alternatives s).

(** No supplied line and no supplied alternative carries an id of its
    own. *)
Definition ids_left_to_server
    (line_items : list agent_state.CartDraftLineItemPayload) : Prop :=
  Forall (fun line =>
            agent_state.truthy (agent_state.l_id line) = None
            /\ Forall (fun alt =>
                         agent_state.truthy (agent_state.a_id alt) = None)
                      (agent_state.l_alternatives line))
         line_items.

(** ** The other stores of [db.py] *)

(** What the helpers below can raise: SQLAlchemy's [MultipleResultsFound]
    (from [scalar_one_or_none]), a primary-key violation on INSERT, and
    SQLite's complaint about a column that is not there. *)
Inductive SqlError : Type :=
| MultipleResultsFound
| UniqueViolation (table : string) (key : string)
| OperationalError (message : string).

Inductive Try (A : Type) : Type :=
| Done (a : A)
| Failed (e : SqlError).
Arguments Done {A} a.
Arguments Failed {A} e.

(** A unit of work over a store [S]. *)
Definition Work (S A : Type) : Type := S -> Try A * S.

Definition work_ret {S A} (a : A) : Work S A := fun b => (Done a, b).

Definition work_bind {S A B} (c : Work S A) (k : A -> Work S B) : Work S B :=
  fun b =>
    match c b with
    | (Done a, b') => k a b'
    | (Failed e, b') => (Failed e, b')
    end.

Notation "'let?' x ':=' c 'in' k" := (work_bind c (fun x => k))
  (at level 10, x name, c at level 100, k at level 200).
Notation "'run?' c 'in' k" := (work_bind c (fun _ => k))
  (at level 10, c at level 100, k at level 200).

(** [result.scalar_one_or_none()]. *)
Definition scalar_one_or_none {S A} (rows : list A) : Work S (option A) :=
  fun b =>
    match rows with
    | [] => (Done None, b)
    | [row] => (Done (Some row), b)
    | _ :: _ :: _ => (Failed MultipleResultsFound, b)
    end.

(** *** Customers and their addresses *)

Record Customer : Type := {
  cu_id : string;
  cu_name : option string;
  cu_email : option string
}.

Record CustomerAddress : Type := {
  ca_id : string;
  ca_customer_id : option string;
  ca_street_address : option string;
  ca_city : option string;
  ca_state : option string;
  ca_postal_code : option string;
  ca_country : option string
}.

(** The [address] dictionary handed to [save_customer_address], by the keys
    the function reads; an absent key and a null both read as [None]. *)
Record AddressDict : Type := {
  d_id : option string;
  d_street_address : option string;
  d_address_locality : option string;
  d_address_region : option string;
  d_postal_code : option string;
  d_address_country : option string
}.

(** The two tables, the addresses the session has been handed with
    [session.add] but has not flushed yet, and the position of the
    identifier generator. *)
Record AddressBook : Type := {
  customers : list Customer;
  customer_addresses : list CustomerAddress;
  new_addresses : list CustomerAddress;
  ab_uuid_drawn : nat
}.

Module db_customers.

(** The INSERTs of a flush, in the order the rows were added. *)
Fixpoint insert_addresses (pending table : list CustomerAddress)
    : Try (list CustomerAddress) :=
  match pending with
  | [] => Done table
  | row :: rest =>
      if bool_decide (ca_id row ∈ ca_id <$> table)
      then Failed (UniqueViolation "customer_addresses" (ca_id row))
      else insert_addresses rest (table ++ [row])
  end.

(** The flush that precedes every query of the session (and that
    [session.flush] / [session.commit] perform). *)
Definition autoflush : Work AddressBook unit :=
  fun b =>
    match insert_addresses (new_addresses b) (customer_addresses b) with
    | Done table =>
        (Done tt,
         {| customers := customers b;
            customer_addresses := table;
            new_addresses := [];
            ab_uuid_drawn := ab_uuid_drawn b |})
    | Failed e => (Failed e, b)
    end.

(** [session.add(address)]: the row waits for the next flush. *)
Definition session_add (row : CustomerAddress) : Work AddressBook unit :=
  fun b =>
    (Done tt,
     {| customers := customers b;
        customer_addresses := customer_addresses b;
        new_addresses := new_addresses b ++ [row];
        ab_uuid_drawn := ab_uuid_drawn b |}).

(** [session.add(customer)] followed by [session.flush()]. *)
Definition add_customer_and_flush (row : Customer) : Work AddressBook unit :=
  fun b =>
    if bool_decide (cu_id row ∈ cu_id <$> customers b)
    then (Failed (UniqueViolation "customers" (cu_id row)), b)
    else
      autoflush
        {| customers := customers b ++ [row];
           customer_addresses := customer_addresses b;
           new_addresses := new_addresses b;
           ab_uuid_drawn := ab_uuid_drawn b |}.

(** [select(Customer).where(Customer.email == email)]. *)
Definition select_customers (email : string) : Work AddressBook (list Customer) :=
  run? autoflush in
  fun b => (Done (filter (fun c => cu_email c = Some email) (customers b)), b).

(** [get_customer(session, email)]. *)
Definition get_customer (email : string) : Work AddressBook (option Customer) :=
  let? rows := select_customers email in
  scalar_one_or_none rows.

(** [select(CustomerAddress).where(CustomerAddress.customer_id == id)]. *)
Definition select_addresses_of (customer_id : string)
    : Work AddressBook (list CustomerAddress) :=
  run? autoflush in
  fun b =>
    (Done (filter (fun a => ca_customer_id a = Some customer_id)
                  (customer_addresses b)), b).

(** [get_customer_addresses(session, email)]. *)
Definition get_customer_addresses (email : string)
    : Work AddressBook (list CustomerAddress) :=
  let? rows := select_customers email in
  let? customer := scalar_one_or_none rows in
  match customer with
  | None => work_ret []
  | Some customer => select_addresses_of (cu_id customer)
  end.

(** The WHERE clause of the duplicate check in [save_customer_address]: a
    comparison with [None] is rendered [IS NULL], so every column is
    compared as an optional value. *)
Definition same_address (customer_id : string) (address : AddressDict)
    (row : CustomerAddress) : Prop :=
  ca_customer_id row = Some customer_id
  /\ ca_street_address row = d_street_address address
  /\ ca_city row = d_address_locality address
  /\ ca_state row = d_address_region address
  /\ ca_postal_code row = d_postal_code address
  /\ ca_country row = d_address_country address.

#[global] Instance same_address_dec customer_id address row :
  Decision (same_address customer_id address row).
Proof. unfold same_address. apply _. Defined.

Definition select_same_address (customer_id : string) (address : AddressDict)
    : Work AddressBook (list CustomerAddress) :=
  run? autoflush in
  fun b =>
    (Done (filter (same_address customer_id address) (customer_addresses b)),
     b).

Section WithUuid.

Variable uuid4_at : nat -> string.

Definition uuid4 : Work AddressBook string :=
  fun b =>
    (Done (uuid4_at (ab_uuid_drawn b)),
     {| customers := customers b;
        customer_addresses := customer_addresses b;
        new_addresses := new_addresses b;
        ab_uuid_drawn := S (ab_uuid_drawn b) |}).

(** [save_customer_address(session, email, address)]. *)
Definition save_customer_address (email : string) (address : AddressDict)
    : Work AddressBook string :=
  let? customer := get_customer email in
  let? customer :=
    match customer with
    | Some customer => work_ret customer
    | None =>
        let? id := uuid4 in
        let customer :=
          {| cu_id := id; cu_name := Some "Unknown"; cu_email := Some email |} in
        run? add_customer_and_flush customer in
        work_ret customer
    end in
  let? rows := select_same_address (cu_id customer) address in
  let? existing_addr := scalar_one_or_none rows in
  match existing_addr with
  | Some existing_addr => work_ret (ca_id existing_addr)
  | None =>
      let? new_id :=
        match agent_state.truthy (d_id address) with
        | Some id => work_ret id
        | None => uuid4
        end in
      run? session_add
             {| ca_id := new_id;
                ca_customer_id := Some (cu_id customer);
                ca_street_address := d_street_address address;
                ca_city := d_address_locality address;
                ca_state := d_address_region address;
                ca_postal_code := d_postal_code address;
                ca_country := d_address_country address |} in
      work_ret new_id
  end.

End WithUuid.

End db_customers.

(** Two dictionaries describe the same address when they agree on every key
    but ["id"]. *)
Definition same_content (a b : AddressDict) : Prop :=
  d_street_address a = d_street_address b
  /\ d_address_locality a = d_address_locality b
  /\ d_address_region a = d_address_region b
  /\ d_postal_code a = d_postal_code b
  /\ d_address_country a = d_address_country b.

(** Nothing waits to be flushed. *)
Definition settled (b : AddressBook) : Prop := new_addresses b = [].

(** No lookup the helpers make can come back ambiguous: an email names at
    most one customer, and a customer holds an address at most once. *)
Definition unambiguous (b : AddressBook) : Prop :=
  (forall email,
     (length (filter (fun c => cu_email c = Some email) (customers b)) <= 1)%nat)
  /\ (forall customer_id address,
       (length (filter (db_customers.same_address customer_id address)
                       (customer_addresses b)) <= 1)%nat).

(** *** The product catalog *)

(** A row of [products], keyed by its id in the table.  The last column is
    only there in catalogs created with it. *)
Record ProductRow : Type := {
  pr_title : option string;
  pr_price : option Z;
  pr_image_url : option string;
  pr_inventory_quantity : option Z
}.

(** The catalog database: whether the [products] table has the
    [inventory_quantity] column, and its rows. *)
Record Catalog : Type := {
  has_inventory_quantity_column : bool;
  products : gmap string ProductRow
}.

Module db_catalog.

(** [list_products(session)]: every row with its id. *)
Definition list_products (c : Catalog) : list (string * ProductRow) :=
  map_to_list (products c).

(** [_products_have_inventory_column(session)].  The second argument and
    the second component of the result are the module-level
    [_PRODUCTS_HAS_INVENTORY_COLUMN] before and after the call. *)
Definition _products_have_inventory_column (c : Catalog)
    (cached : option bool) : bool * option bool :=
  match cached with
  | Some answer => (answer, cached)
  | None =>
      (has_inventory_quantity_column c,
       Some (has_inventory_quantity_column c))
  end.

Definition products_have_inventory_column (c : Catalog)
    (cached : option bool) : bool * option bool :=
  _products_have_inventory_column c cached.

(** [get_product_inventory_quantity(session, product_id)]. *)
Definition get_product_inventory_quantity (c : Catalog) (product_id : string)
    : Work (option bool) (option Z) :=
  fun cached =>
    let (has_column, cached) := _products_have_inventory_column c cached in
    if has_column then
      if has_inventory_quantity_column c
      then (Done (products c !! product_id ≫= pr_inventory_quantity), cached)
      else (Failed (OperationalError "no such column: products.inventory_quantity"),
            cached)
    else (Done None, cached).

End db_catalog.

(** ** The catalog route ([routes/products.py]) *)

Module products_route.

(** An element of the ["products"] list.  The ["inventory_quantity"] key is
    absent ([None]) or present with a possibly null value. *)
Record Item : Type := {
  item_id : string;
  item_title : option string;
  item_price : option Z;
  item_image_url : option string;
  item_inventory_quantity : option (option Z)
}.

(** The loop of [list_products]. *)
Fixpoint items_of (c : Catalog) (has_inventory : bool)
    (rows : list (string * ProductRow)) : Work (option bool) (list Item) :=
  match rows with
  | [] => work_ret []
  | (id, product) :: rest =>
      let? quantity :=
        if has_inventory
        then let? q := db_catalog.get_product_inventory_quantity c id in
             work_ret (Some q)
        else work_ret None in
      let item :=
        {| item_id := id;
           item_title := pr_title product;
           item_price := pr_price product;
           item_image_url := pr_image_url product;
           item_inventory_quantity := quantity |} in
      let? response := items_of c has_inventory rest in
      work_ret (item :: response)
  end.

(** [GET /products]. *)
Definition list_products (c : Catalog) : Work (option bool) (list Item) :=
  let products := db_catalog.list_products c in
  let? has_inventory :=
    (fun cached =>
       let (answer, cached) :=
         db_catalog.products_have_inventory_column c cached in
       (Done answer, cached)) in
  items_of c has_inventory products.

End products_route.

(** ** The catalog import ([import_grocery.py]) *)

Module import_grocery.

Record GroceryItem : Type := {
  g_id : string;
  g_title : string;
  g_price : Z;
  g_inventory : Z
}.

Definition grocery (id title : string) (price inventory : Z) : GroceryItem :=
  {| g_id := id; g_title := title; g_price := price; g_inventory := inventory |}.

Definition GROCERY_ITEMS : list GroceryItem :=
  [
    grocery "milk" "Whole Milk" 399 100;
    grocery "eggs" "Free Range Eggs" 449 100;
    grocery "pasta" "Spaghetti Pasta" 289 100;
    grocery "parmesan" "Parmesan Wedge" 599 100;
    grocery "bacon" "Smoked Bacon" 699 100;
    grocery "avocado" "Avocado" 199 100;
    grocery "tomato" "Roma Tomatoes" 249 100;
    grocery "onion" "Yellow Onion" 149 100;
    grocery "lime" "Fresh Lime" 99 100;
    grocery "jalapeno" "Jalapeno Pepper" 129 100;
    grocery "cilantro" "Cilantro Bunch" 129 100;
    grocery "tortillas" "Corn Tortillas" 299 100;
    grocery "ground_beef" "Ground Beef" 899 100;
    grocery "taco_seasoning" "Taco Seasoning" 199 100;
    grocery "cheddar" "Cheddar Cheese" 549 100;
    grocery "lettuce" "Romaine Lettuce" 249 100;
    grocery "chicken_breast" "Chicken Breast" 1099 100;
    grocery "rice" "Jasmine Rice" 299 100;
    grocery "black_beans" "Black Beans" 179 100;
    grocery "garlic" "Garlic" 99 100;
    grocery "olive_oil" "Olive Oil" 799 100;
    grocery "butter" "Unsalted Butter" 399 100;
    grocery "bread" "Sourdough Bread" 499 100;
    grocery "cucumber" "Cucumber" 149 100;
    grocery "greek_yogurt" "Greek Yogurt" 549 100;
    grocery "lemon" "Lemon" 99 100;
    grocery "basil" "Fresh Basil" 199 100;
    grocery "salmon" "Atlantic Salmon" 1299 100;
    grocery "soy_sauce" "Soy Sauce" 299 100;
    grocery "ginger" "Ginger" 129 100;
    grocery "bell_pepper" "Bell Pepper" 179 100;
    grocery "mushrooms" "Cremini Mushrooms" 349 100;
    grocery "spinach" "Baby Spinach" 299 100;
    grocery "shrimp" "Shrimp" 1199 100;
    grocery "flour" "All Purpose Flour" 259 100;
    grocery "sugar" "Cane Sugar" 239 100;
    grocery "oats" "Rolled Oats" 329 100;
    grocery "strawberries" "Strawberries" 399 100;
    grocery "honey" "Wildflower Honey" 599 100;
    grocery "chickpeas" "Chickpeas" 189 100;
    grocery "quinoa" "Quinoa" 399 100;
    grocery "feta" "Feta Cheese" 549 100;
    grocery "salt" "Sea Salt" 149 100
  ].

(** The f-string [https://picsum.photos/seed/{id}/400/300]. *)
Definition image_url (id : string) : string :=
  "https://picsum.photos/seed/" +:+ id +:+ "/400/300".

(** The [rows] list built by [main]. *)
Definition rows_of (items : list GroceryItem) : list (string * ProductRow) :=
  (fun item =>
     (g_id item,
      {| pr_title := Some (g_title item);
         pr_price := Some (g_price item);
         pr_image_url := Some (image_url (g_id item));
         pr_inventory_quantity := Some (g_inventory item) |})) <$> items.

(** [conn.executemany(INSERT ...)] into a table with [id] as primary key. *)
Fixpoint executemany (rows : list (string * ProductRow))
    (table : gmap string ProductRow) : Try (gmap string ProductRow) :=
  match rows with
  | [] => Done table
  | (id, row) :: rest =>
      match table !! id with
      | Some _ => Failed (UniqueViolation "products" id)
      | None => executemany rest (<[id := row]> table)
      end
  end.

(** [main]: drop the table, create it with the inventory column, insert
    the rows and commit.  The two DDL statements take effect at once; when
    an INSERT is refused the connection is closed without a commit, which
    leaves the new table empty. *)
Definition main : Work Catalog unit :=
  fun _ =>
    let created :=
      {| has_inventory_quantity_column := true; products := ∅ |} in
    match executemany (rows_of GROCERY_ITEMS) (products created) with
    | Done table =>
        (Done tt, {| has_inventory_quantity_column := true; products := table |})
    | Failed e => (Failed e, created)
    end.

End import_grocery.

(** *** Checkout sessions and orders *)

Record CheckoutSession : Type := {
  cs_status : option string;
  cs_data : option Json
}.

(** The [checkouts] and [orders] tables, keyed by id; an order row is its
    [data] column. *)
Record Documents : Type := {
  checkouts : gmap string CheckoutSession;
  orders : gmap string (option Json)
}.

Module db_documents.

(** [save_checkout(session, checkout_id, status, checkout_obj)]. *)
Definition save_checkout (checkout_id status : string) (checkout_obj : Json)
    (d : Documents) : Documents :=
  match checkouts d !! checkout_id with
  | Some existing =>
      {| checkouts :=
           <[checkout_id := {| cs_status := Some status;
                               cs_data := Some checkout_obj |}]> (checkouts d);
         orders := orders d |}
  | None =>
      {| checkouts :=
           <[checkout_id := {| cs_status := Some status;
                               cs_data := Some checkout_obj |}]> (checkouts d);
         orders := orders d |}
  end.

(** [get_checkout_session(session, checkout_id)]. *)
Definition get_checkout_session (checkout_id : string) (d : Documents)
    : option Json :=
  match checkouts d !! checkout_id with
  | Some result => cs_data result
  | None => None
  end.

(** [save_order(session, order_id, order_obj)]. *)
Definition save_order (order_id : string) (order_obj : Json) (d : Documents)
    : Documents :=
  match orders d !! order_id with
  | Some existing =>
      {| checkouts := checkouts d;
         orders := <[order_id := Some order_obj]> (orders d) |}
  | None =>
      {| checkouts := checkouts d;
         orders := <[order_id := Some order_obj]> (orders d) |}
  end.

(** [get_order(session, order_id)]. *)
Definition get_order (order_id : string) (d : Documents) : option Json :=
  match orders d !! order_id with
  | Some result => result
  | None => None
  end.

End db_documents.

(** ** The step log ([routes/agent_state.py], [create_agent_run_step]) *)



Module agent_state_steps.


Section WithUuid.

Variable uuid4_at : nat -> string.


End WithUuid.

End agent_state_steps.




(** ** Posting back a cart-draft body *)

(** The payload pydantic reads from the body the three cart-draft handlers
    return: [cart] and [lineItems] are the payload's keys, each serialized
    row carries the payload's keys (and a few more, which are ignored), and a
    null reads as [None]. *)
Definition echo_cart_payload (draft : CartDraft) : agent_state.CartDraftPayload :=
  {| agent_state.c_id := Some (cd_id draft);
     agent_state.c_agent_run_id := cd_agent_run_id draft;
     agent_state.c_recipe_id := cd_recipe_id draft;
     agent_state.c_servings := cd_servings draft;
     agent_state.c_pantry_items_removed := cd_pantry_items_removed draft;
     agent_state.c_policies := cd_policies draft;
     agent_state.c_quote_summary := cd_quote_summary draft;
     agent_state.c_checkout_session_id := cd_checkout_session_id draft;
     agent_state.c_cart_hash := cd_cart_hash draft;
     agent_state.c_quote_hash := cd_quote_hash draft;
     agent_state.c_created_at := Some (cd_created_at draft);
     agent_state.c_updated_at := Some (cd_updated_at draft) |}.

Definition echo_alternative (row : CartDraftAlternative)
    : agent_state.CartDraftAlternativePayload :=
  {| agent_state.a_id := Some (alt_id row);
     agent_state.a_rank := alt_rank row;
     agent_state.a_sku_json := alt_sku_json row;
     agent_state.a_score_breakdown_json := alt_score_breakdown_json row;
     agent_state.a_reason := alt_reason row;
     agent_state.a_confidence := alt_confidence row |}.

Definition echo_line (entry : CartDraftLineItem * list CartDraftAlternative)
    : agent_state.CartDraftLineItemPayload :=
  {| agent_state.l_id := Some (li_id (fst entry));
     agent_state.l_ingredient_key := li_ingredient_key (fst entry);
     agent_state.l_canonical_ingredient_json :=
       li_canonical_ingredient_json (fst entry);
     agent_state.l_primary_sku_json := li_primary_sku_json (fst entry);
     agent_state.l_quantity := li_quantity (fst entry);
     agent_state.l_unit := li_unit (fst entry);
     agent_state.l_confidence := li_confidence (fst entry);
     agent_state.l_chosen_reason := li_chosen_reason (fst entry);
     agent_state.l_substitution_policy_json :=
       li_substitution_policy_json (fst entry);
     agent_state.l_line_total_cents := li_line_total_cents (fst entry);
     agent_state.l_alternatives := echo_alternative <$> snd entry |}.

Definition echo_upsert (resp : agent_state.CartDraftResponse)
    : agent_state.CartDraftUpsertPayload :=
  {| agent_state.u_cart := echo_cart_payload (agent_state.cart resp);
     agent_state.u_line_items := echo_line <$> agent_state.lineItems resp |}.

(** No child row has the empty string for an id. *)
Definition child_ids_nonempty (s : Session) : Prop :=
  Forall (fun r => li_id r <> "") (cart_draft_line_items s)
  /\ Forall (fun a => alt_id a <> "") (cart_draft_alternatives s).

(** The integers of the child rows are ones an INTEGER column holds: the
    insert of any other raises before a row is written. *)
Definition child_integers_bind (s : Session) : Prop :=
  Forall (fun r => binds (li_line_total_cents r)) (cart_draft_line_items s)
  /\ Forall (fun a => in_int64 (alt_rank a)) (cart_draft_alternatives s).

(** What GET lists for a draft. *)
Definition children_of (cart_draft_id : string) (s : Session)
    : list (CartDraftLineItem * list CartDraftAlternative) :=
  (fun line =>
     (line, filter (fun a => alt_line_item_id a = li_id line)
                   (cart_draft_alternatives s)))
    <$> filter (fun r => li_cart_draft_id r = cart_draft_id)
               (cart_draft_line_items s).

(** ** Sample data for the further properties *)

(** [POST /agent-runs] with an id of the caller's choosing. *)
Definition run_payload_with_id (id : string) : agent_state.AgentRunPayload :=
  {| agent_state.p_id := Some id;
     agent_state.p_user_id := Some "user-1";
     agent_state.p_device_id := None;
     agent_state.p_recipe_id := Some "r1";
     agent_state.p_merchant_base_url := None;
     agent_state.p_store_id := None;
     agent_state.p_created_at := None;
     agent_state.p_updated_at := None;
     agent_state.p_state := None;
     agent_state.p_failure_code := None;
     agent_state.p_failure_detail := None;
     agent_state.p_cart_draft_id := None;
     agent_state.p_order_id := None |}.

Definition first_run_upsert : Outcome AgentRun * Session :=
  agent_state.upsert_agent_run sample_uuid4_at (run_payload_with_id "run-7")
    empty_session.

Definition blank_run : AgentRun :=
  {| ar_id := "";
     ar_user_id := None;
     ar_device_id := None;
     ar_recipe_id := None;
     ar_merchant_base_url := None;
     ar_store_id := None;
     ar_created_at := "";
     ar_updated_at := "";
     ar_state := "";
     ar_failure_code := None;
     ar_failure_detail := None;
     ar_cart_draft_id := None;
     ar_order_id := None |}.


(** The eggs line posted as draft ["draft-2"] next to ["draft-1"]. *)
Definition other_upsert : Outcome agent_state.CartDraftResponse * Session :=
  agent_state.upsert_cart_draft sample_uuid4_at
    (sample_upsert "draft-2" [eggs_line]) (snd first_upsert).

(** The flour line without its id. *)
Definition anonymous_flour_line : agent_state.CartDraftLineItemPayload :=
  {| agent_state.l_id := None;
     agent_state.l_ingredient_key := "flour";
     agent_state.l_canonical_ingredient_json := None;
     agent_state.l_primary_sku_json := Some (JStr "sku-wheat");
     agent_state.l_quantity := {| fnum := 5; fden := 2 |};
     agent_state.l_unit := Some "cup";
     agent_state.l_confidence := None;
     agent_state.l_chosen_reason := None;
     agent_state.l_substitution_policy_json := None;
     agent_state.l_line_total_cents := Some 349;
     agent_state.l_alternatives := [sample_alternative] |}.

(** The flour line (one alternative) posted without ids, as draft
    ["draft-3"], on the empty store. *)
Definition anonymous_upsert : agent_state.CartDraftUpsertPayload :=
  sample_upsert "draft-3" [anonymous_flour_line].

(** *** Address books *)

Definition empty_book : AddressBook :=
  {| customers := [];
     customer_addresses := [];
     new_addresses := [];
     ab_uuid_drawn := 0 |}.

Definition home_address : AddressDict :=
  {| d_id := None;
     d_street_address := Some "1 Main St";
     d_address_locality := Some "Springfield";
     d_address_region := None;
     d_postal_code := Some "12345";
     d_address_country := Some "US" |}.

(** The same address under an id of the caller's choosing. *)
Definition home_address_with_id : AddressDict :=
  {| d_id := Some "addr-9";
     d_street_address := Some "1 Main St";
     d_address_locality := Some "Springfield";
     d_address_region := None;
     d_postal_code := Some "12345";
     d_address_country := Some "US" |}.

Definition first_save : Try string * AddressBook :=
  db_customers.save_customer_address sample_uuid4_at "ann@example.com"
    home_address empty_book.

Definition second_save : Try string * AddressBook :=
  db_customers.save_customer_address sample_uuid4_at "ann@example.com"
    home_address_with_id (snd first_save).

(** Two customers registered under one email. *)
Definition shared_email_book : AddressBook :=
  {| customers :=
       [ {| cu_id := "c1"; cu_name := Some "Ann";
            cu_email := Some "ann@example.com" |};
         {| cu_id := "c2"; cu_name := Some "Ann B.";
            cu_email := Some "ann@example.com" |} ];
     customer_addresses := [];
     new_addresses := [];
     ab_uuid_drawn := 0 |}.

(** *** Catalogs *)

Definition milk_row : ProductRow :=
  {| pr_title := Some "Whole Milk";
     pr_price := Some 399;
     pr_image_url := None;
     pr_inventory_quantity := Some 12 |}.

Definition sample_catalog : Catalog :=
  {| has_inventory_quantity_column := true;
     products := {["milk" := milk_row]} |}.

(** The same rows in a table created without the column. *)
Definition legacy_catalog : Catalog :=
  {| has_inventory_quantity_column := false;
     products := {["milk" := milk_row]} |}.

(** *** Step logs *)




(** The rows a listing gave, or none when it failed. *)
Definition returned_rows {S A} (r : Try (list A) * S) : list A :=
  match fst r with
  | Done rows => rows
  | Failed _ => []
  end.

(** * Properties *)

(** ** Inventory reservation *)

Section ReserveStock.

Implicit Types (product_id : string) (quantity fallback stock : Z) (s : Session).

Lemma execute_stmt_overflow product_id quantity s :
  ~ in_int64 quantity ->
  db.execute_stmt product_id quantity s = (Raised OverflowError, s).
Proof. intros H. unfold db.execute_stmt. by rewrite bool_decide_eq_false_2. Qed.

Lemma sqlite_sub_exact stock quantity :
  in_int64 stock -> in_int64 (stock - quantity) ->
  sqlite_sub stock quantity = stock - quantity.
Proof. intros H1 H2. unfold sqlite_sub. by rewrite bool_decide_eq_true_2. Qed.

(** A non-negative quantity that the stock covers never overflows. *)
Lemma sqlite_sub_covered stock quantity :
  in_int64 stock -> 0 <= quantity <= stock ->
  sqlite_sub stock quantity = stock - quantity.
Proof.
  intros H1 H2. apply sqlite_sub_exact; [done|].
  unfold in_int64 in *. lia.
Qed.

Lemma execute_stmt_stocked product_id quantity stock s :
  in_int64 quantity ->
  inventory s !! product_id = Some (Some stock) ->
  db.execute_stmt product_id quantity s =
    if bool_decide (quantity <= stock)
    then (Returned 1%nat,
          set_inventory <[product_id := Some (sqlite_sub stock quantity)]> s)
    else (Returned 0%nat, s).
Proof.
  intros Hq H. unfold db.execute_stmt.
  by rewrite bool_decide_eq_true_2, H.
Qed.

Lemma execute_stmt_uninitialized product_id quantity s :
  in_int64 quantity ->
  uninitialized product_id s ->
  db.execute_stmt product_id quantity s = (Returned 0%nat, s).
Proof.
  intros Hq [H|H]; unfold db.execute_stmt;
    by rewrite bool_decide_eq_true_2, H.
Qed.

Lemma seeded_lookup product_id fallback s :
  inventory (seeded product_id fallback s) !! product_id = Some (Some fallback).
Proof. cbn. apply lookup_insert_eq. Qed.

Lemma flush_quantity_seeds product_id fallback s :
  in_int64 fallback ->
  db.flush_quantity product_id fallback s
  = (Returned tt, seeded product_id fallback s).
Proof. intros H. unfold db.flush_quantity. by rewrite bool_decide_eq_true_2. Qed.

Lemma flush_quantity_overflow product_id fallback s :
  ~ in_int64 fallback ->
  db.flush_quantity product_id fallback s = (Raised OverflowError, s).
Proof. intros H. unfold db.flush_quantity. by rewrite bool_decide_eq_false_2. Qed.

(** A quantity that cannot be bound stops the call at its first statement. *)
Lemma reserve_stock_overflow product_id quantity fb s :
  ~ in_int64 quantity ->
  db.reserve_stock product_id quantity fb s = (Raised OverflowError, s).
Proof.
  intros H. unfold db.reserve_stock, bind.
  by rewrite (execute_stmt_overflow _ _ _ H).
Qed.

(** What a call does when the product already has a stock figure: the
    fallback plays no part. *)
Lemma reserve_stock_stocked product_id quantity fb stock s :
  in_int64 quantity ->
  inventory s !! product_id = Some (Some stock) ->
  db.reserve_stock product_id quantity fb s =
    if bool_decide (quantity <= stock)
    then (Returned true,
          set_inventory <[product_id := Some (sqlite_sub stock quantity)]> s)
    else (Returned false, s).
Proof.
  intros Hq H. unfold db.reserve_stock, bind.
  rewrite (execute_stmt_stocked _ _ _ _ Hq H).
  case_bool_decide as Hle; [done|].
  rewrite (bool_decide_eq_false_2 (0 < 0)%nat) by lia.
  destruct fb as [f|]; [|done].
  unfold db.session_get, gets, bind. rewrite H.
  unfold ret at 1. rewrite (execute_stmt_stocked _ _ _ _ Hq H).
  by rewrite bool_decide_eq_false_2.
Qed.

Lemma reserve_stock_uninitialized product_id quantity fallback s :
  in_int64 quantity ->
  in_int64 fallback ->
  uninitialized product_id s ->
  db.reserve_stock product_id quantity (Some fallback) s =
    conditional_decrement product_id quantity (seeded product_id fallback s).
Proof.
  intros Hq Hf Hu. unfold db.reserve_stock, conditional_decrement, bind.
  rewrite (execute_stmt_uninitialized _ _ _ Hq Hu).
  rewrite (bool_decide_eq_false_2 (0 < 0)%nat) by lia.
  unfold db.session_get, gets.
  destruct Hu as [H|H]; rewrite H;
    by rewrite (flush_quantity_seeds _ _ _ Hf).
Qed.

(** A fallback that cannot be bound: the flush raises and nothing is
    seeded. *)
Lemma reserve_stock_fallback_overflow product_id quantity fallback s :
  in_int64 quantity ->
  ~ in_int64 fallback ->
  uninitialized product_id s ->
  db.reserve_stock product_id quantity (Some fallback) s
  = (Raised OverflowError, s).
Proof.
  intros Hq Hf Hu. unfold db.reserve_stock, bind.
  rewrite (execute_stmt_uninitialized _ _ _ Hq Hu).
  rewrite (bool_decide_eq_false_2 (0 < 0)%nat) by lia.
  unfold db.session_get, gets.
  destruct Hu as [H|H]; rewrite H;
    by rewrite (flush_quantity_overflow _ _ _ Hf).
Qed.

Lemma conditional_decrement_seeded product_id quantity fallback s :
  in_int64 quantity ->
  conditional_decrement product_id quantity (seeded product_id fallback s) =
    if bool_decide (quantity <= fallback)
    then (Returned true,
          set_inventory
            <[product_id := Some (sqlite_sub fallback quantity)]> s)
    else (Returned false, seeded product_id fallback s).
Proof.
  intros Hq. unfold conditional_decrement, bind.
  rewrite (execute_stmt_stocked _ _ fallback) by (done || apply seeded_lookup).
  case_bool_decide; [|done].
  unfold ret. rewrite (bool_decide_eq_true_2 (0 < 1)%nat) by lia.
  f_equal. unfold seeded, set_inventory; cbn. by rewrite insert_insert_eq.
Qed.

(** C2 (amended). When the first conditional decrement touches no row and a
    fallback that fits 64 bits is supplied, an uninitialized product (no
    row, or a row with a NULL quantity) is seeded with the fallback, and the
    call is then exactly one more conditional decrement on the seeded
    store, whose outcome it returns: true, leaving [fallback - quantity],
    when the fallback covers the quantity, and false, leaving the fallback,
    when it does not.  With quantity 30 and fallback 100 the call returns
    true and leaves 70 in stock. *)
Theorem reserve_stock_fallback_seeds_then_retries product_id quantity fallback s :
  uninitialized product_id s ->
  in_int64 quantity ->
  in_int64 fallback ->
  db.execute_stmt product_id quantity s = (Returned 0%nat, s)
  /\ inventory (seeded product_id fallback s) !! product_id = Some (Some fallback)
  /\ (forall other, other <> product_id ->
        inventory (seeded product_id fallback s) !! other = inventory s !! other)
  /\ db.reserve_stock product_id quantity (Some fallback) s =
       conditional_decrement product_id quantity (seeded product_id fallback s)
  /\ (quantity <= fallback -> in_int64 (fallback - quantity) ->
      db.reserve_stock product_id quantity (Some fallback) s =
        (Returned true,
         set_inventory <[product_id := Some (fallback - quantity)]> s))
  /\ (fallback < quantity ->
      db.reserve_stock product_id quantity (Some fallback) s =
        (Returned false, seeded product_id fallback s))
  /\ fst (db.reserve_stock product_id 30 (Some 100) s) = Returned true
  /\ db.get_inventory product_id
       (snd (db.reserve_stock product_id 30 (Some 100) s)) = Some 70.
Proof.
  intros Hu Hq Hf.
  split; [by apply execute_stmt_uninitialized|].
  split; [apply seeded_lookup|].
  split; [intros other Hne; cbn; by rewrite lookup_insert_ne|].
  split; [by apply reserve_stock_uninitialized|].
  split.
  { intros Hle Hd. rewrite reserve_stock_uninitialized by done.
    rewrite conditional_decrement_seeded by done.
    rewrite bool_decide_eq_true_2 by done.
    by rewrite sqlite_sub_exact. }
  split.
  { intros Hlt. rewrite reserve_stock_uninitialized by done.
    rewrite conditional_decrement_seeded by done.
    by rewrite bool_decide_eq_false_2 by lia. }
  assert (H30 : in_int64 30) by (unfold in_int64; lia).
  assert (H100 : in_int64 100) by (unfold in_int64; lia).
  rewrite reserve_stock_uninitialized by done.
  rewrite conditional_decrement_seeded by done.
  rewrite bool_decide_eq_true_2 by lia.
  rewrite sqlite_sub_exact by (unfold in_int64; lia). cbn.
  split; [done|].
  unfold db.get_inventory; cbn. by rewrite lookup_insert_eq.
Qed.

(** C4. A call without a fallback whose conditional decrement touches no
    row returns the boolean false, raises nothing and leaves the session as
    it found it. *)
Theorem reserve_stock_insufficient_returns_false product_id quantity s :
  fst (db.execute_stmt product_id quantity s) = Returned 0%nat ->
  db.reserve_stock product_id quantity None s = (Returned false, s).
Proof.
  unfold db.reserve_stock, bind, db.execute_stmt.
  case_bool_decide; [|discriminate].
  destruct (inventory s !! product_id) as [[stock|]|]; cbn;
    [case_bool_decide; cbn; [discriminate|] | |]; intros _;
    by rewrite (bool_decide_eq_false_2 (0 < 0)%nat) by lia.
Qed.

(** C9 (amended). A failed reservation can still write: with a quantity
    and a fallback that fit 64 bits, the fallback smaller than the
    quantity, and an uninitialized product, the call returns false and
    leaves the product seeded with the fallback. *)
Theorem reserve_stock_failed_call_seeds product_id quantity fallback s :
  uninitialized product_id s ->
  in_int64 quantity ->
  in_int64 fallback ->
  fallback < quantity ->
  db.reserve_stock product_id quantity (Some fallback) s =
    (Returned false, seeded product_id fallback s)
  /\ db.get_inventory product_id (seeded product_id fallback s) = Some fallback
  /\ db.get_inventory product_id s = None
  /\ seeded product_id fallback s <> s.
Proof.
  intros Hu Hq Hf Hlt.
  assert (Hget : db.get_inventory product_id s = None).
  { unfold db.get_inventory. by destruct Hu as [-> | ->]. }
  assert (Hget' : db.get_inventory product_id (seeded product_id fallback s)
                  = Some fallback).
  { unfold db.get_inventory. by rewrite seeded_lookup. }
  split.
  { rewrite reserve_stock_uninitialized by done.
    rewrite conditional_decrement_seeded by done.
    by rewrite bool_decide_eq_false_2 by lia. }
  split; [done|]. split; [done|].
  intros Heq. rewrite Heq in Hget'. congruence.
Qed.

Lemma successes_cons r trace :
  successes (r :: trace) = (if succeeded r then 1 else 0) + successes trace.
Proof.
  unfold successes. cbn [List.filter].
  destruct (succeeded r); cbn [length]; lia.
Qed.

Lemma last_cons_default {A} (l : list A) (a d : A) :
  List.last (a :: l) d = List.last l a.
Proof.
  revert a d. induction l as [|x l IH]; intros a d; [done|].
  change (List.last (a :: x :: l) d) with (List.last (x :: l) d).
  by rewrite !IH.
Qed.

Lemma final_session_cons s r trace :
  final_session s (r :: trace) = final_session (snd r) trace.
Proof. unfold final_session. cbn [map]. apply last_cons_default. Qed.

(** The accounting behind a run of calls against a product that holds an
    INTEGER stock.  A call whose quantity cannot be bound raises and counts
    for nothing. *)
Lemma reserve_all_accounting product_id quantity fallbacks :
  0 <= quantity ->
  forall stock s,
    inventory s !! product_id = Some (Some stock) ->
    0 <= stock ->
    in_int64 stock ->
    let trace := reserve_all product_id quantity fallbacks s in
    quantity * successes trace <= stock
    /\ db.get_inventory product_id (final_session s trace)
        = Some (stock - quantity * successes trace)
    /\ Forall (fun r =>
                 (in_int64 quantity -> exists b, fst r = Returned b)
                 /\ (~ in_int64 quantity -> r = (Raised OverflowError, s))
                 /\ exists left, db.get_inventory product_id (snd r)
                                 = Some left /\ 0 <= left) trace.
Proof.
  intros Hq.
  induction fallbacks as [|fb rest IH]; intros stock s Hs Hstock H64; cbn zeta.
  - cbn. unfold successes, final_session, db.get_inventory; cbn.
    rewrite Hs; cbn. split; [lia|]. split; [f_equal; lia | constructor].
  - cbn [reserve_all]. cbn zeta.
    rewrite successes_cons, final_session_cons.
    destruct (decide (in_int64 quantity)) as [Hin|Hout].
    + rewrite (reserve_stock_stocked _ _ _ _ _ Hin Hs).
      case_bool_decide as Hle.
      * rewrite sqlite_sub_covered by (done || lia).
        set (s1 := set_inventory <[product_id := Some (stock - quantity)]> s).
        assert (Hs1 : inventory s1 !! product_id
                      = Some (Some (stock - quantity)))
          by (cbn; apply lookup_insert_eq).
        destruct (IH (stock - quantity) s1 Hs1 ltac:(lia)
                    ltac:(unfold in_int64 in *; lia)) as (Hb & Hf & Hall).
        cbn [fst snd succeeded].
        split; [lia|]. split; [rewrite Hf; f_equal; lia|].
        constructor.
        { cbn [fst snd]. split; [by eexists|]. split; [done|].
          exists (stock - quantity).
          unfold db.get_inventory. rewrite Hs1. split; [done|lia]. }
        eapply Forall_impl; [exact Hall|].
        intros r (Hr1 & _ & Hr3). split; [done|]. split; [done|done].
      * destruct (IH stock s Hs Hstock H64) as (Hb & Hf & Hall).
        cbn [fst snd succeeded].
        split; [lia|]. split; [rewrite Hf; f_equal; lia|].
        constructor; [|done]. cbn [fst snd].
        split; [by eexists|]. split; [done|]. exists stock.
        unfold db.get_inventory. rewrite Hs. split; [done|lia].
    + rewrite (reserve_stock_overflow _ _ _ _ Hout).
      destruct (IH stock s Hs Hstock H64) as (Hb & Hf & Hall).
      cbn [fst snd succeeded].
      split; [lia|]. split; [rewrite Hf; f_equal; lia|].
      constructor; [|done]. cbn [fst snd].
      split; [done|]. split; [done|]. exists stock.
      unfold db.get_inventory. rewrite Hs. split; [done|lia].
Qed.

(** C3 (amended). For a run of calls against one product holding an INTEGER
    [stock >= 0], each call asking for [quantity >= 0] with any fallback:
    the final stored quantity is [stock - quantity * successes], the stored
    quantity is non-negative after every call, and, when [quantity > 0], at
    most [stock / quantity] calls succeed.  Every call returns a boolean
    when the quantity fits 64 bits; when it does not, every call raises
    [OverflowError] and the store stays as it was. *)
Theorem reserve_all_never_oversells product_id quantity stock fallbacks s :
  inventory s !! product_id = Some (Some stock) ->
  0 <= quantity ->
  0 <= stock ->
  in_int64 stock ->
  let trace := reserve_all product_id quantity fallbacks s in
  (0 < quantity -> successes trace <= stock / quantity)
  /\ db.get_inventory product_id (final_session s trace)
      = Some (stock - quantity * successes trace)
  /\ 0 <= stock - quantity * successes trace
  /\ Forall (fun r => exists left, db.get_inventory product_id (snd r)
                                   = Some left /\ 0 <= left) trace
  /\ (in_int64 quantity -> Forall (fun r => exists b, fst r = Returned b) trace)
  /\ (~ in_int64 quantity ->
      Forall (fun r => r = (Raised OverflowError, s)) trace).
Proof.
  intros Hs Hq Hstock H64 trace.
  destruct (reserve_all_accounting product_id quantity fallbacks Hq stock s
              Hs Hstock H64) as (Hb & Hf & Hall).
  fold trace in Hb, Hf, Hall.
  split; [intros Hpos; apply Z.div_le_lower_bound; lia|].
  split; [done|]. split; [lia|].
  split; [|split].
  - eapply Forall_impl; [exact Hall|]. by intros r (_ & _ & ?).
  - intros Hin. eapply Forall_impl; [exact Hall|]. intros r (H & _). auto.
  - intros Hout. eapply Forall_impl; [exact Hall|]. intros r (_ & H & _). auto.
Qed.

End ReserveStock.

(** ** The handler monad *)

Lemma same_parents_refl s : same_parents s s.
Proof. by repeat split. Qed.

Lemma same_parents_trans s1 s2 s3 :
  same_parents s1 s2 -> same_parents s2 s3 -> same_parents s1 s3.
Proof.
  intros (?&?&?&?) (?&?&?&?). repeat split; congruence.
Qed.

Section MonadFacts.

Context {A B : Type}.

Lemma bind_returned (c : M A) (k : A -> M B) s b s' :
  bind c k s = (Returned b, s') <->
  exists a s1, c s = (Returned a, s1) /\ k a s1 = (Returned b, s').
Proof.
  unfold bind. destruct (c s) as [[a|e] s1]; split.
  - intros H. by exists a, s1.
  - intros (a' & s1' & [= <- <-] & H). done.
  - intros [=].
  - intros (a' & s1' & [=] & _).
Qed.

Lemma bind_step (c : M A) (k : A -> M B) s a s1 :
  c s = (Returned a, s1) -> bind c k s = k a s1.
Proof. unfold bind. by intros ->. Qed.

Lemma preserves_parents_bind (c : M A) (k : A -> M B) :
  preserves_parents c -> (forall a, preserves_parents (k a)) ->
  preserves_parents (bind c k).
Proof.
  intros Hc Hk s. unfold bind.
  specialize (Hc s). destruct (c s) as [[a|e] s1]; cbn in *; [|done].
  exact (same_parents_trans _ _ _ Hc (Hk a s1)).
Qed.

End MonadFacts.

Lemma preserves_parents_ret {A} (a : A) : preserves_parents (ret a).
Proof. intros s. apply same_parents_refl. Qed.

(** ** Lists as tables *)

Section Tables.

Context {A B : Type}.

Lemma filter_all (P : A -> Prop) `{!forall x, Decision (P x)} (l : list A) :
  Forall P l -> filter P l = l.
Proof.
  induction 1 as [|x l Hx _ IH]; [done|].
  by rewrite filter_cons_True, IH.
Qed.

Lemma filter_none (P : A -> Prop) `{!forall x, Decision (P x)} (l : list A) :
  Forall (fun x => ~ P x) l -> filter P l = [].
Proof.
  induction 1 as [|x l Hx _ IH]; [done|].
  by rewrite filter_cons_False.
Qed.

Lemma Forall2_and_right (P : A -> B -> Prop) (Q : B -> Prop) l k :
  Forall2 P l k -> Forall Q k -> Forall2 (fun x y => P x y /\ Q y) l k.
Proof.
  induction 1 as [|x y l k Hxy _ IH]; intros HQ; [constructor|].
  apply Forall_cons in HQ as [Hy HQ]. constructor; auto.
Qed.

Lemma Forall2_right (P : A -> B -> Prop) (Q : B -> Prop) l k :
  Forall2 P l k -> (forall x y, P x y -> Q y) -> Forall Q k.
Proof. induction 1; intros HPQ; constructor; eauto. Qed.

End Tables.

(** ** Cart drafts: replacing the children *)

Section ReplaceChildren.

Variable uuid4_at : nat -> string.

Abbreviation id_or_uuid4 := (agent_state.id_or_uuid4 uuid4_at).
Abbreviation add_alternatives := (agent_state.add_alternatives uuid4_at).
Abbreviation add_line_items := (agent_state.add_line_items uuid4_at).
Abbreviation _replace_cart_line_items :=
  (agent_state._replace_cart_line_items uuid4_at).

Lemma id_or_uuid4_returns supplied s :
  exists s1,
    id_or_uuid4 supplied s = (Returned (resolved_id uuid4_at supplied s), s1)
    /\ cart_draft_line_items s1 = cart_draft_line_items s
    /\ cart_draft_alternatives s1 = cart_draft_alternatives s
    /\ same_parents s s1
    /\ (agent_state.truthy supplied <> None -> s1 = s).
Proof.
  unfold agent_state.id_or_uuid4, resolved_id.
  destruct (agent_state.truthy supplied) as [v|].
  - exists s. repeat split; done.
  - eexists. split; [reflexivity|]. repeat split; done.
Qed.

Lemma id_or_uuid4_shape supplied s :
  match agent_state.truthy supplied with
  | Some v => resolved_id uuid4_at supplied s = v
  | None => exists n, resolved_id uuid4_at supplied s = uuid4_at n
  end.
Proof.
  unfold resolved_id. destruct (agent_state.truthy supplied); eauto.
Qed.

Lemma save_cart_draft_returned key row s s' :
  db.save_cart_draft key row s = (Returned tt, s') ->
  s' = set_cart_drafts <[key := row]> s.
Proof. unfold db.save_cart_draft. case_bool_decide; by intros [= <-]. Qed.

Lemma add_alternative_returned record s s' :
  db.add_alternative record s = (Returned tt, s') ->
  cart_draft_line_items s' = cart_draft_line_items s
  /\ cart_draft_alternatives s' = cart_draft_alternatives s ++ [record]
  /\ same_parents s s'.
Proof.
  unfold db.add_alternative.
  case_bool_decide; [|done]. case_bool_decide; [done|].
  intros [= <-]. repeat split; done.
Qed.

Lemma add_line_item_returned record s s' :
  db.add_line_item record s = (Returned tt, s') ->
  (li_id record ∉ li_id <$> cart_draft_line_items s)
  /\ cart_draft_line_items s' = cart_draft_line_items s ++ [record]
  /\ cart_draft_alternatives s' = cart_draft_alternatives s
  /\ same_parents s s'.
Proof.
  unfold db.add_line_item.
  case_bool_decide; [|done]. case_bool_decide; [done|].
  intros [= <-]. repeat split; done.
Qed.

(** The inner loop appends, in order, one row per supplied alternative, all
    of them under the given line. *)
Lemma add_alternatives_returned line_id alternatives :
  forall s s',
    add_alternatives line_id alternatives s = (Returned tt, s') ->
    exists new,
      cart_draft_line_items s' = cart_draft_line_items s
      /\ cart_draft_alternatives s' = cart_draft_alternatives s ++ new
      /\ same_parents s s'
      /\ Forall2 (alt_matches uuid4_at line_id) alternatives new.
Proof.
  induction alternatives as [|alt rest IH]; intros s s' H.
  - cbn in H. injection H as <-. exists []. rewrite app_nil_r.
    repeat split; constructor.
  - cbn [agent_state.add_alternatives] in H.
    apply bind_returned in H as (alt_id & s1 & Hid & H).
    destruct (id_or_uuid4_returns (agent_state.a_id alt) s)
      as (s1' & Hid' & Hl1 & Ha1 & Hp1 & _).
    rewrite Hid' in Hid. injection Hid as <- <-.
    apply bind_returned in H as ([] & s2 & Hadd & H).
    apply add_alternative_returned in Hadd as (Hl2 & Ha2 & Hp2).
    apply IH in H as (new & Hl3 & Ha3 & Hp3 & Hall).
    eexists (_ :: new). split; [congruence|]. split.
    { rewrite Ha3, Ha2, Ha1, <- app_assoc. reflexivity. }
    split; [eauto using same_parents_trans|].
    constructor; [|done].
    split; [apply id_or_uuid4_shape|]. repeat split; done.
Qed.

(** The outer loop appends one row per supplied line and, under each new
    row, exactly the alternatives supplied for it. *)
Lemma add_line_items_returned cart_draft_id line_items :
  forall s s' persisted,
    add_line_items cart_draft_id line_items s = (Returned persisted, s') ->
    exists new_alts,
      cart_draft_line_items s' = cart_draft_line_items s ++ persisted
      /\ cart_draft_alternatives s' = cart_draft_alternatives s ++ new_alts
      /\ same_parents s s'
      /\ Forall (fun a => alt_line_item_id a ∈ li_id <$> persisted) new_alts
      /\ Forall (fun r => li_id r ∉ li_id <$> cart_draft_line_items s)
                persisted
      /\ Forall2
           (fun line row =>
              line_matches uuid4_at cart_draft_id line row
              /\ Forall2 (alt_matches uuid4_at (li_id row))
                         (agent_state.l_alternatives line)
                         (filter (fun a => alt_line_item_id a = li_id row)
                                 new_alts))
           line_items persisted.
Proof.
  induction line_items as [|line rest IH]; intros s s' persisted H.
  - cbn in H. injection H as <- <-. exists []. rewrite !app_nil_r.
    repeat split; solve [constructor | done].
  - cbn [agent_state.add_line_items] in H.
    apply bind_returned in H as (line_id & s1 & Hid & H).
    destruct (id_or_uuid4_returns (agent_state.l_id line) s)
      as (s1' & Hid' & Hl1 & Ha1 & Hp1 & _).
    rewrite Hid' in Hid. injection Hid as <- <-.
    set (x := resolved_id uuid4_at (agent_state.l_id line) s) in *.
    cbn zeta in H.
    apply bind_returned in H as ([] & s2 & Hadd & H).
    apply add_line_item_returned in Hadd as (Hfresh & Hl2 & Ha2 & Hp2).
    cbn [li_id] in Hfresh. rewrite Hl1 in Hfresh, Hl2.
    apply bind_returned in H as ([] & s3 & Halts & H).
    apply add_alternatives_returned in Halts as (new & Hl3 & Ha3 & Hp3 & Hnew).
    apply bind_returned in H as (persisted' & s4 & Hrec & H).
    injection H as <- <-.
    apply IH in Hrec as (new' & Hl4 & Ha4 & Hp4 & Href & Hfr & Hall).
    rewrite Hl3, Hl2 in Hl4, Hfr.
    set (record := {| li_id := x |}) in *.
    assert (Hnew_line : Forall (fun a => alt_line_item_id a = x) new).
    { eapply Forall2_right; [exact Hnew|]. by intros ? ? (_ & ? & _). }
    assert (Hx_notin : x ∉ li_id <$> persisted').
    { intros (r & Hr & Hin)%list_elem_of_fmap_1.
      rewrite Forall_forall in Hfr. apply (Hfr r Hin).
      rewrite fmap_app, elem_of_app. right. rewrite <- Hr. cbn. left. }
    exists (new ++ new').
    split; [by rewrite Hl4, <- app_assoc|].
    split; [by rewrite Ha4, Ha3, Ha2, Ha1, <- app_assoc|].
    split; [eauto using same_parents_trans|].
    split.
    { apply Forall_app. split.
      - eapply Forall_impl; [exact Hnew_line|]. intros a ->. cbn. left.
      - eapply Forall_impl; [exact Href|]. intros a Ha. cbn. by right. }
    split.
    { constructor; [exact Hfresh|].
      eapply Forall_impl; [exact Hfr|]. intros r Hr Hin. apply Hr.
      rewrite fmap_app, elem_of_app. by left. }
    constructor.
    + split.
      { split; [apply id_or_uuid4_shape|]. repeat split; done. }
      cbn [li_id]. rewrite filter_app, (filter_all _ new) by done.
      rewrite (filter_none _ new'), app_nil_r; [done|].
      eapply Forall_impl; [exact Href|]. intros a Ha Heq. cbn in Heq.
      apply Hx_notin. by rewrite <- Heq.
    + eapply Forall2_impl.
      { apply (Forall2_and_right _ _ _ _ Hall Hfr). }
      intros line' row' ((Hm & Halts') & Hrow'). split; [done|].
      rewrite filter_app, (filter_none _ new); [done|].
      eapply Forall_impl; [exact Hnew_line|]. intros a Ha Heq. cbn in Heq.
      apply Hrow'. rewrite fmap_app, elem_of_app. right.
      rewrite <- Heq, Ha. cbn. left.
Qed.

(** The children of the draft and everything hanging off them are removed,
    other drafts keep theirs, and the supplied subtree is appended. *)
Lemma _replace_cart_line_items_returned cart_draft_id line_items s s' persisted :
  _replace_cart_line_items cart_draft_id line_items s = (Returned persisted, s') ->
  alternatives_reference_line_items s ->
  let existing_ids :=
    li_id <$> filter (fun r => li_cart_draft_id r = cart_draft_id)
                     (cart_draft_line_items s) in
  cart_draft_line_items s'
    = filter (fun r => li_cart_draft_id r ≠ cart_draft_id)
             (cart_draft_line_items s) ++ persisted
  /\ (exists new_alts,
        cart_draft_alternatives s'
        = filter (fun a => alt_line_item_id a ∉ existing_ids)
                 (cart_draft_alternatives s) ++ new_alts)
  /\ same_parents s s'
  /\ filter (fun r => li_cart_draft_id r = cart_draft_id)
            (cart_draft_line_items s') = persisted
  /\ Forall2
       (fun line row =>
          line_matches uuid4_at cart_draft_id line row
          /\ Forall2 (alt_matches uuid4_at (li_id row))
                     (agent_state.l_alternatives line)
                     (filter (fun a => alt_line_item_id a = li_id row)
                             (cart_draft_alternatives s')))
       line_items persisted
  /\ alternatives_reference_line_items s'.
Proof.
  intros H Hfk existing_ids.
  unfold alternatives_reference_line_items in *.
  rewrite Forall_forall in Hfk.
  unfold agent_state._replace_cart_line_items in H.
  apply bind_returned in H as (existing_items & s0 & Hget & H).
  unfold db.get_cart_draft_line_items, gets in Hget.
  injection Hget as <- <-. fold existing_ids in H.
  apply bind_returned in H as ([] & s1 & Hdel & H).
  assert (Hs1 : cart_draft_line_items s1 = cart_draft_line_items s
                /\ cart_draft_alternatives s1
                   = filter (fun a => alt_line_item_id a ∉ existing_ids)
                            (cart_draft_alternatives s)
                /\ same_parents s s1).
  { destruct existing_ids as [|i ids] eqn:Hids.
    - injection Hdel as <-. split; [done|]. split; [|apply same_parents_refl].
      symmetry. apply filter_all, Forall_forall. intros a _. apply not_elem_of_nil.
    - unfold db.delete_alternatives_in, modify in Hdel. injection Hdel as <-.
      repeat split; done. }
  clear Hdel. destruct Hs1 as (Hl1 & Ha1 & Hp1).
  apply bind_returned in H as ([] & s2 & Hdel & H).
  unfold db.delete_cart_draft_line_items, modify in Hdel. injection Hdel as <-.
  apply add_line_items_returned in H
    as (new_alts & Hl & Ha & Hp & Href & Hfr & Hall).
  cbn in Hl, Ha, Hfr. rewrite Hl1 in Hl, Hfr. rewrite Ha1 in Ha.
  set (kept := filter (fun r => li_cart_draft_id r ≠ cart_draft_id)
                      (cart_draft_line_items s)) in *.
  set (kept_alts := filter (fun a => alt_line_item_id a ∉ existing_ids)
                           (cart_draft_alternatives s)) in *.
  (* the alternatives that stay point at lines that stay *)
  assert (Hkept : forall a, a ∈ kept_alts -> alt_line_item_id a ∈ li_id <$> kept).
  { intros a [Hnot Ha0]%list_elem_of_filter.
    apply Hfk, list_elem_of_fmap_1 in Ha0 as (r & Hr & Hin).
    rewrite Hr. apply list_elem_of_fmap_2, list_elem_of_filter.
    split; [|done]. intros Hcart. apply Hnot. rewrite Hr.
    apply list_elem_of_fmap_2, list_elem_of_filter. done. }
  assert (Hcart : Forall (fun r => li_cart_draft_id r = cart_draft_id) persisted).
  { eapply Forall2_right; [exact Hall|]. by intros ? ? ((_ & ? & _) & _). }
  split; [done|]. split; [by exists new_alts|].
  split.
  { eapply same_parents_trans; [exact Hp1|].
    eapply same_parents_trans; [|exact Hp]. repeat split; done. }
  split.
  { rewrite Hl, filter_app, (filter_all _ persisted) by done.
    rewrite (filter_none _ kept); [done|].
    apply Forall_forall. by intros r [? _]%list_elem_of_filter. }
  split.
  { eapply Forall2_impl.
    { apply (Forall2_and_right _ _ _ _ Hall Hfr). }
    intros line row ((Hm & Halts) & Hrow). split; [done|].
    rewrite Ha, filter_app, (filter_none _ kept_alts); [done|].
    apply Forall_forall. intros a Hin Heq. apply Hrow.
    rewrite <- Heq. by apply Hkept. }
  apply Forall_forall. intros a. rewrite Ha, Hl, fmap_app, !elem_of_app.
  intros [Hin|Hin]; [left; by apply Hkept|right].
  rewrite Forall_forall in Href. by apply Href.
Qed.

(** [alternatives_map] holds, under the id of every line it was filled
    from, that line's alternatives. *)
Lemma alternatives_map_lookup (alts : list CartDraftAlternative)
    (line_items : list CartDraftLineItem) :
  forall (m : gmap string (list CartDraftAlternative)) k,
    foldl (fun (m : gmap string (list CartDraftAlternative)) line =>
             <[li_id line :=
                 filter (fun a => alt_line_item_id a = li_id line) alts]> m)
          m line_items !! k
    = if decide (k ∈ li_id <$> line_items)
      then Some (filter (fun a => alt_line_item_id a = k) alts)
      else m !! k.
Proof.
  induction line_items as [|line rest IH]; intros m k; cbn [foldl].
  - rewrite decide_False; [done|]. apply not_elem_of_nil.
  - rewrite IH, fmap_cons.
    destruct (decide (k ∈ li_id <$> rest)) as [Hin|Hnin].
    + rewrite decide_True; [done|]. by right.
    + destruct (decide (k = li_id line)) as [->|Hne].
      * rewrite decide_True by left. by rewrite lookup_insert_eq.
      * rewrite decide_False.
        { by rewrite lookup_insert_ne. }
        intros [?|?]%elem_of_cons; done.
Qed.

(** The closing re-read returns the draft's lines, each with the
    alternatives stored under it, and writes nothing. *)
Lemma read_line_items_returns cart_draft_id s :
  agent_state.read_line_items cart_draft_id s =
    (Returned
       ((fun line =>
           (line, filter (fun a => alt_line_item_id a = li_id line)
                         (cart_draft_alternatives s)))
          <$> filter (fun r => li_cart_draft_id r = cart_draft_id)
                     (cart_draft_line_items s)),
     s).
Proof.
  unfold agent_state.read_line_items, bind, db.get_cart_draft_line_items,
    agent_state.alternatives_map_of, gets, ret.
  f_equal. f_equal. apply list_fmap_ext. intros i line Hline.
  f_equal. rewrite alternatives_map_lookup.
  rewrite decide_True; [done|].
  apply list_elem_of_fmap_2. by eapply list_elem_of_lookup_2.
Qed.

Lemma alternatives_reference_line_items_ext s s' :
  cart_draft_line_items s' = cart_draft_line_items s ->
  cart_draft_alternatives s' = cart_draft_alternatives s ->
  alternatives_reference_line_items s ->
  alternatives_reference_line_items s'.
Proof.
  unfold alternatives_reference_line_items. intros -> ->. done.
Qed.

(** Both branches of [upsert_cart_draft] come down to: write the parent row
    under the resolved id, replace the children, re-read. *)
Lemma upsert_cart_draft_returned payload s resp s' :
  agent_state.upsert_cart_draft uuid4_at payload s = (Returned resp, s') ->
  let cart_id :=
    resolved_id uuid4_at (agent_state.c_id (agent_state.u_cart payload)) s in
  exists s1 s2 persisted,
    cart_draft_line_items s2 = cart_draft_line_items s
    /\ cart_draft_alternatives s2 = cart_draft_alternatives s
    /\ cart_drafts s2 = <[cart_id := agent_state.cart resp]> (cart_drafts s1)
    /\ cart_drafts s1 = cart_drafts s
    /\ _replace_cart_line_items cart_id (agent_state.u_line_items payload) s2
       = (Returned persisted, s')
    /\ agent_state.read_line_items cart_id s'
       = (Returned (agent_state.lineItems resp), s').
Proof.
  intros H cart_id. unfold agent_state.upsert_cart_draft in H. cbn zeta in H.
  apply bind_returned in H as (cid & s1 & Hid & H).
  destruct (id_or_uuid4_returns
              (agent_state.c_id (agent_state.u_cart payload)) s)
    as (s1' & Hid' & Hl1 & Ha1 & (_ & _ & Hc1 & _) & _).
  rewrite Hid' in Hid. injection Hid as <- <-. fold cart_id in H.
  apply bind_returned in H as (existing & s1'' & Hget & H).
  unfold db.get_cart_draft, gets in Hget. injection Hget as <- <-.
  apply bind_returned in H as (now_iso & s1'' & Hnow & H).
  unfold agent_state._now_iso, gets in Hnow. injection Hnow as <- <-.
  apply bind_returned in H as (row & s3 & Hbranch & H).
  apply bind_returned in H as (line_items & s4 & Hread & H).
  injection H as <- <-.
  pose proof (read_line_items_returns cart_id s3) as Hread'.
  rewrite Hread' in Hread. injection Hread as Hitems <-.
  rewrite Hitems in Hread'. cbn [agent_state.cart agent_state.lineItems].
  destruct (cart_drafts s1' !! cart_id) as [existing|];
    apply bind_returned in Hbranch as ([] & s2 & Hsave & Hbranch);
    apply save_cart_draft_returned in Hsave as ->;
    apply bind_returned in Hbranch as (persisted & s3' & Hrep & Hbranch);
    injection Hbranch as <- <-;
    lazymatch type of Hrep with
    | agent_state._replace_cart_line_items _ _ _ ?s2 = _ =>
        exists s1', s2, persisted
    end;
    repeat split; solve [done | cbn; congruence].
Qed.

(** The foreign key holds in every store the service can be in. *)
Lemma reachable_references_line_items s :
  reachable uuid4_at s -> alternatives_reference_line_items s.
Proof.
  induction 1 as [s Hl Ha|s s' _ IH Hl Ha|s payload resp s' _ IH H].
  - unfold alternatives_reference_line_items. rewrite Ha. constructor.
  - by eapply alternatives_reference_line_items_ext.
  - apply upsert_cart_draft_returned in H
      as (s1 & s2 & persisted & Hl2 & Ha2 & _ & _ & Hrep & _).
    apply _replace_cart_line_items_returned in Hrep
      as (_ & _ & _ & _ & _ & Hfk); [done|].
    by eapply alternatives_reference_line_items_ext.
Qed.


End ReplaceChildren.

(** ** Agent runs *)

(** [x or default]: a non-empty string wins, [None] and the empty string
    give way to the default. *)
Lemma truthy_nonempty id : id <> "" -> agent_state.truthy (Some id) = Some id.
Proof. by destruct id. Qed.

Lemma py_or_nonempty v default : v <> "" -> agent_state.py_or (Some v) default = v.
Proof. by destruct v. Qed.

Lemma py_or_falsy o default :
  o = None \/ o = Some "" -> agent_state.py_or o default = default.
Proof. by intros [-> | ->]. Qed.

Section AgentRuns.

Variable uuid4_at : nat -> string.

Abbreviation upsert_agent_run := (agent_state.upsert_agent_run uuid4_at).

(** C8. A create (no run stored under the id the handler settles on)
    returns and stores a run whose id is the supplied one, or a freshly
    generated one when none was supplied, whose state is the supplied one,
    or [DISCOVER_MERCHANT] when none was supplied, and whose [created_at]
    and [updated_at] each are the stamp the caller supplied, when that is a
    non-empty string, and the current time when the stamp is absent or
    empty. *)
Theorem upsert_agent_run_creates payload s :
  let id := resolved_id uuid4_at (agent_state.p_id payload) s in
  agent_runs s !! id = None ->
  exists run s',
    upsert_agent_run payload s = (Returned run, s')
    /\ agent_runs s' = <[id := run]> (agent_runs s)
    /\ ar_id run = id
    /\ (agent_state.truthy (agent_state.p_id payload) = None ->
          ar_id run = uuid4_at (uuid_drawn s)
          /\ uuid_drawn s' = S (uuid_drawn s))
    /\ (forall v, agent_state.truthy (agent_state.p_id payload) = Some v ->
          ar_id run = v)
    /\ (agent_state.p_state payload = None ->
          ar_state run = "DISCOVER_MERCHANT")
    /\ (forall st, agent_state.p_state payload = Some st ->
          ar_state run = agent_state.value st)
    /\ (forall v, agent_state.p_created_at payload = Some v -> v <> "" ->
          ar_created_at run = v)
    /\ (agent_state.p_created_at payload = None
        \/ agent_state.p_created_at payload = Some "" ->
          ar_created_at run = wall_clock s)
    /\ (forall v, agent_state.p_updated_at payload = Some v -> v <> "" ->
          ar_updated_at run = v)
    /\ (agent_state.p_updated_at payload = None
        \/ agent_state.p_updated_at payload = Some "" ->
          ar_updated_at run = wall_clock s)
    /\ ar_user_id run = agent_state.p_user_id payload
    /\ ar_recipe_id run = agent_state.p_recipe_id payload.
Proof.
  intros id Hnone.
  unfold agent_state.upsert_agent_run, bind.
  unfold agent_state.id_or_uuid4, resolved_id in *.
  destruct (agent_state.truthy (agent_state.p_id payload)) as [v|] eqn:Hid;
    cbn -[agent_state.py_or]; subst id; rewrite Hnone; cbn -[agent_state.py_or];
    eexists _, _; (split; [reflexivity|]); cbn -[agent_state.py_or];
    split_and!; try done; try congruence.
  all: try (intros ->; reflexivity).
  all: try (intros ? ->; reflexivity).
  all: try (intros ? -> ?; by apply py_or_nonempty).
  all: try (intros ?; by apply py_or_falsy).
Qed.

(** C5 (amended). A PATCH of a stored run returns the run it has just
    stored under that id.  Each of [user_id], [device_id], [recipe_id],
    [merchant_base_url], [store_id], [state], [failure_code],
    [failure_detail], [cart_draft_id] and [order_id] that is present in the
    payload overwrites the stored value; [updated_at] becomes the supplied
    stamp when that is a non-empty string, and the current time when the
    stamp is absent or empty; [id] and [created_at] stay as stored whatever
    the payload carries. *)
Theorem update_agent_run_patches agent_run_id payload run s :
  agent_runs s !! agent_run_id = Some run ->
  exists run',
    agent_state.update_agent_run agent_run_id payload s
      = (Returned run', set_agent_runs <[agent_run_id := run']> s)
    /\ agent_runs (set_agent_runs <[agent_run_id := run']> s) !! agent_run_id
       = Some run'
    /\ overwrites (agent_state.p_user_id payload) (ar_user_id run')
    /\ overwrites (agent_state.p_device_id payload) (ar_device_id run')
    /\ overwrites (agent_state.p_recipe_id payload) (ar_recipe_id run')
    /\ overwrites (agent_state.p_merchant_base_url payload)
         (ar_merchant_base_url run')
    /\ overwrites (agent_state.p_store_id payload) (ar_store_id run')
    /\ (forall st, agent_state.p_state payload = Some st ->
          ar_state run' = agent_state.value st)
    /\ overwrites (agent_state.p_failure_code payload) (ar_failure_code run')
    /\ overwrites (agent_state.p_failure_detail payload)
         (ar_failure_detail run')
    /\ overwrites (agent_state.p_cart_draft_id payload) (ar_cart_draft_id run')
    /\ overwrites (agent_state.p_order_id payload) (ar_order_id run')
    /\ (forall v, agent_state.p_updated_at payload = Some v -> v <> "" ->
          ar_updated_at run' = v)
    /\ (agent_state.p_updated_at payload = None
        \/ agent_state.p_updated_at payload = Some "" ->
          ar_updated_at run' = wall_clock s)
    /\ ar_created_at run' = ar_created_at run
    /\ ar_id run' = ar_id run.
Proof.
  intros Hrun.
  unfold agent_state.update_agent_run, bind, db.get_agent_run, gets.
  rewrite Hrun. cbn -[agent_state.py_or].
  eexists. split; [reflexivity|].
  split; [cbn; apply lookup_insert_eq|].
  unfold overwrites; cbn -[agent_state.py_or].
  split_and!; try done; try (intros ? ->; reflexivity).
  - intros ? -> ?. by apply py_or_nonempty.
  - intros ?. by apply py_or_falsy.
Qed.

(** C6 (amended). A PATCH of a stored run leaves every field the payload
    omits, other than [updated_at], as it was stored; [id] and [created_at]
    never change, and no other run is touched.  Patching only the state to
    FAILED on a run whose recipe is r1 gives state FAILED with the recipe
    still r1. *)
Theorem update_agent_run_keeps_omitted agent_run_id payload run s run' s' :
  agent_runs s !! agent_run_id = Some run ->
  agent_state.update_agent_run agent_run_id payload s = (Returned run', s') ->
  agent_runs s' !! agent_run_id = Some run'
  /\ keeps (agent_state.p_user_id payload) (ar_user_id run) (ar_user_id run')
  /\ keeps (agent_state.p_device_id payload)
       (ar_device_id run) (ar_device_id run')
  /\ keeps (agent_state.p_recipe_id payload)
       (ar_recipe_id run) (ar_recipe_id run')
  /\ keeps (agent_state.p_merchant_base_url payload)
       (ar_merchant_base_url run) (ar_merchant_base_url run')
  /\ keeps (agent_state.p_store_id payload) (ar_store_id run) (ar_store_id run')
  /\ keeps (agent_state.p_state payload) (ar_state run) (ar_state run')
  /\ keeps (agent_state.p_failure_code payload)
       (ar_failure_code run) (ar_failure_code run')
  /\ keeps (agent_state.p_failure_detail payload)
       (ar_failure_detail run) (ar_failure_detail run')
  /\ keeps (agent_state.p_cart_draft_id payload)
       (ar_cart_draft_id run) (ar_cart_draft_id run')
  /\ keeps (agent_state.p_order_id payload) (ar_order_id run) (ar_order_id run')
  /\ ar_id run' = ar_id run
  /\ ar_created_at run' = ar_created_at run
  /\ (forall other, other <> agent_run_id ->
        agent_runs s' !! other = agent_runs s !! other)
  /\ (payload = state_only_payload agent_state.FAILED ->
      ar_recipe_id run = Some "r1" ->
      ar_state run' = "FAILED" /\ ar_recipe_id run' = Some "r1").
Proof.
  intros Hrun H.
  unfold agent_state.update_agent_run, bind, db.get_agent_run, gets in H.
  rewrite Hrun in H. cbn in H. injection H as <- <-.
  unfold keeps; cbn.
  split; [apply lookup_insert_eq|].
  split_and!; try done; try (intros ->; reflexivity).
  - intros other Hne. by rewrite lookup_insert_ne.
  - intros -> Hr. cbn. done.
Qed.

End AgentRuns.

(** ** Unknown and known ids *)

Section Ids.

Variable uuid4_at : nat -> string.

(** C7. GET and PATCH of an agent run or a cart draft under an id that is
    not stored raise the 404 [HTTPException], return no record, and leave
    the session exactly as it was. *)
Theorem unknown_id_is_not_found run_id draft_id run_payload cart_payload s :
  agent_runs s !! run_id = None ->
  cart_drafts s !! draft_id = None ->
  agent_state.update_agent_run run_id run_payload s
    = (Raised (HTTPException 404 "Agent run not found."), s)
  /\ agent_state.get_agent_run run_id s
    = (Raised (HTTPException 404 "Agent run not found."), s)
  /\ agent_state.update_cart_draft draft_id cart_payload s
    = (Raised (HTTPException 404 "Cart draft not found."), s)
  /\ agent_state.get_cart_draft draft_id s
    = (Raised (HTTPException 404 "Cart draft not found."), s).
Proof.
  intros Hrun Hdraft.
  unfold agent_state.update_agent_run, agent_state.get_agent_run,
    agent_state.update_cart_draft, agent_state.get_cart_draft,
    bind, db.get_agent_run, db.get_cart_draft, gets.
  rewrite Hrun, Hdraft. done.
Qed.

Lemma raises_only_bind {A B} (P : Exn -> Prop) (c : M A) (k : A -> M B) :
  raises_only P c -> (forall a, raises_only P (k a)) ->
  raises_only P (bind c k).
Proof.
  intros Hc Hk s e s'. unfold bind.
  destruct (c s) as [[a|e0] s1] eqn:Hcs.
  - apply Hk.
  - intros [= <- <-]. by eapply Hc.
Qed.

Lemma raises_only_mono {A} (P Q : Exn -> Prop) (c : M A) :
  (forall e, P e -> Q e) -> raises_only P c -> raises_only Q c.
Proof. intros HPQ Hc s e s' H. eapply HPQ, Hc, H. Qed.

Lemma never_raises {A} (P : Exn -> Prop) (c : M A) :
  (forall s, exists a s', c s = (Returned a, s')) -> raises_only P c.
Proof. intros Hc s e s' H. destruct (Hc s) as (a & s1 & Heq). congruence. Qed.

Lemma id_or_uuid4_never_raises P supplied :
  raises_only P (agent_state.id_or_uuid4 uuid4_at supplied).
Proof.
  apply never_raises. intros s.
  destruct (id_or_uuid4_returns uuid4_at supplied s) as (s1 & H & _). eauto.
Qed.

Lemma id_or_uuid4_preserves supplied :
  preserves_parents (agent_state.id_or_uuid4 uuid4_at supplied).
Proof.
  intros s.
  destruct (id_or_uuid4_returns uuid4_at supplied s) as (s1 & H & _ & _ & Hp & _).
  by rewrite H.
Qed.

(** An INSERT of a child row fails on a taken key, or on an integer that
    does not fit. *)
Lemma add_alternative_raises record :
  raises_only (fun e => key_violation e
                        \/ (e = OverflowError /\ ~ in_int64 (alt_rank record)))
    (db.add_alternative record).
Proof.
  intros s e s'. unfold db.add_alternative, key_violation.
  repeat case_bool_decide; intros [= <- <-]; eauto.
Qed.

Lemma add_line_item_raises record :
  raises_only (fun e => key_violation e
                        \/ (e = OverflowError
                            /\ ~ binds (li_line_total_cents record)))
    (db.add_line_item record).
Proof.
  intros s e s'. unfold db.add_line_item, key_violation.
  repeat case_bool_decide; intros [= <- <-]; eauto.
Qed.

Lemma add_alternative_preserves record :
  preserves_parents (db.add_alternative record).
Proof.
  intros s. unfold db.add_alternative.
  repeat case_bool_decide; cbn; repeat split; done.
Qed.

Lemma add_line_item_preserves record :
  preserves_parents (db.add_line_item record).
Proof.
  intros s. unfold db.add_line_item.
  repeat case_bool_decide; cbn; repeat split; done.
Qed.

Lemma add_alternatives_raises line_id alternatives :
  raises_only
    (fun e => key_violation e
              \/ (e = OverflowError
                  /\ ~ Forall (fun alt => in_int64 (agent_state.a_rank alt))
                         alternatives))
    (agent_state.add_alternatives uuid4_at line_id alternatives).
Proof.
  induction alternatives as [|alt rest IH]; cbn [agent_state.add_alternatives].
  - by intros s e s' [=].
  - apply raises_only_bind; [apply id_or_uuid4_never_raises|].
    intros alt_id. apply raises_only_bind.
    + eapply raises_only_mono; [|apply add_alternative_raises].
      cbn. intros e [?|[-> Hno]]; [by left|right]. split; [done|].
      by intros [? _]%Forall_cons.
    + intros _. eapply raises_only_mono; [|exact IH].
      cbn. intros e [?|[-> Hno]]; [by left|right]. split; [done|].
      by intros [_ ?]%Forall_cons.
Qed.

Lemma add_alternatives_preserves line_id alternatives :
  preserves_parents (agent_state.add_alternatives uuid4_at line_id alternatives).
Proof.
  induction alternatives as [|alt rest IH]; cbn [agent_state.add_alternatives].
  - apply preserves_parents_ret.
  - apply preserves_parents_bind; [apply id_or_uuid4_preserves|].
    intros alt_id. apply preserves_parents_bind; [|done].
    apply add_alternative_preserves.
Qed.

Lemma add_line_items_raises cart_draft_id line_items :
  raises_only
    (fun e => key_violation e
              \/ (e = OverflowError /\ ~ Forall line_integers_bind line_items))
    (agent_state.add_line_items uuid4_at cart_draft_id line_items).
Proof.
  induction line_items as [|line rest IH]; cbn [agent_state.add_line_items].
  - by intros s e s' [=].
  - apply raises_only_bind; [apply id_or_uuid4_never_raises|].
    intros line_id. cbn zeta. apply raises_only_bind.
    { eapply raises_only_mono; [|apply add_line_item_raises].
      cbn. intros e [?|[-> Hno]]; [by left|right]. split; [done|].
      by intros [[? _] _]%Forall_cons. }
    intros _. apply raises_only_bind.
    { eapply raises_only_mono; [|apply add_alternatives_raises].
      cbn. intros e [?|[-> Hno]]; [by left|right]. split; [done|].
      by intros [[_ ?] _]%Forall_cons. }
    intros _. apply raises_only_bind; [|by intros persisted s e s' [=]].
    eapply raises_only_mono; [|exact IH].
    cbn. intros e [?|[-> Hno]]; [by left|right]. split; [done|].
    by intros [_ ?]%Forall_cons.
Qed.

Lemma add_line_items_preserves cart_draft_id line_items :
  preserves_parents
    (agent_state.add_line_items uuid4_at cart_draft_id line_items).
Proof.
  induction line_items as [|line rest IH]; cbn [agent_state.add_line_items].
  - apply preserves_parents_ret.
  - apply preserves_parents_bind; [apply id_or_uuid4_preserves|].
    intros line_id. cbn zeta.
    apply preserves_parents_bind; [apply add_line_item_preserves|].
    intros _. apply preserves_parents_bind;
      [apply add_alternatives_preserves|].
    intros _. apply preserves_parents_bind; [done|].
    intros persisted. apply preserves_parents_ret.
Qed.

Lemma _replace_cart_line_items_raises cart_draft_id line_items :
  raises_only
    (fun e => key_violation e
              \/ (e = OverflowError /\ ~ Forall line_integers_bind line_items))
    (agent_state._replace_cart_line_items uuid4_at cart_draft_id line_items).
Proof.
  unfold agent_state._replace_cart_line_items.
  apply raises_only_bind; [by intros s e s' [=]|].
  intros items. apply raises_only_bind.
  { destruct (li_id <$> items) as [|i ids]; by intros s e s' [=]. }
  intros _. apply raises_only_bind; [by intros s e s' [=]|].
  intros _. apply add_line_items_raises.
Qed.

Lemma _replace_cart_line_items_preserves cart_draft_id line_items :
  preserves_parents
    (agent_state._replace_cart_line_items uuid4_at cart_draft_id line_items).
Proof.
  unfold agent_state._replace_cart_line_items.
  apply preserves_parents_bind; [intros s; apply same_parents_refl|].
  intros items. apply preserves_parents_bind.
  { destruct (li_id <$> items) as [|i ids]; intros s; cbn; repeat split; done. }
  intros _. apply preserves_parents_bind;
    [intros s; cbn; repeat split; done|].
  intros _. apply add_line_items_preserves.
Qed.

(** The write of a parent row goes through when its [servings] can be
    bound, and when it is the stored one. *)
Lemma save_cart_draft_binds key row s :
  binds (cd_servings row) ->
  db.save_cart_draft key row s
  = (Returned tt, set_cart_drafts <[key := row]> s).
Proof.
  intros H. unfold db.save_cart_draft.
  rewrite bool_decide_eq_true_2; [done|].
  destruct (cart_drafts s !! key) as [stored|]; [|done].
  by case_bool_decide.
Qed.

Lemma save_cart_draft_unchanged key row stored s :
  cart_drafts s !! key = Some stored ->
  cd_servings row = cd_servings stored ->
  db.save_cart_draft key row s
  = (Returned tt, set_cart_drafts <[key := row]> s).
Proof.
  intros Hs Heq. unfold db.save_cart_draft. rewrite Hs.
  by rewrite (bool_decide_eq_true_2 _ Heq).
Qed.

(** The write of a patched row: an omitted [servings] is the stored one. *)
Lemma save_cart_draft_patch key row stored supplied s :
  cart_drafts s !! key = Some stored ->
  cd_servings row
  = match supplied with Some v => Some v | None => cd_servings stored end ->
  binds supplied ->
  db.save_cart_draft key row s
  = (Returned tt, set_cart_drafts <[key := row]> s).
Proof.
  intros Hs Hrow Hb. destruct supplied as [v|].
  - apply save_cart_draft_binds. by rewrite Hrow.
  - by eapply save_cart_draft_unchanged.
Qed.

Lemma save_cart_draft_overflow key row stored s :
  cart_drafts s !! key = Some stored ->
  binds (cd_servings stored) ->
  ~ binds (cd_servings row) ->
  db.save_cart_draft key row s = (Raised OverflowError, s).
Proof.
  intros Hs Hstored Hrow. unfold db.save_cart_draft. rewrite Hs.
  rewrite (bool_decide_eq_false_2 (cd_servings row = cd_servings stored))
    by (intros Heq; by rewrite Heq in Hrow).
  by rewrite bool_decide_eq_false_2.
Qed.

Lemma save_cart_draft_raises key row :
  raises_only (fun e => e = OverflowError /\ ~ binds (cd_servings row))
    (db.save_cart_draft key row).
Proof.
  intros s e s'. unfold db.save_cart_draft.
  case_bool_decide as Hb; [done|]. intros [= <- <-]. split; [done|].
  intros Hrow. apply Hb.
  destruct (cart_drafts s !! key); [case_bool_decide|]; done.
Qed.

(** Both POST and PATCH of a stored draft begin by writing the same patched
    parent row. *)
Lemma cart_draft_post_and_patch upsert_payload draft_id draft s :
  agent_state.truthy (agent_state.c_id (agent_state.u_cart upsert_payload))
    = Some draft_id ->
  cart_drafts s !! draft_id = Some draft ->
  exists row,
    cd_servings row
    = match agent_state.c_servings (agent_state.u_cart upsert_payload) with
      | Some v => Some v
      | None => cd_servings draft
      end
    /\ agent_state.update_cart_draft draft_id
         (agent_state.u_cart upsert_payload) s
       = (run! db.save_cart_draft draft_id row in
          let! line_items := agent_state.read_line_items draft_id in
          ret {| agent_state.cart := row;
                 agent_state.lineItems := line_items |}) s
    /\ agent_state.upsert_cart_draft uuid4_at upsert_payload s
       = (run! db.save_cart_draft draft_id row in
          run! agent_state._replace_cart_line_items uuid4_at draft_id
                 (agent_state.u_line_items upsert_payload) in
          let! line_items := agent_state.read_line_items draft_id in
          ret {| agent_state.cart := row;
                 agent_state.lineItems := line_items |}) s.
Proof.
  intros Hdid Hdraft.
  unfold agent_state.update_cart_draft, agent_state.upsert_cart_draft,
    agent_state.id_or_uuid4.
  rewrite Hdid. cbv zeta.
  unfold bind at 1 2, db.get_cart_draft, agent_state._now_iso, gets.
  rewrite Hdraft. cbv beta iota.
  lazymatch goal with
  | |- context [db.save_cart_draft draft_id ?r] => exists r
  end.
  split; [reflexivity|]. split; [reflexivity|].
  unfold bind at 1 2 3, ret, db.get_cart_draft, gets.
  rewrite Hdraft. cbv beta iota. unfold bind.
  destruct (db.save_cart_draft _ _ s) as [[[]|e] s1]; [|reflexivity].
  destruct (agent_state._replace_cart_line_items _ _ _ s1) as [[?|?] ?];
    reflexivity.
Qed.

(** C10 (amended). POST with an id that is already stored creates no second
    record.  For an agent run it is the PATCH of that run, and it returns.
    For a cart draft it begins as the PATCH of the parent row does: when
    that write fails (a [servings] that does not fit 64 bits) both fail
    alike and nothing is written; otherwise POST goes on from the patched
    store with the replacement of the children and the re-read, and returns
    the patched parent whenever the replacement's inserts go through.  They
    always do when no line is supplied.  What POST raises is a primary-key
    violation or [OverflowError], and only the former when every integer of
    the payload fits 64 bits. *)
Theorem post_with_existing_id_patches
    run_payload run_id run upsert_payload draft_id draft s :
  (agent_state.truthy (agent_state.p_id run_payload) = Some run_id ->
   agent_runs s !! run_id = Some run ->
   agent_state.upsert_agent_run uuid4_at run_payload s
     = agent_state.update_agent_run run_id run_payload s
   /\ exists run',
       agent_state.upsert_agent_run uuid4_at run_payload s
         = (Returned run', set_agent_runs <[run_id := run']> s)
       /\ dom (agent_runs (set_agent_runs <[run_id := run']> s))
          = dom (agent_runs s))
  /\ (agent_state.truthy (agent_state.c_id (agent_state.u_cart upsert_payload))
        = Some draft_id ->
      cart_drafts s !! draft_id = Some draft ->
      (forall patched s1,
         agent_state.update_cart_draft draft_id
             (agent_state.u_cart upsert_payload) s
           = (Returned patched, s1) ->
         dom (cart_drafts s1) = dom (cart_drafts s)
         /\ agent_state.upsert_cart_draft uuid4_at upsert_payload s
            = (run! agent_state._replace_cart_line_items uuid4_at draft_id
                      (agent_state.u_line_items upsert_payload) in
               let! line_items := agent_state.read_line_items draft_id in
               ret {| agent_state.cart := agent_state.cart patched;
                      agent_state.lineItems := line_items |}) s1)
      /\ (forall e s1,
            agent_state.update_cart_draft draft_id
                (agent_state.u_cart upsert_payload) s
              = (Raised e, s1) ->
            e = OverflowError /\ s1 = s
            /\ agent_state.upsert_cart_draft uuid4_at upsert_payload s
               = (Raised OverflowError, s))
      /\ (binds (agent_state.c_servings (agent_state.u_cart upsert_payload)) ->
          exists patched s1,
            agent_state.update_cart_draft draft_id
                (agent_state.u_cart upsert_payload) s
              = (Returned patched, s1))
      /\ (binds (cd_servings draft) ->
          ~ binds (agent_state.c_servings (agent_state.u_cart upsert_payload)) ->
          agent_state.upsert_cart_draft uuid4_at upsert_payload s
            = (Raised OverflowError, s))
      /\ (forall resp s',
            agent_state.upsert_cart_draft uuid4_at upsert_payload s
              = (Returned resp, s') ->
            exists patched s1,
              agent_state.update_cart_draft draft_id
                  (agent_state.u_cart upsert_payload) s
                = (Returned patched, s1)
              /\ agent_state.cart resp = agent_state.cart patched
              /\ cart_drafts s' = cart_drafts s1)
      /\ (forall outcome s',
            agent_state.upsert_cart_draft uuid4_at upsert_payload s
              = (outcome, s') ->
            dom (cart_drafts s') = dom (cart_drafts s))
      /\ (forall e s',
            agent_state.upsert_cart_draft uuid4_at upsert_payload s
              = (Raised e, s') ->
            key_violation e \/ e = OverflowError)
      /\ (integers_bind upsert_payload ->
          forall e s',
            agent_state.upsert_cart_draft uuid4_at upsert_payload s
              = (Raised e, s') ->
            key_violation e)
      /\ (agent_state.u_line_items upsert_payload = [] ->
          binds (agent_state.c_servings (agent_state.u_cart upsert_payload)) ->
          exists resp s',
            agent_state.upsert_cart_draft uuid4_at upsert_payload s
              = (Returned resp, s'))).
Proof.
  split.
  - intros Hrid Hrun.
    unfold agent_state.upsert_agent_run, agent_state.update_agent_run,
      agent_state.id_or_uuid4, bind, db.get_agent_run, gets.
    rewrite Hrid. cbn. rewrite Hrun. cbn.
    split; [reflexivity|]. eexists. split; [reflexivity|].
    cbn. apply dom_insert_lookup_L. by eexists.
  - intros Hdid Hdraft.
    destruct (cart_draft_post_and_patch upsert_payload draft_id draft s
                Hdid Hdraft) as (row & Hservings & Hpatch & Hpost).
    set (rest :=
           run! agent_state._replace_cart_line_items uuid4_at draft_id
                  (agent_state.u_line_items upsert_payload) in
           let! line_items := agent_state.read_line_items draft_id in
           ret {| agent_state.cart := row;
                  agent_state.lineItems := line_items |}) in *.
    assert (Hdom : dom (cart_drafts (set_cart_drafts <[draft_id := row]> s))
                   = dom (cart_drafts s))
      by (cbn; apply dom_insert_lookup_L; by eexists).
    assert (Hrest : forall outcome s',
              rest (set_cart_drafts <[draft_id := row]> s) = (outcome, s') ->
              cart_drafts s' = <[draft_id := row]> (cart_drafts s)).
    { intros outcome s'. unfold rest, bind.
      pose proof (_replace_cart_line_items_preserves draft_id
                    (agent_state.u_line_items upsert_payload)
                    (set_cart_drafts <[draft_id := row]> s)) as Hkeep.
      destruct (agent_state._replace_cart_line_items _ _ _ _)
        as [[persisted|e] s2]; cbn in Hkeep;
        destruct Hkeep as (_ & _ & Hc & _).
      - rewrite read_line_items_returns. by intros [= _ <-].
      - by intros [= _ <-]. }
    destruct (db.save_cart_draft draft_id row s) as [[[]|e0] s0] eqn:Hsave.
    + (* the parent row is written *)
      apply save_cart_draft_returned in Hsave as Hs0. subst s0.
      rewrite (bind_step _ _ _ _ _ Hsave) in Hpatch.
      rewrite (bind_step _ _ _ _ _ Hsave) in Hpost.
      rewrite (bind_step _ _ _ _ _ (read_line_items_returns _ _)) in Hpatch.
      fold rest in Hpost.
      split_and!.
      * intros patched s1. rewrite Hpatch. intros [= <- <-].
        split; [done|]. by rewrite Hpost.
      * intros e s1. by rewrite Hpatch.
      * intros _. eauto.
      * intros Hstored Hno. exfalso.
        assert (Hrow : ~ binds (cd_servings row)).
        { rewrite Hservings.
          by destruct (agent_state.c_servings _). }
        by rewrite (save_cart_draft_overflow _ _ _ _ Hdraft Hstored Hrow)
          in Hsave.
      * intros resp s'. rewrite Hpost. intros H.
        eexists _, _. split; [exact Hpatch|].
        pose proof (Hrest _ _ H) as Hc.
        unfold rest in H. apply bind_returned in H as (? & s2 & _ & H).
        rewrite (bind_step _ _ _ _ _ (read_line_items_returns _ _)) in H.
        injection H as <- <-. split; [done|]. by rewrite Hc.
      * intros outcome s'. rewrite Hpost. intros H%Hrest.
        rewrite H. apply dom_insert_lookup_L. by eexists.
      * intros e s'. rewrite Hpost. unfold rest.
        apply (raises_only_bind (fun e => key_violation e \/ e = OverflowError)).
        -- eapply raises_only_mono; [|apply _replace_cart_line_items_raises].
           cbn. intros ? [?|[-> _]]; auto.
        -- intros _ s2 e2 s2'.
           rewrite (bind_step _ _ _ _ _ (read_line_items_returns _ _)).
           by intros [=].
      * intros [_ Hlines] e s'. rewrite Hpost. unfold rest.
        apply (raises_only_bind key_violation).
        -- eapply raises_only_mono; [|apply _replace_cart_line_items_raises].
           cbn. intros ? [?|[-> Hno]]; [done|]. by destruct Hno.
        -- intros _ s2 e2 s2'.
           rewrite (bind_step _ _ _ _ _ (read_line_items_returns _ _)).
           by intros [=].
      * intros Hnil _. rewrite Hpost. unfold rest. rewrite Hnil.
        unfold agent_state._replace_cart_line_items.
        cbn [agent_state.add_line_items].
        unfold bind at 1 2 3 4, db.get_cart_draft_line_items, gets.
        destruct (li_id <$> _) as [|i ids];
          cbn -[agent_state.read_line_items];
          unfold bind; rewrite read_line_items_returns; eauto.
    + (* the parent row cannot be bound *)
      pose proof Hsave as [-> Hno]%(save_cart_draft_raises draft_id row).
      assert (s0 = s) as ->.
      { unfold db.save_cart_draft in Hsave.
        case_bool_decide; by injection Hsave. }
      assert (Hpayload :
                ~ binds (agent_state.c_servings
                           (agent_state.u_cart upsert_payload))).
      { intros Hb.
        destruct (agent_state.c_servings _) as [v|].
        - apply Hno. by rewrite Hservings.
        - by rewrite (save_cart_draft_unchanged _ _ _ _ Hdraft Hservings)
            in Hsave. }
      unfold bind in Hpatch, Hpost. rewrite Hsave in Hpatch.
      rewrite Hsave in Hpost.
      split_and!.
      * intros patched s1. by rewrite Hpatch.
      * intros e s1. rewrite Hpatch. by intros [= <- <-].
      * done.
      * intros _ _. exact Hpost.
      * intros resp s'. by rewrite Hpost.
      * intros outcome s'. rewrite Hpost. by intros [= _ <-].
      * intros e s'. rewrite Hpost. intros [= <- _]. by right.
      * by intros [Hb _].
      * by intros _ Hb.
Qed.

End Ids.


(** ** Worked instances *)

Lemma reserve_stock_fallback_seeds_then_retries_witness :
  uninitialized "sku-null" stocked_session
  /\ db.reserve_stock "sku-null" 30 (Some 100) stocked_session
     = conditional_decrement "sku-null" 30
         (seeded "sku-null" 100 stocked_session)
  /\ fst (db.reserve_stock "sku-null" 30 (Some 100) stocked_session)
     = Returned true
  /\ db.get_inventory "sku-null"
       (snd (db.reserve_stock "sku-null" 30 (Some 100) stocked_session))
     = Some 70.
Proof.
  assert (H : uninitialized "sku-null" stocked_session)
    by (right; vm_compute; reflexivity).
  split; [exact H|].
  destruct (reserve_stock_fallback_seeds_then_retries
              "sku-null" 30 100 stocked_session H
              ltac:(unfold in_int64; lia) ltac:(unfold in_int64; lia))
    as (_ & _ & _ & H1 & _ & _ & H2 & H3).
  auto.
Defined.

(** A fallback that does not fit 64 bits is not seeded: the first statement
    touches no row, the fallback is supplied, and the call raises at the
    flush, leaving the product without a row. *)
Lemma reserve_stock_unbindable_fallback_raises :
  uninitialized "sku-new" empty_session
  /\ db.execute_stmt "sku-new" 30 empty_session
     = (Returned 0%nat, empty_session)
  /\ db.reserve_stock "sku-new" 30 (Some (2 ^ 63)) empty_session
     = (Raised OverflowError, empty_session)
  /\ db.get_inventory "sku-new" empty_session = None.
Proof.
  split; [left; vm_compute; reflexivity|].
  split; [vm_compute; reflexivity|].
  split; vm_compute; reflexivity.
Qed.

(** The same call against a product that has no row at all. *)
Example reserve_stock_creates_row :
  db.get_inventory "sku-new" empty_session = None
  /\ fst (db.reserve_stock "sku-new" 30 (Some 100) empty_session)
     = Returned true
  /\ db.get_inventory "sku-new"
       (snd (db.reserve_stock "sku-new" 30 (Some 100) empty_session))
     = Some 70.
Proof. vm_compute. auto. Qed.

Lemma reserve_all_never_oversells_witness :
  inventory stocked_session !! "sku-5" = Some (Some 5)
  /\ 0 <= 2
  /\ 0 <= 5
  /\ successes sample_trace <= 5 / 2
  /\ db.get_inventory "sku-5" (final_session stocked_session sample_trace)
     = Some (5 - 2 * successes sample_trace)
  /\ 0 <= 5 - 2 * successes sample_trace.
Proof.
  assert (H : inventory stocked_session !! "sku-5" = Some (Some 5))
    by (vm_compute; reflexivity).
  assert (H2 : 0 <= 2) by lia.
  assert (H5 : 0 <= 5) by lia.
  split; [exact H|]. split; [exact H2|]. split; [exact H5|].
  destruct (reserve_all_never_oversells "sku-5" 2 5 [None; Some 100; None]
              stocked_session H H2 H5 ltac:(unfold in_int64; lia))
    as (Hb & Hf & Hn & _).
  split; [apply Hb; lia|]. split; [exact Hf | exact Hn].
Defined.

Example sample_trace_outcomes :
  fst <$> sample_trace = [Returned true; Returned true; Returned false]
  /\ (fun r => db.get_inventory "sku-5" (snd r)) <$> sample_trace
     = [Some 3; Some 1; Some 1].
Proof. vm_compute. auto. Qed.

(** With a per-call quantity of zero the bound of C3 fails: the call
    succeeds, and it would again however often it is repeated. *)
Lemma reserve_zero_quantity_exceeds_bound :
  inventory stocked_session !! "sku-5" = Some (Some 5)
  /\ 0 <= 0
  /\ successes zero_trace = 1
  /\ ~ (successes zero_trace <= 5 / 0).
Proof.
  split; [vm_compute; reflexivity|]. split; [lia|].
  assert (H : successes zero_trace = 1) by (vm_compute; reflexivity).
  split; [exact H|]. rewrite H. vm_compute. intros Hle. by apply Hle.
Qed.

Lemma reserve_stock_insufficient_returns_false_witness :
  fst (db.execute_stmt "sku-5" 6 stocked_session) = Returned 0%nat
  /\ db.reserve_stock "sku-5" 6 None stocked_session
     = (Returned false, stocked_session).
Proof.
  assert (H : fst (db.execute_stmt "sku-5" 6 stocked_session) = Returned 0%nat)
    by (vm_compute; reflexivity).
  split; [exact H|].
  exact (reserve_stock_insufficient_returns_false "sku-5" 6 stocked_session H).
Defined.

Lemma reserve_stock_failed_call_seeds_witness :
  uninitialized "sku-new" empty_session
  /\ 10 < 30
  /\ db.reserve_stock "sku-new" 30 (Some 10) empty_session
     = (Returned false, seeded "sku-new" 10 empty_session)
  /\ db.get_inventory "sku-new" (seeded "sku-new" 10 empty_session) = Some 10
  /\ db.get_inventory "sku-new" empty_session = None
  /\ seeded "sku-new" 10 empty_session <> empty_session.
Proof.
  assert (H : uninitialized "sku-new" empty_session)
    by (left; vm_compute; reflexivity).
  assert (Hlt : 10 < 30) by lia.
  split; [exact H|]. split; [exact Hlt|].
  exact (reserve_stock_failed_call_seeds "sku-new" 30 10 empty_session H
           ltac:(unfold in_int64; lia) ltac:(unfold in_int64; lia) Hlt).
Defined.

(** A quantity that does not fit 64 bits seeds nothing: the fallback is
    supplied and smaller than the quantity, the product has no row, and the
    call raises at its first statement instead of returning false. *)
Lemma reserve_stock_unbindable_quantity_seeds_nothing :
  uninitialized "sku-new" empty_session
  /\ 10 < 2 ^ 63
  /\ db.reserve_stock "sku-new" (2 ^ 63) (Some 10) empty_session
     = (Raised OverflowError, empty_session)
  /\ db.get_inventory "sku-new" empty_session = None.
Proof.
  split; [left; vm_compute; reflexivity|]. split; [lia|].
  split; vm_compute; reflexivity.
Qed.

Lemma upsert_agent_run_creates_witness :
  (exists run s',
      agent_state.upsert_agent_run sample_uuid4_at blank_run_payload
        empty_session = (Returned run, s')
      /\ ar_id run = "uuid-"
      /\ ar_state run = "DISCOVER_MERCHANT"
      /\ ar_created_at run = wall_clock empty_session
      /\ ar_updated_at run = wall_clock empty_session
      /\ agent_runs s' !! "uuid-" = Some run)
  /\ (exists run s',
        agent_state.upsert_agent_run sample_uuid4_at
          (created_at_payload "run-2" "2025-06-01T00:00:00+00:00")
          empty_session = (Returned run, s')
        /\ ar_id run = "run-2"
        /\ ar_created_at run = "2025-06-01T00:00:00+00:00"
        /\ ar_updated_at run = wall_clock empty_session).
Proof.
  split.
  - destruct (upsert_agent_run_creates sample_uuid4_at blank_run_payload
                empty_session ltac:(vm_compute; reflexivity))
      as (run & s' & Heq & Hstore & Hid & _ & _ & Hst & _ & _ & Hc & _ & Hu & _).
    exists run, s'. split; [exact Heq|].
    split; [exact Hid|]. split; [by apply Hst|].
    split; [apply Hc; by left|]. split; [apply Hu; by left|].
    rewrite Hstore. apply lookup_insert_eq.
  - destruct (upsert_agent_run_creates sample_uuid4_at
                (created_at_payload "run-2" "2025-06-01T00:00:00+00:00")
                empty_session ltac:(vm_compute; reflexivity))
      as (run & s' & Heq & _ & Hid & _ & _ & _ & _ & Hc & _ & _ & Hu & _).
    exists run, s'. split; [exact Heq|]. split; [exact Hid|].
    split; [by apply Hc|]. apply Hu. by left.
Defined.

Lemma update_agent_run_patches_witness :
  agent_runs run_session !! "run-1" = Some sample_run
  /\ (exists run',
        patch_failed
        = (Returned run', set_agent_runs <["run-1" := run']> run_session)
        /\ ar_state run' = "FAILED"
        /\ ar_updated_at run' = wall_clock run_session
        /\ ar_created_at run' = ar_created_at sample_run)
  /\ (exists run',
        agent_state.update_agent_run "run-1"
          (updated_at_payload "2026-02-02T00:00:00+00:00") run_session
        = (Returned run', set_agent_runs <["run-1" := run']> run_session)
        /\ ar_updated_at run' = "2026-02-02T00:00:00+00:00").
Proof.
  assert (H : agent_runs run_session !! "run-1" = Some sample_run)
    by (vm_compute; reflexivity).
  split; [exact H|]. split.
  - destruct (update_agent_run_patches "run-1"
                (state_only_payload agent_state.FAILED) sample_run
                run_session H)
      as (run' & Heq & _ & _ & _ & _ & _ & _ & Hst & _ & _ & _ & _ & _ & Hu
          & Hc & _).
    exists run'. split; [exact Heq|].
    split; [by apply (Hst agent_state.FAILED)|].
    split; [apply Hu; by left | exact Hc].
  - destruct (update_agent_run_patches "run-1"
                (updated_at_payload "2026-02-02T00:00:00+00:00") sample_run
                run_session H)
      as (run' & Heq & _ & _ & _ & _ & _ & _ & _ & _ & _ & _ & _ & Hu & _).
    exists run'. split; [exact Heq|]. by apply Hu.
Defined.

(** A [createdAt] in a PATCH payload is not written: the stored stamp
    stays. *)
Lemma patch_ignores_created_at :
  agent_runs run_session !! "run-1" = Some sample_run
  /\ agent_state.p_created_at
       (created_at_payload "run-1" "2030-06-01T12:00:00+00:00")
     = Some "2030-06-01T12:00:00+00:00"
  /\ ar_created_at <$> agent_runs (snd patch_created_at) !! "run-1"
     = Some "2025-12-31T00:00:00+00:00"
  /\ ar_created_at <$> agent_runs (snd patch_created_at) !! "run-1"
     <> Some "2030-06-01T12:00:00+00:00".
Proof.
  split; [vm_compute; reflexivity|]. split; [reflexivity|].
  assert (H : ar_created_at <$> agent_runs (snd patch_created_at) !! "run-1"
              = Some "2025-12-31T00:00:00+00:00") by (vm_compute; reflexivity).
  split; [exact H|]. rewrite H. discriminate.
Qed.

Lemma update_agent_run_keeps_omitted_witness :
  agent_runs run_session !! "run-1" = Some sample_run
  /\ patch_failed = (Returned (returned_or sample_run patch_failed),
                     snd patch_failed)
  /\ ar_state (returned_or sample_run patch_failed) = "FAILED"
  /\ ar_recipe_id (returned_or sample_run patch_failed) = Some "r1"
  /\ ar_user_id (returned_or sample_run patch_failed) = ar_user_id sample_run.
Proof.
  assert (H : agent_runs run_session !! "run-1" = Some sample_run)
    by (vm_compute; reflexivity).
  assert (Heq : patch_failed = (Returned (returned_or sample_run patch_failed),
                                snd patch_failed))
    by (vm_compute; reflexivity).
  split; [exact H|]. split; [exact Heq|].
  destruct (update_agent_run_keeps_omitted "run-1"
              (state_only_payload agent_state.FAILED) sample_run run_session
              _ _ H Heq)
    as (_ & Hu & _ & _ & _ & _ & _ & _ & _ & _ & _ & _ & _ & _ & Hex).
  destruct (Hex eq_refl eq_refl) as [Hs Hr].
  split; [exact Hs|]. split; [exact Hr|]. by apply Hu.
Defined.

(** An omitted [updatedAt] does not keep the stored stamp: it is replaced
    by the current time. *)
Lemma patch_refreshes_omitted_updated_at :
  agent_runs run_session !! "run-1" = Some sample_run
  /\ agent_state.p_updated_at (state_only_payload agent_state.FAILED) = None
  /\ ar_updated_at <$> agent_runs run_session !! "run-1"
     = Some "2025-12-31T00:00:00+00:00"
  /\ ar_updated_at <$> agent_runs (snd patch_failed) !! "run-1"
     = Some "2026-01-01T00:00:00+00:00"
  /\ ar_updated_at <$> agent_runs (snd patch_failed) !! "run-1"
     <> ar_updated_at <$> agent_runs run_session !! "run-1".
Proof.
  split; [vm_compute; reflexivity|]. split; [reflexivity|].
  assert (H0 : ar_updated_at <$> agent_runs run_session !! "run-1"
               = Some "2025-12-31T00:00:00+00:00") by (vm_compute; reflexivity).
  assert (H1 : ar_updated_at <$> agent_runs (snd patch_failed) !! "run-1"
               = Some "2026-01-01T00:00:00+00:00") by (vm_compute; reflexivity).
  split; [exact H0|]. split; [exact H1|]. rewrite H0, H1. discriminate.
Qed.

Lemma unknown_id_is_not_found_witness :
  agent_runs empty_session !! "run-9" = None
  /\ cart_drafts empty_session !! "draft-9" = None
  /\ agent_state.update_agent_run "run-9" blank_run_payload empty_session
     = (Raised (HTTPException 404 "Agent run not found."), empty_session)
  /\ agent_state.get_agent_run "run-9" empty_session
     = (Raised (HTTPException 404 "Agent run not found."), empty_session)
  /\ agent_state.update_cart_draft "draft-9" (cart_payload_with_id None)
       empty_session
     = (Raised (HTTPException 404 "Cart draft not found."), empty_session)
  /\ agent_state.get_cart_draft "draft-9" empty_session
     = (Raised (HTTPException 404 "Cart draft not found."), empty_session).
Proof.
  assert (Hr : agent_runs empty_session !! "run-9" = None)
    by (vm_compute; reflexivity).
  assert (Hd : cart_drafts empty_session !! "draft-9" = None)
    by (vm_compute; reflexivity).
  split; [exact Hr|]. split; [exact Hd|].
  exact (unknown_id_is_not_found "run-9" "draft-9" blank_run_payload
           (cart_payload_with_id None) empty_session Hr Hd).
Defined.


(** The end-to-end scenario: two lines, the first with one alternative;
    then the same draft with one line, after which the dropped line and its
    alternative are gone from the store. *)
Example upsert_then_reupsert :
  (fun entry => (li_ingredient_key (fst entry), length (snd entry)))
    <$> agent_state.lineItems (returned_or blank_response first_upsert)
  = [("flour", 1%nat); ("eggs", 0%nat)]
  /\ (fun entry => (li_ingredient_key (fst entry), length (snd entry)))
       <$> agent_state.lineItems (returned_or blank_response second_upsert)
     = [("eggs", 0%nat)]
  /\ li_ingredient_key <$> cart_draft_line_items (snd second_upsert) = ["eggs"]
  /\ cart_draft_alternatives (snd second_upsert) = [].
Proof. vm_compute. auto. Qed.

Lemma post_with_existing_id_patches_witness :
  agent_runs full_session !! "run-1" = Some sample_run
  /\ cart_drafts full_session !! "draft-1"
     = Some (agent_state.cart (returned_or blank_response first_upsert))
  /\ agent_state.upsert_agent_run sample_uuid4_at
       (created_at_payload "run-1" "2030-06-01T12:00:00+00:00") full_session
     = agent_state.update_agent_run "run-1"
         (created_at_payload "run-1" "2030-06-01T12:00:00+00:00") full_session
  /\ (exists patched s1,
        agent_state.update_cart_draft "draft-1"
          (agent_state.u_cart (sample_upsert "draft-1" [eggs_line]))
          full_session
        = (Returned patched, s1))
  /\ (forall outcome s',
        agent_state.upsert_cart_draft sample_uuid4_at
          (sample_upsert "draft-1" [eggs_line]) full_session
        = (outcome, s') ->
        dom (cart_drafts s') = dom (cart_drafts full_session)).
Proof.
  assert (H2 : agent_runs full_session !! "run-1" = Some sample_run)
    by (vm_compute; reflexivity).
  assert (H4 : cart_drafts full_session !! "draft-1"
               = Some (agent_state.cart
                         (returned_or blank_response first_upsert)))
    by (vm_compute; reflexivity).
  split; [exact H2|]. split; [exact H4|].
  destruct (post_with_existing_id_patches sample_uuid4_at
              (created_at_payload "run-1" "2030-06-01T12:00:00+00:00")
              "run-1" sample_run (sample_upsert "draft-1" [eggs_line])
              "draft-1"
              (agent_state.cart (returned_or blank_response first_upsert))
              full_session)
    as [Hruns Hdrafts].
  destruct (Hruns eq_refl H2) as [Hrun _].
  destruct (Hdrafts eq_refl H4) as (_ & _ & Hpatch & _ & _ & Hdom & _).
  split; [exact Hrun|]. split; [|exact Hdom].
  apply Hpatch. vm_compute. split; [discriminate|reflexivity].
Defined.

(** POST of the stored draft ["draft-2"] with a line whose id is taken by a
    line of ["draft-1"] does not return: the insert is refused. *)
Lemma post_existing_draft_can_raise :
  is_Some (cart_drafts two_drafts !! "draft-2")
  /\ agent_state.truthy
       (agent_state.c_id
          (agent_state.u_cart (sample_upsert "draft-2" [flour_line])))
     = Some "draft-2"
  /\ fst (agent_state.upsert_cart_draft sample_uuid4_at
            (sample_upsert "draft-2" [flour_line]) two_drafts)
     = Raised (IntegrityError "cart_draft_line_items" "line-flour")
  /\ ~ exists resp,
        fst (agent_state.upsert_cart_draft sample_uuid4_at
               (sample_upsert "draft-2" [flour_line]) two_drafts)
        = Returned resp.
Proof.
  split; [vm_compute; eauto|]. split; [reflexivity|].
  assert (H : fst (agent_state.upsert_cart_draft sample_uuid4_at
                     (sample_upsert "draft-2" [flour_line]) two_drafts)
              = Raised (IntegrityError "cart_draft_line_items" "line-flour"))
    by (vm_compute; reflexivity).
  split; [exact H|]. rewrite H. intros [resp [=]].
Qed.

(** * Further properties of the modelled code *)

(** ** Inventory reservation, continued *)

Section ReserveStockMore.

Implicit Types (product_id : string) (quantity fallback stock : Z) (s : Session).

Lemma inventory_frame_refl product_id s : inventory_frame product_id s s.
Proof. by split_and!. Qed.

Lemma inventory_frame_trans product_id s1 s2 s3 :
  inventory_frame product_id s1 s2 -> inventory_frame product_id s2 s3 ->
  inventory_frame product_id s1 s3.
Proof.
  intros (F1 & F2 & F3 & F4 & F5 & F6 & F7) (G1 & G2 & G3 & G4 & G5 & G6 & G7).
  split_and!; try congruence.
  intros other Hne. by rewrite G1, F1.
Qed.

Lemma inventory_frame_bind {A B} product_id (c : M A) (k : A -> M B) :
  (forall s, inventory_frame product_id s (snd (c s))) ->
  (forall a s, inventory_frame product_id s (snd (k a s))) ->
  forall s, inventory_frame product_id s (snd (bind c k s)).
Proof.
  intros Hc Hk s. unfold bind. specialize (Hc s).
  destruct (c s) as [[a|e] s1]; cbn in *; [|done].
  eapply inventory_frame_trans; [exact Hc|apply Hk].
Qed.

Lemma execute_stmt_frame product_id quantity s :
  inventory_frame product_id s (snd (db.execute_stmt product_id quantity s)).
Proof.
  unfold db.execute_stmt.
  case_bool_decide; [|apply inventory_frame_refl].
  destruct (inventory s !! product_id) as [[stock|]|];
    [case_bool_decide|..]; try apply inventory_frame_refl.
  split_and!; try done.
  intros other Hne. cbn. by rewrite lookup_insert_ne.
Qed.

Lemma flush_quantity_frame product_id fallback s :
  inventory_frame product_id s (snd (db.flush_quantity product_id fallback s)).
Proof.
  unfold db.flush_quantity.
  case_bool_decide; [|apply inventory_frame_refl].
  split_and!; try done.
  intros other Hne. cbn. by rewrite lookup_insert_ne.
Qed.

Lemma reserve_stock_frame product_id quantity fb s :
  inventory_frame product_id s (snd (db.reserve_stock product_id quantity fb s)).
Proof.
  unfold db.reserve_stock. revert s.
  apply inventory_frame_bind; [apply execute_stmt_frame|].
  intros rowcount s. case_bool_decide; [apply inventory_frame_refl|].
  destruct fb as [fallback|]; [|apply inventory_frame_refl].
  revert s. apply inventory_frame_bind; [intros s; apply inventory_frame_refl|].
  intros existing. apply inventory_frame_bind.
  - intros s. destruct existing as [[?|]|];
      (apply inventory_frame_refl || apply flush_quantity_frame).
  - intros _. apply inventory_frame_bind; [apply execute_stmt_frame|].
    intros ? s. apply inventory_frame_refl.
Qed.

(** X1. What a reservation call can raise, and what it can touch.  It
    raises nothing but [OverflowError], and that exactly when the quantity
    does not fit 64 bits, or when an uninitialized product is to be seeded
    with a fallback that does not fit; the store is then as it was.  With
    arguments that fit it returns a boolean.  Whatever the outcome, it
    writes at most the row of its own product: every other product's row
    and every other table are left as they were, and no identifier is
    drawn. *)
Theorem reserve_stock_touches_only_its_product product_id quantity fb s :
  (forall e s',
     db.reserve_stock product_id quantity fb s = (Raised e, s') ->
     e = OverflowError /\ s' = s
     /\ (~ in_int64 quantity
         \/ exists fallback,
              fb = Some fallback /\ ~ in_int64 fallback
              /\ uninitialized product_id s))
  /\ (~ in_int64 quantity ->
      db.reserve_stock product_id quantity fb s = (Raised OverflowError, s))
  /\ (forall fallback,
        in_int64 quantity -> fb = Some fallback -> ~ in_int64 fallback ->
        uninitialized product_id s ->
        db.reserve_stock product_id quantity fb s = (Raised OverflowError, s))
  /\ (in_int64 quantity ->
      (forall fallback, fb = Some fallback -> in_int64 fallback) ->
      exists outcome s',
        db.reserve_stock product_id quantity fb s = (Returned outcome, s'))
  /\ (forall outcome s',
        db.reserve_stock product_id quantity fb s = (outcome, s') ->
        (forall other, other <> product_id ->
           inventory s' !! other = inventory s !! other)
        /\ agent_runs s' = agent_runs s
        /\ cart_drafts s' = cart_drafts s
        /\ cart_draft_line_items s' = cart_draft_line_items s
        /\ cart_draft_alternatives s' = cart_draft_alternatives s
        /\ wall_clock s' = wall_clock s
        /\ uuid_drawn s' = uuid_drawn s).
Proof.
  assert (Hcases :
    (~ in_int64 quantity
     /\ db.reserve_stock product_id quantity fb s = (Raised OverflowError, s))
    \/ (in_int64 quantity
        /\ (exists fallback, fb = Some fallback /\ ~ in_int64 fallback
                             /\ uninitialized product_id s)
        /\ db.reserve_stock product_id quantity fb s
           = (Raised OverflowError, s))
    \/ (in_int64 quantity
        /\ (forall fallback, fb = Some fallback -> ~ in_int64 fallback ->
                             ~ uninitialized product_id s)
        /\ exists outcome s',
             db.reserve_stock product_id quantity fb s
             = (Returned outcome, s'))).
  { destruct (decide (in_int64 quantity)) as [Hq|Hq];
      [|left; split; [done|by apply reserve_stock_overflow]].
    right.
    destruct (inventory s !! product_id) as [[stock|]|] eqn:Hrow.
    - right. split; [done|]. split.
      + intros fallback _ _ [Hu|Hu]; congruence.
      + rewrite (reserve_stock_stocked _ _ _ _ _ Hq Hrow).
        case_bool_decide; eauto.
    - destruct fb as [fallback|].
      + destruct (decide (in_int64 fallback)) as [Hf|Hf].
        * right. split; [done|]. split; [by intros ? [= <-]|].
          rewrite reserve_stock_uninitialized by (done || by right).
          rewrite conditional_decrement_seeded by done.
          case_bool_decide; eauto.
        * left. split; [done|]. split; [exists fallback; split_and!; [done|done|by right]|].
          apply reserve_stock_fallback_overflow; by try right.
      + right. split; [done|]. split; [done|].
        unfold db.reserve_stock, bind.
        rewrite execute_stmt_uninitialized by (done || by right).
        rewrite (bool_decide_eq_false_2 (0 < 0)%nat) by lia. eauto.
    - destruct fb as [fallback|].
      + destruct (decide (in_int64 fallback)) as [Hf|Hf].
        * right. split; [done|]. split; [by intros ? [= <-]|].
          rewrite reserve_stock_uninitialized by (done || by left).
          rewrite conditional_decrement_seeded by done.
          case_bool_decide; eauto.
        * left. split; [done|]. split; [exists fallback; split_and!; [done|done|by left]|].
          apply reserve_stock_fallback_overflow; by try left.
      + right. split; [done|]. split; [done|].
        unfold db.reserve_stock, bind.
        rewrite execute_stmt_uninitialized by (done || by left).
        rewrite (bool_decide_eq_false_2 (0 < 0)%nat) by lia. eauto. }
  split_and!.
  - intros e s' H.
    destruct Hcases as [[Hq Heq]|[(Hq & Hfb & Heq)|(Hq & _ & o & s1 & Heq)]];
      rewrite Heq in H; [| |done]; injection H as <- <-; auto.
  - intros Hq. by apply reserve_stock_overflow.
  - intros fallback Hq -> Hf Hu. by apply reserve_stock_fallback_overflow.
  - intros Hq Hfb.
    destruct Hcases as [[Hq' _]|[(_ & (f & Hf & Hno & _) & _)|(_ & _ & H)]];
      [done| |done].
    by destruct Hno; apply Hfb.
  - intros outcome s' H.
    pose proof (reserve_stock_frame product_id quantity fb s) as Hframe.
    by rewrite H in Hframe.
Qed.

(** X2. Two reservations in a row that the INTEGER stock covers together
    both succeed, and they leave the store exactly as one reservation of
    the sum would; so the order of the two does not matter either. *)
Theorem reserve_stock_twice_is_reserve_sum
    product_id q1 q2 fb1 fb2 fb stock s :
  inventory s !! product_id = Some (Some stock) ->
  in_int64 stock ->
  0 <= q1 -> 0 <= q2 -> q1 + q2 <= stock ->
  db.reserve_stock product_id q1 fb1 s
    = (Returned true,
       set_inventory <[product_id := Some (stock - q1)]> s)
  /\ db.reserve_stock product_id q2 fb2
       (snd (db.reserve_stock product_id q1 fb1 s))
     = db.reserve_stock product_id (q1 + q2) fb s
  /\ db.reserve_stock product_id q2 fb2
       (snd (db.reserve_stock product_id q1 fb1 s))
     = db.reserve_stock product_id q1 fb1
         (snd (db.reserve_stock product_id q2 fb2 s))
  /\ db.get_inventory product_id
       (snd (db.reserve_stock product_id q2 fb2
               (snd (db.reserve_stock product_id q1 fb1 s))))
     = Some (stock - q1 - q2).
Proof.
  intros Hrow H64 H1 H2 Hsum.
  assert (Hin : forall q, 0 <= q <= stock -> in_int64 q)
    by (intros q Hq; unfold in_int64 in *; lia).
  assert (Hfirst : forall q fb', 0 <= q <= stock ->
            db.reserve_stock product_id q fb' s
            = (Returned true,
               set_inventory <[product_id := Some (stock - q)]> s)).
  { intros q fb' Hq.
    rewrite (reserve_stock_stocked _ _ _ _ _ (Hin q Hq) Hrow).
    rewrite bool_decide_eq_true_2 by lia.
    by rewrite sqlite_sub_covered. }
  assert (Hstep : forall q fb' qa,
            qa + q <= stock -> 0 <= qa -> 0 <= q ->
            db.reserve_stock product_id q fb'
              (set_inventory <[product_id := Some (stock - qa)]> s)
            = (Returned true,
               set_inventory <[product_id := Some (stock - qa - q)]> s)).
  { intros q fb' qa Hle Hqa Hq.
    rewrite (reserve_stock_stocked _ _ _ (stock - qa) _ (Hin q ltac:(lia)))
      by (cbn; apply lookup_insert_eq).
    rewrite bool_decide_eq_true_2 by lia.
    rewrite sqlite_sub_covered by (unfold in_int64 in *; lia).
    f_equal. unfold set_inventory; cbn. by rewrite insert_insert_eq. }
  rewrite !Hfirst by lia. cbn [snd].
  split; [done|].
  rewrite (Hstep q2 fb2 q1) by lia.
  rewrite (Hstep q1 fb1 q2) by lia.
  split_and!.
  - by replace (stock - (q1 + q2)) with (stock - q1 - q2) by lia.
  - by replace (stock - q2 - q1) with (stock - q1 - q2) by lia.
  - unfold db.get_inventory; cbn. by rewrite lookup_insert_eq.
Qed.

(** X3. The quantity is not checked for its sign: a call with a negative
    quantity against a product in stock succeeds and, as long as the sum
    still fits 64 bits, raises the stored quantity by that amount. *)
Theorem reserve_stock_negative_quantity_restocks
    product_id quantity fb stock s :
  inventory s !! product_id = Some (Some stock) ->
  quantity < 0 -> 0 <= stock ->
  stock - quantity < 2 ^ 63 ->
  fst (db.reserve_stock product_id quantity fb s) = Returned true
  /\ db.get_inventory product_id (snd (db.reserve_stock product_id quantity fb s))
     = Some (stock - quantity)
  /\ stock < stock - quantity.
Proof.
  intros Hrow Hneg Hstock Hfits.
  assert (Hq : in_int64 quantity) by (unfold in_int64; lia).
  rewrite (reserve_stock_stocked _ _ _ _ _ Hq Hrow).
  rewrite bool_decide_eq_true_2 by lia. cbn [fst snd].
  rewrite sqlite_sub_exact by (unfold in_int64; lia).
  split; [done|]. split; [|lia].
  unfold db.get_inventory; cbn. by rewrite lookup_insert_eq.
Qed.

(** X4. The fallback only ever initializes a product: when the product has
    a stock figure that does not cover the request, the call fails and
    writes nothing, even if the fallback would have covered it. *)
Theorem reserve_stock_fallback_never_tops_up
    product_id quantity fallback stock s :
  inventory s !! product_id = Some (Some stock) ->
  in_int64 quantity ->
  stock < quantity ->
  db.reserve_stock product_id quantity (Some fallback) s = (Returned false, s).
Proof.
  intros Hrow Hq Hlt.
  rewrite (reserve_stock_stocked _ _ _ _ _ Hq Hrow).
  by rewrite bool_decide_eq_false_2 by lia.
Qed.

End ReserveStockMore.

(** ** Agent runs, continued *)

Section AgentRunsMore.

Variable uuid4_at : nat -> string.

Lemma patch_again {A} (o x : option A) :
  match o with
  | Some v => Some v
  | None => match o with Some v => Some v | None => x end
  end = match o with Some v => Some v | None => x end.
Proof. by destruct o. Qed.

Lemma patch_state_again (o : option agent_state.AgentRunState) (x : string) :
  match o with
  | Some st => agent_state.value st
  | None => match o with Some st => agent_state.value st | None => x end
  end = match o with Some st => agent_state.value st | None => x end.
Proof. by destruct o. Qed.

Lemma patch_self {A} (o : option A) :
  match o with Some v => Some v | None => o end = o.
Proof. by destruct o. Qed.

(** X5. GET after POST: whatever [upsert_agent_run] returned, creating or
    updating, [get_agent_run] under the id the call settled on returns that
    same record from the store the call left. *)
Theorem get_agent_run_after_upsert payload s run s' :
  agent_state.upsert_agent_run uuid4_at payload s = (Returned run, s') ->
  agent_state.get_agent_run
    (resolved_id uuid4_at (agent_state.p_id payload) s) s'
  = (Returned run, s').
Proof.
  unfold agent_state.upsert_agent_run, agent_state.get_agent_run,
    agent_state.id_or_uuid4, resolved_id, bind, db.get_agent_run, gets.
  destruct (agent_state.truthy (agent_state.p_id payload)) as [id|]; cbn.
  - destruct (agent_runs s !! id); cbn; intros [= <- <-]; cbn;
      by rewrite lookup_insert_eq.
  - destruct (agent_runs s !! uuid4_at (uuid_drawn s)); cbn;
      intros [= <- <-]; cbn; by rewrite lookup_insert_eq.
Qed.

(** X6. POST with an explicit id is idempotent up to the stamp.  The first
    call stores a record whose [updated_at] is the payload's own stamp, when
    that is a non-empty string, and the time of the call otherwise.  Posting
    the same payload again, at whatever reading of the clock, adds no
    record.  When the payload carries its own stamp, or the clock has not
    moved, the second call returns the record of the first and changes
    nothing; when the payload carries none, it returns the record of the
    first with [updated_at] set to the new time, and nothing else
    changed. *)
Theorem upsert_agent_run_idempotent payload id s :
  agent_state.truthy (agent_state.p_id payload) = Some id ->
  exists run1 s1,
    agent_state.upsert_agent_run uuid4_at payload s = (Returned run1, s1)
    /\ agent_runs s1 !! id = Some run1
    /\ (forall v, agent_state.p_updated_at payload = Some v -> v <> "" ->
          ar_updated_at run1 = v)
    /\ (agent_state.p_updated_at payload = None
        \/ agent_state.p_updated_at payload = Some "" ->
          ar_updated_at run1 = wall_clock s)
    /\ forall now,
        exists run2,
          agent_state.upsert_agent_run uuid4_at payload (set_wall_clock now s1)
          = (Returned run2,
             set_agent_runs <[id := run2]> (set_wall_clock now s1))
          /\ dom (agent_runs
                    (set_agent_runs <[id := run2]> (set_wall_clock now s1)))
             = dom (agent_runs s1)
          /\ (forall v, agent_state.p_updated_at payload = Some v -> v <> "" ->
                run2 = run1
                /\ agent_runs
                     (set_agent_runs <[id := run2]> (set_wall_clock now s1))
                   = agent_runs s1)
          /\ (now = wall_clock s ->
                run2 = run1
                /\ agent_runs
                     (set_agent_runs <[id := run2]> (set_wall_clock now s1))
                   = agent_runs s1)
          /\ (agent_state.p_updated_at payload = None
              \/ agent_state.p_updated_at payload = Some "" ->
                run2 = with_updated_at run1 now).
Proof.
  intros Hid.
  assert (Hfirst : exists run1 s1,
            agent_state.upsert_agent_run uuid4_at payload s = (Returned run1, s1)
            /\ agent_runs s1 !! id = Some run1
            /\ ar_updated_at run1
               = agent_state.py_or (agent_state.p_updated_at payload)
                   (wall_clock s)
            /\ forall now,
                agent_state.upsert_agent_run uuid4_at payload
                  (set_wall_clock now s1)
                = (Returned
                     (with_updated_at run1
                        (agent_state.py_or (agent_state.p_updated_at payload) now)),
                   set_agent_runs
                     <[id := with_updated_at run1
                               (agent_state.py_or
                                  (agent_state.p_updated_at payload) now)]>
                     (set_wall_clock now s1))).
  { unfold agent_state.upsert_agent_run, agent_state.id_or_uuid4, bind,
      db.get_agent_run, gets.
    rewrite Hid. cbn -[agent_state.py_or].
    destruct (agent_runs s !! id) as [run0|]; cbn -[agent_state.py_or];
      eexists _, _; (split; [reflexivity|]); cbn -[agent_state.py_or];
      rewrite lookup_insert_eq; (split; [reflexivity|]);
      (split; [reflexivity|]); intros now; cbn -[agent_state.py_or];
      unfold with_updated_at; cbn -[agent_state.py_or].
    - rewrite !patch_again, !patch_state_again. reflexivity.
    - rewrite !patch_self. destruct (agent_state.p_state payload); reflexivity. }
  destruct Hfirst as (run1 & s1 & Heq & Hstored & Hstamp & Hagain).
  assert (Hsame : forall stamp, stamp = ar_updated_at run1 ->
            with_updated_at run1 stamp = run1)
    by (intros ? ->; by destruct run1).
  exists run1, s1. split; [exact Heq|]. split; [exact Hstored|].
  split; [intros v Hv Hne; by rewrite Hstamp, Hv, py_or_nonempty|].
  split; [intros Hv; by rewrite Hstamp, py_or_falsy|].
  intros now. eexists. split; [apply Hagain|].
  split; [cbn; apply dom_insert_lookup_L; by eexists|].
  split_and!.
  - intros v Hv Hne.
    rewrite Hsame by (by rewrite Hstamp, Hv, !py_or_nonempty).
    split; [done|]. cbn. by apply insert_id.
  - intros ->. rewrite Hsame by done.
    split; [done|]. cbn. by apply insert_id.
  - intros Hv. by rewrite py_or_falsy.
Qed.

(** X7. Posting a stored record back is a no-op.  The handlers answer with
    the serialized record under the key ["agentRun"]; POST of that record
    (the object under the key, not the enveloping body), for a record stored
    under its own non-empty id, with a non-empty [updated_at] and a state
    that is an enum value, returns the record and leaves the store as it
    was. *)
Theorem upsert_agent_run_echo run st s :
  agent_runs s !! ar_id run = Some run ->
  ar_id run <> "" ->
  ar_updated_at run <> "" ->
  ar_state run = agent_state.value st ->
  agent_state.upsert_agent_run uuid4_at (echo_run_payload run st) s
  = (Returned run, s).
Proof.
  intros Hstored Hid Hstamp Hstate.
  unfold agent_state.upsert_agent_run, agent_state.id_or_uuid4, bind,
    db.get_agent_run, gets.
  cbn [echo_run_payload agent_state.p_id]. rewrite (truthy_nonempty _ Hid).
  cbn. rewrite Hstored. cbn.
  rewrite (py_or_nonempty _ _ Hstamp), <- Hstate.
  assert (Hrun : {| ar_id := ar_id run;
                    ar_user_id :=
                      match ar_user_id run with
                      | Some v => Some v | None => ar_user_id run end;
                    ar_device_id :=
                      match ar_device_id run with
                      | Some v => Some v | None => ar_device_id run end;
                    ar_recipe_id :=
                      match ar_recipe_id run with
                      | Some v => Some v | None => ar_recipe_id run end;
                    ar_merchant_base_url :=
                      match ar_merchant_base_url run with
                      | Some v => Some v | None => ar_merchant_base_url run end;
                    ar_store_id :=
                      match ar_store_id run with
                      | Some v => Some v | None => ar_store_id run end;
                    ar_created_at := ar_created_at run;
                    ar_updated_at := ar_updated_at run;
                    ar_state := ar_state run;
                    ar_failure_code :=
                      match ar_failure_code run with
                      | Some v => Some v | None => ar_failure_code run end;
                    ar_failure_detail :=
                      match ar_failure_detail run with
                      | Some v => Some v | None => ar_failure_detail run end;
                    ar_cart_draft_id :=
                      match ar_cart_draft_id run with
                      | Some v => Some v | None => ar_cart_draft_id run end;
                    ar_order_id :=
                      match ar_order_id run with
                      | Some v => Some v | None => ar_order_id run end |}
                 = run).
  { destruct run as [? [?|] [?|] [?|] [?|] [?|] ? ? ? [?|] [?|] [?|] [?|]];
      reflexivity. }
  rewrite Hrun. f_equal.
  unfold set_agent_runs. rewrite insert_id by done. by destruct s.
Qed.

End AgentRunsMore.

(** ** Cart drafts, continued *)

Section Keys.

Context {A K : Type} `{!EqDecision K} (key : A -> K).

Lemma NoDup_keys_filter (P : A -> Prop) `{!forall x, Decision (P x)} (l : list A) :
  NoDup (key <$> l) -> NoDup (key <$> filter P l).
Proof.
  induction l as [|x l IH]; [done|].
  rewrite fmap_cons. intros [Hx Hl]%NoDup_cons.
  destruct (decide (P x)).
  - rewrite filter_cons_True, fmap_cons by done.
    apply NoDup_cons. split; [|by apply IH].
    intros (y & Hy & Hin)%list_elem_of_fmap_1.
    apply list_elem_of_filter in Hin as [_ Hin].
    apply Hx. rewrite Hy. by apply list_elem_of_fmap_2.
  - rewrite filter_cons_False by done. by apply IH.
Qed.

Lemma NoDup_keys_snoc (l : list A) (x : A) :
  NoDup (key <$> l) -> key x ∉ key <$> l -> NoDup (key <$> l ++ [x]).
Proof.
  intros Hl Hx. rewrite fmap_app. apply NoDup_app.
  split; [done|]. split; [|apply NoDup_singleton].
  intros k Hk ->%list_elem_of_singleton. done.
Qed.

Lemma NoDup_keys_inj (l : list A) (x y : A) :
  NoDup (key <$> l) -> x ∈ l -> y ∈ l -> key x = key y -> x = y.
Proof.
  induction l as [|z l IH]; [by intros _ ?%elem_of_nil|].
  rewrite fmap_cons. intros [Hz Hl]%NoDup_cons.
  intros [->|Hx]%elem_of_cons [->|Hy]%elem_of_cons Hk; [done| | |by apply IH].
  - exfalso. apply Hz. rewrite Hk. by apply list_elem_of_fmap_2.
  - exfalso. apply Hz. rewrite <- Hk. by apply list_elem_of_fmap_2.
Qed.

End Keys.

Section CartDraftsMore.

Variable uuid4_at : nat -> string.

Lemma add_alternative_fresh record s s' :
  db.add_alternative record s = (Returned tt, s') ->
  alt_id record ∉ alt_id <$> cart_draft_alternatives s.
Proof. unfold db.add_alternative. by repeat case_bool_decide. Qed.

Lemma add_alternatives_keeps_ids_unique line_id alternatives :
  forall s s',
    agent_state.add_alternatives uuid4_at line_id alternatives s
      = (Returned tt, s') ->
    alternative_ids_unique s -> alternative_ids_unique s'.
Proof.
  unfold alternative_ids_unique.
  induction alternatives as [|alt rest IH]; intros s s' H Hs.
  - by injection H as <-.
  - cbn [agent_state.add_alternatives] in H.
    apply bind_returned in H as (id & s1 & Hid & H).
    destruct (id_or_uuid4_returns uuid4_at (agent_state.a_id alt) s)
      as (s1' & Hid' & _ & Ha1 & _).
    rewrite Hid' in Hid. injection Hid as <- <-.
    apply bind_returned in H as ([] & s2 & Hadd & H).
    pose proof (add_alternative_fresh _ _ _ Hadd) as Hfresh.
    apply add_alternative_returned in Hadd as (_ & Ha2 & _).
    apply (IH _ _ H). rewrite Ha2. apply NoDup_keys_snoc; by rewrite Ha1 in *.
Qed.

Lemma add_line_items_keep_ids_unique cart_draft_id line_items :
  forall s s' persisted,
    agent_state.add_line_items uuid4_at cart_draft_id line_items s
      = (Returned persisted, s') ->
    line_item_ids_unique s -> alternative_ids_unique s ->
    line_item_ids_unique s' /\ alternative_ids_unique s'.
Proof.
  induction line_items as [|line rest IH]; intros s s' persisted H Hl Ha.
  - by injection H as <- <-.
  - cbn [agent_state.add_line_items] in H.
    apply bind_returned in H as (id & s1 & Hid & H).
    destruct (id_or_uuid4_returns uuid4_at (agent_state.l_id line) s)
      as (s1' & Hid' & Hl1 & Ha1 & _).
    rewrite Hid' in Hid. injection Hid as <- <-. cbn zeta in H.
    apply bind_returned in H as ([] & s2 & Hadd & H).
    apply add_line_item_returned in Hadd as (Hfresh & Hl2 & Ha2 & _).
    apply bind_returned in H as ([] & s3 & Halts & H).
    pose proof (add_alternatives_keeps_ids_unique _ _ _ _ Halts) as Ha3.
    apply add_alternatives_returned in Halts as (new & Hl3 & _).
    apply bind_returned in H as (persisted' & s4 & Hrec & H).
    injection H as <- <-.
    apply (IH _ _ _ Hrec).
    + unfold line_item_ids_unique in *. rewrite Hl3, Hl2.
      apply NoDup_keys_snoc; [by rewrite Hl1|exact Hfresh].
    + apply Ha3. unfold alternative_ids_unique in *. by rewrite Ha2, Ha1.
Qed.

(** What the replacement does to the two tables, with nothing assumed of
    the store. *)
Lemma _replace_cart_line_items_tables cart_draft_id line_items s s' persisted :
  agent_state._replace_cart_line_items uuid4_at cart_draft_id line_items s
    = (Returned persisted, s') ->
  let kept := filter (fun r => li_cart_draft_id r ≠ cart_draft_id)
                     (cart_draft_line_items s) in
  let existing_ids :=
    li_id <$> filter (fun r => li_cart_draft_id r = cart_draft_id)
                     (cart_draft_line_items s) in
  exists new_alts,
    cart_draft_line_items s' = kept ++ persisted
    /\ cart_draft_alternatives s'
       = filter (fun a => alt_line_item_id a ∉ existing_ids)
                (cart_draft_alternatives s) ++ new_alts
    /\ Forall (fun a => alt_line_item_id a ∈ li_id <$> persisted) new_alts
    /\ Forall (fun r => li_id r ∉ li_id <$> kept) persisted
    /\ Forall (fun r => li_cart_draft_id r = cart_draft_id) persisted
    /\ (line_item_ids_unique s -> alternative_ids_unique s ->
        line_item_ids_unique s' /\ alternative_ids_unique s').
Proof.
  intros H kept existing_ids.
  unfold agent_state._replace_cart_line_items in H.
  apply bind_returned in H as (existing_items & s0 & Hget & H).
  unfold db.get_cart_draft_line_items, gets in Hget.
  injection Hget as <- <-. fold existing_ids in H.
  apply bind_returned in H as ([] & s1 & Hdel & H).
  assert (Hs1 : cart_draft_line_items s1 = cart_draft_line_items s
                /\ cart_draft_alternatives s1
                   = filter (fun a => alt_line_item_id a ∉ existing_ids)
                            (cart_draft_alternatives s)).
  { destruct existing_ids as [|i ids] eqn:Hids.
    - injection Hdel as <-. split; [done|].
      symmetry. apply filter_all, Forall_forall. intros a _. apply not_elem_of_nil.
    - unfold db.delete_alternatives_in, modify in Hdel. injection Hdel as <-.
      split; done. }
  clear Hdel. destruct Hs1 as (Hl1 & Ha1).
  apply bind_returned in H as ([] & s2 & Hdel & H).
  unfold db.delete_cart_draft_line_items, modify in Hdel. injection Hdel as <-.
  pose proof (add_line_items_keep_ids_unique _ _ _ _ _ H) as Hkeys.
  apply add_line_items_returned in H
    as (new_alts & Hl & Ha & _ & Href & Hfr & Hall).
  cbn in Hl, Ha, Hfr. rewrite Hl1 in Hl, Hfr.
  rewrite Ha1 in Ha. fold kept in Hl, Hfr.
  exists new_alts. split_and!; try done.
  - eapply Forall2_right; [exact Hall|]. by intros ? ? ((_ & ? & _) & _).
  - intros Hul Hua. apply Hkeys.
    + unfold line_item_ids_unique. cbn. rewrite Hl1.
      by apply NoDup_keys_filter.
    + unfold alternative_ids_unique. cbn. rewrite Ha1.
      by apply NoDup_keys_filter.
Qed.

(** X8. GET after POST: whatever [upsert_cart_draft] returned, creating or
    updating, [get_cart_draft] under the id the call settled on returns that
    same body, parent and children, from the store the call left. *)
Theorem get_cart_draft_after_upsert payload s resp s' :
  agent_state.upsert_cart_draft uuid4_at payload s = (Returned resp, s') ->
  agent_state.get_cart_draft
    (resolved_id uuid4_at (agent_state.c_id (agent_state.u_cart payload)) s) s'
  = (Returned resp, s').
Proof.
  intros H.
  apply upsert_cart_draft_returned in H
    as (s1 & s2 & persisted & _ & _ & Hc2 & _ & Hrep & Hread).
  pose proof (_replace_cart_line_items_preserves uuid4_at
                (resolved_id uuid4_at
                   (agent_state.c_id (agent_state.u_cart payload)) s)
                (agent_state.u_line_items payload) s2) as Hkeep.
  rewrite Hrep in Hkeep.
  destruct Hkeep as (_ & _ & Hc & _). cbn in Hc.
  unfold agent_state.get_cart_draft, bind at 1, db.get_cart_draft, gets.
  rewrite Hc, Hc2, lookup_insert_eq.
  rewrite (bind_step _ _ _ _ _ Hread). by destruct resp.
Qed.


End CartDraftsMore.

Section CartDraftsFrame.

Variable uuid4_at : nat -> string.

Lemma filter_filter_other (cart_id other : string) (l : list CartDraftLineItem) :
  other <> cart_id ->
  filter (fun r => li_cart_draft_id r = other)
         (filter (fun r => li_cart_draft_id r ≠ cart_id) l)
  = filter (fun r => li_cart_draft_id r = other) l.
Proof.
  intros Hne. rewrite list_filter_filter. apply list_filter_iff.
  intros r. split; [by intros [? _]|]. intros Hr. split; congruence.
Qed.

(** X10. An upsert of one draft leaves every other draft alone: when the
    line-item ids are unique in the store, GET of any other draft answers
    after the call what it answered before, parent, line items and
    alternatives. *)
Theorem upsert_cart_draft_leaves_other_drafts payload s resp s' other :
  agent_state.upsert_cart_draft uuid4_at payload s = (Returned resp, s') ->
  line_item_ids_unique s ->
  other <> resolved_id uuid4_at
             (agent_state.c_id (agent_state.u_cart payload)) s ->
  cart_drafts s' !! other = cart_drafts s !! other
  /\ fst (db.get_cart_draft_line_items other s')
     = fst (db.get_cart_draft_line_items other s)
  /\ fst (agent_state.read_line_items other s')
     = fst (agent_state.read_line_items other s)
  /\ fst (agent_state.get_cart_draft other s')
     = fst (agent_state.get_cart_draft other s).
Proof.
  intros H Hunique Hother.
  set (cart_id := resolved_id uuid4_at
                    (agent_state.c_id (agent_state.u_cart payload)) s) in *.
  apply upsert_cart_draft_returned in H
    as (s1 & s2 & persisted & Hl2 & Ha2 & Hc2 & Hc1 & Hrep & _).
  fold cart_id in Hc2, Hrep.
  pose proof (_replace_cart_line_items_preserves uuid4_at cart_id
                (agent_state.u_line_items payload) s2) as Hkeep.
  rewrite Hrep in Hkeep.
  destruct Hkeep as (_ & _ & Hc & _). cbn in Hc.
  apply _replace_cart_line_items_tables in Hrep
    as (new_alts & Hl & Ha & Href & Hfr & Hcart & _).
  rewrite Hl2 in Hl, Ha, Hfr. rewrite Ha2 in Ha.
  assert (Hparent : cart_drafts s' !! other = cart_drafts s !! other).
  { rewrite Hc, Hc2, Hc1. by rewrite lookup_insert_ne. }
  assert (Hlines : filter (fun r => li_cart_draft_id r = other)
                          (cart_draft_line_items s')
                   = filter (fun r => li_cart_draft_id r = other)
                            (cart_draft_line_items s)).
  { rewrite Hl, filter_app, filter_filter_other by done.
    rewrite (filter_none _ persisted), app_nil_r; [done|].
    eapply Forall_impl; [exact Hcart|]. intros r -> Heq. by apply Hother. }
  assert (Hread : agent_state.read_line_items other s'
                  = (Returned
                       ((fun line =>
                           (line,
                            filter (fun a => alt_line_item_id a = li_id line)
                                   (cart_draft_alternatives s)))
                          <$> filter (fun r => li_cart_draft_id r = other)
                                     (cart_draft_line_items s)), s')).
  { rewrite !read_line_items_returns.
    rewrite Hlines. f_equal. f_equal.
    apply list_fmap_ext. intros i line Hline. f_equal.
    apply list_elem_of_lookup_2, list_elem_of_filter in Hline as [Hcart' Hin].
    assert (Hkept : line ∈ filter (fun r => li_cart_draft_id r ≠ cart_id)
                               (cart_draft_line_items s)).
    { apply list_elem_of_filter. split; [congruence|done]. }
    rewrite Ha, filter_app, (filter_none _ new_alts), app_nil_r.
    - rewrite list_filter_filter. apply list_filter_iff.
      intros a. split; [by intros [? _]|]. intros Heq. split; [done|].
      intros (r & Hr & Hrin)%list_elem_of_fmap_1.
      apply list_elem_of_filter in Hrin as [Hrcart Hrin].
      assert (r = line); [|congruence].
      eapply (NoDup_keys_inj li_id); [exact Hunique|done|done|congruence].
    - apply Forall_forall. intros a Hain Heq.
      rewrite Forall_forall in Href. specialize (Href a Hain).
      apply list_elem_of_fmap_1 in Href as (r & Hr & Hrin).
      rewrite Forall_forall in Hfr. apply (Hfr r Hrin).
      rewrite <- Hr, Heq. by apply list_elem_of_fmap_2. }
  split; [done|]. split.
  { unfold db.get_cart_draft_line_items, gets. cbn. by rewrite Hlines. }
  split.
  { rewrite Hread. rewrite read_line_items_returns. reflexivity. }
  unfold agent_state.get_cart_draft, bind at 1 3, db.get_cart_draft, gets.
  rewrite Hparent. destruct (cart_drafts s !! other) as [draft|]; [|done].
  rewrite (bind_step _ _ _ _ _ Hread).
  rewrite (bind_step _ _ _ _ _ (read_line_items_returns _ _)).
  reflexivity.
Qed.

(** X11. The upsert keeps the primary keys: if no two line items and no
    two alternatives share an id before the call, none do in the store a
    returning call leaves. *)
Theorem upsert_cart_draft_keeps_ids_unique payload s resp s' :
  agent_state.upsert_cart_draft uuid4_at payload s = (Returned resp, s') ->
  line_item_ids_unique s ->
  alternative_ids_unique s ->
  line_item_ids_unique s' /\ alternative_ids_unique s'.
Proof.
  intros H Hl Ha.
  apply upsert_cart_draft_returned in H
    as (s1 & s2 & persisted & Hl2 & Ha2 & _ & _ & Hrep & _).
  apply _replace_cart_line_items_tables in Hrep
    as (new_alts & _ & _ & _ & _ & _ & Hkeys).
  apply Hkeys.
  - unfold line_item_ids_unique in *. by rewrite Hl2.
  - unfold alternative_ids_unique in *. by rewrite Ha2.
Qed.

End CartDraftsFrame.

Section CartDraftsFresh.

Variable uuid4_at : nat -> string.

Lemma uuid4_fresh_tables s s' :
  uuid4_fresh uuid4_at s ->
  (uuid_drawn s <= uuid_drawn s')%nat ->
  (forall id, id ∈ li_id <$> cart_draft_line_items s' ->
              id ∈ li_id <$> cart_draft_line_items s) ->
  (forall id, id ∈ alt_id <$> cart_draft_alternatives s' ->
              id ∈ alt_id <$> cart_draft_alternatives s) ->
  uuid4_fresh uuid4_at s'.
Proof.
  intros (Hinj & Hl & Ha) Hle Hsubl Hsuba. split; [done|]. split.
  - intros k Hk Hin. apply (Hl k); [lia|auto].
  - intros k Hk Hin. apply (Ha k); [lia|auto].
Qed.

Lemma keys_filter_subset {A} (key : A -> string) (P : A -> Prop)
    `{!forall x, Decision (P x)} (l : list A) id :
  id ∈ key <$> filter P l -> id ∈ key <$> l.
Proof.
  intros (x & -> & [_ Hin]%list_elem_of_filter)%list_elem_of_fmap_1.
  by apply list_elem_of_fmap_2.
Qed.

Lemma id_or_uuid4_fresh supplied s :
  uuid4_fresh uuid4_at s ->
  exists s1,
    agent_state.id_or_uuid4 uuid4_at supplied s
      = (Returned (resolved_id uuid4_at supplied s), s1)
    /\ uuid4_fresh uuid4_at s1
    /\ cart_draft_line_items s1 = cart_draft_line_items s
    /\ cart_draft_alternatives s1 = cart_draft_alternatives s.
Proof.
  intros Hfresh.
  unfold agent_state.id_or_uuid4, resolved_id.
  destruct (agent_state.truthy supplied).
  - exists s. done.
  - eexists. split; [reflexivity|]. split; [|done].
    eapply uuid4_fresh_tables; [exact Hfresh|cbn; lia|done|done].
Qed.

Lemma add_alternatives_fresh_returns line_id alternatives :
  forall s,
    uuid4_fresh uuid4_at s ->
    Forall (fun alt => agent_state.truthy (agent_state.a_id alt) = None)
           alternatives ->
    Forall (fun alt => in_int64 (agent_state.a_rank alt)) alternatives ->
    exists s',
      agent_state.add_alternatives uuid4_at line_id alternatives s
        = (Returned tt, s')
      /\ uuid4_fresh uuid4_at s'.
Proof.
  induction alternatives as [|alt rest IH]; intros s Hfresh Hnone Hfit.
  - exists s. done.
  - apply Forall_cons in Hnone as [Hid Hrest].
    apply Forall_cons in Hfit as [Hrank Hfit].
    cbn [agent_state.add_alternatives].
    unfold agent_state.id_or_uuid4. rewrite Hid.
    unfold bind at 1, agent_state.uuid4.
    unfold bind at 1, db.add_alternative.
    destruct Hfresh as (Hinj & Hl & Ha).
    rewrite (bool_decide_eq_true_2 (in_int64 _)) by done.
    rewrite bool_decide_eq_false_2 by (cbn; apply Ha; lia).
    apply IH; [|done|done].
    split; [done|]. cbn. split.
    + intros k Hk. apply Hl. lia.
    + intros k Hk. rewrite fmap_app, elem_of_app. intros [Hin|Hin].
      * by apply (Ha k); [lia|].
      * cbn in Hin. apply list_elem_of_singleton, Hinj in Hin. lia.
Qed.

Lemma add_line_items_fresh_return cart_draft_id line_items :
  forall s,
    uuid4_fresh uuid4_at s ->
    ids_left_to_server line_items ->
    Forall line_integers_bind line_items ->
    exists persisted s',
      agent_state.add_line_items uuid4_at cart_draft_id line_items s
        = (Returned persisted, s')
      /\ uuid4_fresh uuid4_at s'.
Proof.
  induction line_items as [|line rest IH]; intros s Hfresh Hnone Hfit.
  - exists [], s. done.
  - apply Forall_cons in Hnone as [[Hid Halts] Hrest].
    apply Forall_cons in Hfit as [[Hcents Hranks] Hfit].
    cbn [agent_state.add_line_items].
    unfold agent_state.id_or_uuid4 at 1. rewrite Hid.
    unfold bind at 1, agent_state.uuid4. cbn zeta.
    unfold bind at 1, db.add_line_item.
    pose proof Hfresh as (Hinj & Hl & Ha).
    rewrite (bool_decide_eq_true_2 (binds _)) by done.
    rewrite bool_decide_eq_false_2 by (cbn; apply Hl; lia).
    match goal with
    | |- exists _ _, bind _ _ ?s1 = _ /\ _ =>
        assert (Hfresh1 : uuid4_fresh uuid4_at s1)
    end.
    { split; [done|]. cbn. split.
      - intros k Hk. rewrite fmap_app, elem_of_app. intros [Hin|Hin].
        + by apply (Hl k); [lia|].
        + cbn in Hin. apply list_elem_of_singleton, Hinj in Hin. lia.
      - intros k Hk. apply Ha. lia. }
    destruct (add_alternatives_fresh_returns
                (uuid4_at (uuid_drawn s)) _ _ Hfresh1 Halts Hranks)
      as (s2 & Halts_eq & Hfresh2).
    rewrite (bind_step _ _ _ _ _ Halts_eq).
    destruct (IH s2 Hfresh2 Hrest Hfit) as (persisted & s3 & Hrec & Hfresh3).
    rewrite (bind_step _ _ _ _ _ Hrec).
    eexists _, _. split; [reflexivity|done].
Qed.

(** X12. Leaving the ids to the server cannot fail: when no supplied line
    and no supplied alternative carries an id, every integer of the payload
    fits 64 bits, and the generator never repeats itself nor yields an id a
    child row already holds, POST [/cart-drafts] returns, with one line
    item in the response for each supplied one. *)
Theorem upsert_cart_draft_with_generated_ids_returns payload s :
  uuid4_fresh uuid4_at s ->
  ids_left_to_server (agent_state.u_line_items payload) ->
  integers_bind payload ->
  exists resp s',
    agent_state.upsert_cart_draft uuid4_at payload s = (Returned resp, s')
    /\ length (agent_state.lineItems resp)
       = length (agent_state.u_line_items payload)
    /\ uuid4_fresh uuid4_at s'.
Proof.
  intros Hfresh Hnone [Hservings Hfit].
  assert (Hret : exists resp s',
            agent_state.upsert_cart_draft uuid4_at payload s = (Returned resp, s')
            /\ uuid4_fresh uuid4_at s').
  { unfold agent_state.upsert_cart_draft. cbn zeta.
    destruct (id_or_uuid4_fresh
                (agent_state.c_id (agent_state.u_cart payload)) s Hfresh)
      as (s1 & Hid & Hfresh1 & _).
    rewrite (bind_step _ _ _ _ _ Hid).
    set (cart_id := resolved_id uuid4_at _ s).
    unfold bind at 1 2, db.get_cart_draft, agent_state._now_iso, gets.
    assert (Hreplace : forall row,
              exists persisted s3,
                agent_state._replace_cart_line_items uuid4_at cart_id
                  (agent_state.u_line_items payload)
                  (set_cart_drafts <[cart_id := row]> s1)
                = (Returned persisted, s3)
                /\ uuid4_fresh uuid4_at s3).
    { intros row. unfold agent_state._replace_cart_line_items.
      unfold bind at 1, db.get_cart_draft_line_items, gets.
      match goal with
      | |- exists _ _, bind ?c _ ?s2 = _ /\ _ =>
          assert (Hdel : exists s2',
                    c s2 = (Returned tt, s2')
                    /\ uuid4_fresh uuid4_at s2')
      end.
      { destruct (li_id <$> _) as [|i ids].
        - eexists. split; [reflexivity|].
          eapply uuid4_fresh_tables; [exact Hfresh1|done|done|done].
        - eexists. split; [reflexivity|].
          eapply uuid4_fresh_tables; [exact Hfresh1|done|done|].
          cbn. intros id. apply keys_filter_subset. }
      destruct Hdel as (s2' & Hdel & Hfresh2).
      rewrite (bind_step _ _ _ _ _ Hdel).
      unfold bind at 1, db.delete_cart_draft_line_items, modify.
      apply add_line_items_fresh_return; [|done|done].
      eapply uuid4_fresh_tables; [exact Hfresh2|done| |done].
      cbn. intros id. apply keys_filter_subset. }
    destruct (cart_drafts s1 !! cart_id) as [existing|] eqn:Hstored.
    - match goal with
      | |- context [db.save_cart_draft cart_id ?row] =>
          destruct (Hreplace row) as (persisted & s3 & Hrep & Hfresh3);
          pose proof (save_cart_draft_patch cart_id row existing
                        (agent_state.c_servings (agent_state.u_cart payload))
                        s1 Hstored eq_refl Hservings) as Hsave
      end.
      unfold bind at 1. unfold bind at 1. rewrite Hsave.
      rewrite (bind_step _ _ _ _ _ Hrep). unfold ret at 1.
      rewrite (bind_step _ _ _ _ _ (read_line_items_returns _ _)).
      eexists _, _. split; [reflexivity|done].
    - match goal with
      | |- context [db.save_cart_draft cart_id ?row] =>
          destruct (Hreplace row) as (persisted & s3 & Hrep & Hfresh3);
          pose proof (save_cart_draft_binds cart_id row s1 Hservings)
            as Hsave
      end.
      unfold bind at 1. unfold bind at 1. rewrite Hsave.
      rewrite (bind_step _ _ _ _ _ Hrep). unfold ret at 1.
      rewrite (bind_step _ _ _ _ _ (read_line_items_returns _ _)).
      eexists _, _. split; [reflexivity|done]. }
  destruct Hret as (resp & s' & Heq & Hfresh').
  exists resp, s'. split; [exact Heq|]. split; [|done].
  apply upsert_cart_draft_returned in Heq
    as (s1 & s2 & persisted & Hl2 & Ha2 & _ & _ & Hrep & Hread).
  pose proof Hrep as Htab.
  apply _replace_cart_line_items_tables in Htab
    as (new_alts & Hl & _ & _ & _ & Hcart & _).
  unfold agent_state._replace_cart_line_items in Hrep.
  apply bind_returned in Hrep as (? & ? & _ & Hrep).
  apply bind_returned in Hrep as (? & ? & _ & Hrep).
  apply bind_returned in Hrep as (? & ? & _ & Hrep).
  apply add_line_items_returned in Hrep as (new' & _ & _ & _ & _ & _ & Hall).
  rewrite read_line_items_returns in Hread. injection Hread as Hitems.
  rewrite <- Hitems, length_fmap, Hl, filter_app, (filter_all _ persisted) by done.
  rewrite (filter_none _ (filter _ _)), app_nil_l.
  - symmetry. by eapply Forall2_length.
  - apply Forall_forall. by intros r [? _]%list_elem_of_filter.
Qed.

End CartDraftsFresh.

(** ** Units of work over the other stores *)

Section WorkFacts.

Context {S A B : Type}.

Lemma work_bind_done (c : Work S A) (k : A -> Work S B) b x b' :
  work_bind c k b = (Done x, b') <->
  exists a b1, c b = (Done a, b1) /\ k a b1 = (Done x, b').
Proof.
  unfold work_bind. destruct (c b) as [[a|e] b1]; split.
  - intros H. by exists a, b1.
  - intros (a' & b1' & [= <- <-] & H). done.
  - intros [=].
  - intros (a' & b1' & [=] & _).
Qed.

Lemma work_bind_step (c : Work S A) (k : A -> Work S B) b a b1 :
  c b = (Done a, b1) -> work_bind c k b = k a b1.
Proof. unfold work_bind. by intros ->. Qed.

Lemma work_bind_failed (c : Work S A) (k : A -> Work S B) b e b1 :
  c b = (Failed e, b1) -> work_bind c k b = (Failed e, b1).
Proof. unfold work_bind. by intros ->. Qed.

End WorkFacts.

(** ** Checkout sessions and orders *)

(** X13. What [save_checkout] and [save_order] store is what
    [get_checkout_session] and [get_order] return, whether the id was new or
    taken; a later save under the same id replaces the earlier one; every
    other document, and the other table, stay as they were. *)
Theorem documents_save_then_get (d : Documents) id status status' obj obj' :
  db_documents.get_checkout_session id
    (db_documents.save_checkout id status obj d) = Some obj
  /\ db_documents.get_order id (db_documents.save_order id obj d) = Some obj
  /\ db_documents.save_checkout id status' obj'
       (db_documents.save_checkout id status obj d)
     = db_documents.save_checkout id status' obj' d
  /\ db_documents.save_order id obj' (db_documents.save_order id obj d)
     = db_documents.save_order id obj' d
  /\ (forall other, other <> id ->
        db_documents.get_checkout_session other
          (db_documents.save_checkout id status obj d)
        = db_documents.get_checkout_session other d
        /\ db_documents.get_order other (db_documents.save_order id obj d)
           = db_documents.get_order other d)
  /\ orders (db_documents.save_checkout id status obj d) = orders d
  /\ checkouts (db_documents.save_order id obj d) = checkouts d.
Proof.
  assert (Hc : forall st o, checkouts (db_documents.save_checkout id st o d)
                = <[id := {| cs_status := Some st; cs_data := Some o |}]>
                    (checkouts d)).
  { intros st o. unfold db_documents.save_checkout.
    by destruct (checkouts d !! id). }
  assert (Ho : forall o, orders (db_documents.save_order id o d)
                = <[id := Some o]> (orders d)).
  { intros o. unfold db_documents.save_order. by destruct (orders d !! id). }
  split_and!.
  - unfold db_documents.get_checkout_session.
    by rewrite Hc, lookup_insert_eq.
  - unfold db_documents.get_order. by rewrite Ho, lookup_insert_eq.
  - unfold db_documents.save_checkout at 1. rewrite Hc, lookup_insert_eq.
    cbn. rewrite insert_insert_eq.
    unfold db_documents.save_checkout.
    by destruct (checkouts d !! id).
  - unfold db_documents.save_order at 1. rewrite Ho, lookup_insert_eq.
    cbn. rewrite insert_insert_eq.
    unfold db_documents.save_order.
    by destruct (orders d !! id).
  - intros other Hne. split.
    + unfold db_documents.get_checkout_session.
      by rewrite Hc, lookup_insert_ne.
    + unfold db_documents.get_order. by rewrite Ho, lookup_insert_ne.
  - unfold db_documents.save_checkout. by destruct (checkouts d !! id).
  - unfold db_documents.save_order. by destruct (orders d !! id).
Qed.

(** ** The catalog and its route *)

Section CatalogFacts.

(** X14. The schema is probed at most once per process: whatever the first
    call answered is what every later call answers, for whatever catalog it
    is asked about, and a process that has an answer never probes. *)
Theorem inventory_column_answer_is_cached (c c' : Catalog) cached :
  let first := db_catalog._products_have_inventory_column c cached in
  db_catalog._products_have_inventory_column c' (snd first)
    = (fst first, snd first)
  /\ snd first = Some (fst first)
  /\ (cached = None -> fst first = has_inventory_quantity_column c)
  /\ (forall answer, cached = Some answer -> fst first = answer).
Proof.
  destruct cached as [answer|]; cbn; split_and!; try done.
  - by intros ? [= ->].
Qed.

(** The item the route builds for a row when it reports the inventory, and
    when it does not. *)
Lemma items_of_returns (c : Catalog) (flag : bool) cached rows :
  (flag = true -> has_inventory_quantity_column c = true) ->
  cached = Some flag ->
  (forall id row, (id, row) ∈ rows -> products c !! id = Some row) ->
  products_route.items_of c flag rows cached
  = (Done
       ((fun entry =>
           {| products_route.item_id := fst entry;
              products_route.item_title := pr_title (snd entry);
              products_route.item_price := pr_price (snd entry);
              products_route.item_image_url := pr_image_url (snd entry);
              products_route.item_inventory_quantity :=
                if flag then Some (pr_inventory_quantity (snd entry))
                else None |}) <$> rows),
     cached).
Proof.
  intros Hcol -> Hrows.
  induction rows as [|[id row] rest IH]; [done|].
  cbn [products_route.items_of fmap list_fmap].
  assert (IH' := IH (fun i r Hin => Hrows i r (list_elem_of_further _ _ _ Hin))).
  clear IH.
  destruct flag.
  - unfold work_bind at 1. unfold work_bind at 1.
    unfold db_catalog.get_product_inventory_quantity. cbn.
    rewrite (Hcol eq_refl).
    rewrite (Hrows id row) by left. cbn.
    unfold work_bind at 1. cbn in IH'. rewrite IH'. reflexivity.
  - unfold work_bind at 1. cbn.
    unfold work_bind at 1. cbn in IH'. rewrite IH'. reflexivity.
Qed.

(** X15. [GET /products] from a process whose cached answer, if it has
    one, is right about the catalog: it returns one item per product, each
    with the row's title, price and image url; the [inventory_quantity] key
    is there exactly when the catalog has the column, and then carries the
    row's quantity. *)
Theorem list_products_reports_catalog (c : Catalog) cached :
  cached = None \/ cached = Some (has_inventory_quantity_column c) ->
  products_route.list_products c cached
  = (Done
       ((fun entry =>
           {| products_route.item_id := fst entry;
              products_route.item_title := pr_title (snd entry);
              products_route.item_price := pr_price (snd entry);
              products_route.item_image_url := pr_image_url (snd entry);
              products_route.item_inventory_quantity :=
                if has_inventory_quantity_column c
                then Some (pr_inventory_quantity (snd entry))
                else None |}) <$> map_to_list (products c)),
     Some (has_inventory_quantity_column c)).
Proof.
  intros Hcached.
  unfold products_route.list_products, db_catalog.list_products. cbn zeta.
  unfold work_bind, db_catalog.products_have_inventory_column.
  assert (Hprobe : db_catalog._products_have_inventory_column c cached
                   = (has_inventory_quantity_column c,
                      Some (has_inventory_quantity_column c)))
    by (by destruct Hcached as [-> | ->]).
  rewrite Hprobe.
  apply items_of_returns; [done|done|].
  intros id row Hin. by apply elem_of_map_to_list.
Qed.

(** X16. A stale answer shows in the route.  A process that cached "no
    column" keeps leaving [inventory_quantity] out of every item after the
    catalog has gained the column; a process that cached "column" fails
    with the store's error on the first product once the column is gone. *)
Theorem list_products_with_stale_answer (c : Catalog) :
  (has_inventory_quantity_column c = true ->
   exists items,
     products_route.list_products c (Some false) = (Done items, Some false)
     /\ length items = size (products c)
     /\ Forall (fun item => products_route.item_inventory_quantity item = None)
               items)
  /\ (has_inventory_quantity_column c = false ->
      products c <> ∅ ->
      products_route.list_products c (Some true)
      = (Failed (OperationalError "no such column: products.inventory_quantity"),
         Some true)).
Proof.
  split.
  - intros _. eexists. split.
    + unfold products_route.list_products, db_catalog.list_products. cbn zeta.
      unfold work_bind at 1. cbn.
      apply (items_of_returns c false); [done|done|].
      intros id row Hin. by apply elem_of_map_to_list.
    + split; [by rewrite length_fmap, length_map_to_list|].
      apply Forall_fmap, Forall_forall. by intros entry _.
  - intros Hcol Hne.
    unfold products_route.list_products, db_catalog.list_products. cbn zeta.
    unfold work_bind at 1. cbn.
    destruct (map_to_list (products c)) as [|[id row] rest] eqn:Hrows.
    { by apply map_to_list_empty_iff in Hrows. }
    cbn [products_route.items_of].
    unfold work_bind at 1. unfold work_bind at 1.
    unfold db_catalog.get_product_inventory_quantity. cbn.
    by rewrite Hcol.
Qed.

End CatalogFacts.

(** ** The catalog import *)

Section ImportFacts.

(** A run of INSERTs that goes through has added exactly its rows. *)
Lemma executemany_done rows :
  forall table table',
    import_grocery.executemany rows table = Done table' ->
    map_to_list table' ≡ₚ rows ++ map_to_list table.
Proof.
  induction rows as [|[id row] rest IH]; intros table table' H.
  - by injection H as <-.
  - cbn in H. destruct (table !! id) eqn:Hfree; [done|].
    rewrite (IH _ _ H), map_to_list_insert by done.
    cbn. symmetry. apply Permutation_middle.
Qed.

(** X17. Import, then serve: whatever the catalog held, [main] goes
    through, and a server process started afterwards lists exactly the
    grocery items, each once, with its title, its price, the picsum url
    built from its id, and its inventory under the [inventory_quantity]
    key. *)
Theorem import_then_list_products (c : Catalog) :
  exists c' items,
    import_grocery.main c = (Done tt, c')
    /\ products_route.list_products c' None = (Done items, Some true)
    /\ items ≡ₚ
       (fun g =>
          {| products_route.item_id := import_grocery.g_id g;
             products_route.item_title := Some (import_grocery.g_title g);
             products_route.item_price := Some (import_grocery.g_price g);
             products_route.item_image_url :=
               Some (import_grocery.image_url (import_grocery.g_id g));
             products_route.item_inventory_quantity :=
               Some (Some (import_grocery.g_inventory g)) |})
         <$> import_grocery.GROCERY_ITEMS
    /\ length items = 43%nat.
Proof.
  unfold import_grocery.main. cbn [products].
  destruct (import_grocery.executemany
              (import_grocery.rows_of import_grocery.GROCERY_ITEMS) ∅)
    as [table|e] eqn:Hrun; [|vm_compute in Hrun; discriminate].
  apply executemany_done in Hrun.
  rewrite map_to_list_empty, app_nil_r in Hrun.
  eexists _, _. split; [reflexivity|].
  split.
  { unfold products_route.list_products, db_catalog.list_products. cbn zeta.
    unfold work_bind at 1. cbn.
    apply (items_of_returns _ true); [done|done|].
    intros id row Hin. by apply elem_of_map_to_list. }
  cbn [products].
  split.
  - rewrite Hrun. unfold import_grocery.rows_of.
    rewrite <- list_fmap_compose. reflexivity.
  - rewrite length_fmap, Hrun. unfold import_grocery.rows_of.
    by rewrite length_fmap.
Qed.

End ImportFacts.

(** ** The step log *)

Section StepLog.

Variable uuid4_at : nat -> string.



End StepLog.

(** ** Customers and their addresses *)

Section AddressBookFacts.

Variable uuid4_at : nat -> string.

Abbreviation save_customer_address :=
  (db_customers.save_customer_address uuid4_at).

Lemma insert_addresses_done pending :
  forall table table',
    db_customers.insert_addresses pending table = Done table' ->
    table' = table ++ pending.
Proof.
  induction pending as [|row rest IH]; intros table table' H; cbn in H.
  - injection H as <-. by rewrite app_nil_r.
  - case_bool_decide; [done|]. apply IH in H. by rewrite H, <- app_assoc.
Qed.

Lemma autoflush_done b b' :
  db_customers.autoflush b = (Done tt, b') ->
  customers b' = customers b
  /\ customer_addresses b' = customer_addresses b ++ new_addresses b
  /\ new_addresses b' = []
  /\ ab_uuid_drawn b' = ab_uuid_drawn b.
Proof.
  unfold db_customers.autoflush.
  destruct (db_customers.insert_addresses _ _) as [table|e] eqn:Hins; [|done].
  intros [= <-]. apply insert_addresses_done in Hins. by subst.
Qed.

Lemma autoflush_settled b :
  settled b -> db_customers.autoflush b = (Done tt, b).
Proof.
  unfold settled, db_customers.autoflush. destruct b as [cs adds new n]; cbn.
  by intros ->.
Qed.

Lemma scalar_one_or_none_done {A} (rows : list A) (b b' : AddressBook) o :
  scalar_one_or_none rows b = (Done o, b') ->
  b' = b /\ ((rows = [] /\ o = None) \/ exists row, rows = [row] /\ o = Some row).
Proof.
  unfold scalar_one_or_none. destruct rows as [|x [|y rest]]; intros [= <- <-].
  - split; [done|]. by left.
  - split; [done|]. right. by exists x.
Qed.

Lemma scalar_one_or_none_member {A} (rows : list A) (b b' : AddressBook) o x :
  scalar_one_or_none rows b = (Done o, b') ->
  x ∈ rows -> b' = b /\ rows = [x] /\ o = Some x.
Proof.
  intros H Hx. apply scalar_one_or_none_done in H as [-> [[-> _]|(y & -> & ->)]].
  - by apply elem_of_nil in Hx.
  - apply list_elem_of_singleton in Hx as ->. done.
Qed.

Lemma select_customers_done email b rows b' :
  db_customers.select_customers email b = (Done rows, b') ->
  db_customers.autoflush b = (Done tt, b')
  /\ rows = filter (fun c => cu_email c = Some email) (customers b').
Proof.
  unfold db_customers.select_customers.
  intros ([] & b1 & Hflush & [= <- <-])%work_bind_done. done.
Qed.

Lemma select_same_address_done customer_id address b rows b' :
  db_customers.select_same_address customer_id address b = (Done rows, b') ->
  db_customers.autoflush b = (Done tt, b')
  /\ rows = filter (db_customers.same_address customer_id address)
                   (customer_addresses b').
Proof.
  unfold db_customers.select_same_address.
  intros ([] & b1 & Hflush & [= <- <-])%work_bind_done. done.
Qed.

(** What a returning call leaves behind: a customer with the email, and,
    stored or waiting for the flush, an address of that customer with the
    given content whose id is the one returned. *)
Lemma save_customer_address_done email address b id b1 :
  save_customer_address email address b = (Done id, b1) ->
  exists customer row flushed,
    customer ∈ customers b1
    /\ cu_email customer = Some email
    /\ row ∈ customer_addresses b1 ++ new_addresses b1
    /\ db_customers.same_address (cu_id customer) address row
    /\ ca_id row = id
    /\ db_customers.autoflush b = (Done tt, flushed)
    /\ ((customers b1 = customers b
         /\ exists found, filter (fun c => cu_email c = Some email) (customers b)
                          = [found] /\ found = customer)
        \/ (filter (fun c => cu_email c = Some email) (customers b) = []
            /\ customers b1 = customers b ++ [customer]))
    /\ customer_addresses b1 = customer_addresses b ++ new_addresses b
    /\ ((new_addresses b1 = []
         /\ filter (db_customers.same_address (cu_id customer) address)
                   (customer_addresses b1) = [row])
        \/ (new_addresses b1 = [row]
            /\ filter (db_customers.same_address (cu_id customer) address)
                      (customer_addresses b1) = [])).
Proof.
  unfold db_customers.save_customer_address.
  intros (found & b2o & Hget & H)%work_bind_done.
  unfold db_customers.get_customer in Hget.
  apply work_bind_done in Hget as (rows & b2 & Hsel & Hscalar).
  apply select_customers_done in Hsel as [Hflush ->].
  apply scalar_one_or_none_done in Hscalar as [-> Hrows].
  pose proof (autoflush_done _ _ Hflush) as (Hc2 & Ha2 & Hn2 & Hu2).
  apply work_bind_done in H as (customer & b3 & Hcust & H).
  assert (Hb3 : customer_addresses b3 = customer_addresses b2
                /\ new_addresses b3 = []
                /\ cu_email customer = Some email
                /\ customer ∈ customers b3
                /\ ((customers b3 = customers b
                     /\ exists found',
                         filter (fun c => cu_email c = Some email) (customers b)
                         = [found'] /\ found' = customer)
                    \/ (filter (fun c => cu_email c = Some email) (customers b)
                        = []
                        /\ customers b3 = customers b ++ [customer]))).
  { rewrite Hc2 in Hrows.
    destruct Hrows as [[Hnil ->]|(c & Hone & ->)].
    - apply work_bind_done in Hcust as (cid & b4 & Huuid & Hcust).
      injection Huuid as <- <-. cbn zeta in Hcust.
      apply work_bind_done in Hcust as ([] & b5 & Hadd & Hcust).
      injection Hcust as <- <-.
      unfold db_customers.add_customer_and_flush in Hadd. cbn in Hadd.
      case_bool_decide; [done|].
      apply autoflush_done in Hadd as (Hc5 & Ha5 & Hn5 & _). cbn in *.
      rewrite Hn2, app_nil_r in Ha5.
      split_and!; try done.
      + rewrite Hc5, elem_of_app. right. by left.
      + right. split; [done|]. by rewrite Hc5, Hc2.
    - injection Hcust as <- <-.
      assert (Hin : c ∈ filter (fun c => cu_email c = Some email) (customers b))
        by (rewrite Hone; left).
      apply list_elem_of_filter in Hin as [Hemail Hin].
      split_and!; try done.
      + by rewrite Hc2.
      + left. split; [done|]. by exists c. }
  destruct Hb3 as (Ha3 & Hn3 & Hemail & Hin3 & Hcases).
  apply work_bind_done in H as (rows & b4 & Hsel & H).
  apply select_same_address_done in Hsel as [Hflush3 ->].
  rewrite (autoflush_settled b3 Hn3) in Hflush3. injection Hflush3 as <-.
  apply work_bind_done in H as (existing & b5 & Hscalar & H).
  apply scalar_one_or_none_done in Hscalar as [-> Hrows2].
  destruct Hrows2 as [[Hnil ->]|(row & Hone & ->)].
  - apply work_bind_done in H as (new_id & b6 & Hid & H).
    apply work_bind_done in H as ([] & b7 & Hadd & H).
    injection H as <- <-.
    unfold db_customers.session_add in Hadd. injection Hadd as <-.
    assert (Hb6 : customers b6 = customers b3
                  /\ customer_addresses b6 = customer_addresses b3
                  /\ new_addresses b6 = []).
    { destruct (agent_state.truthy (d_id address)).
      - by injection Hid as <- <-.
      - by injection Hid as <- <-. }
    destruct Hb6 as (Hc6 & Ha6 & Hn6). cbn.
    eexists customer, _, b2. split_and!.
    + by rewrite Hc6.
    + done.
    + rewrite Hn6, elem_of_app. right. cbn. left.
    + done.
    + done.
    + done.
    + rewrite Hc6. exact Hcases.
    + by rewrite Ha6, Ha3, Ha2.
    + right. rewrite Hn6, Ha6. done.
  - injection H as <- <-.
    assert (Hin : row ∈ filter (db_customers.same_address (cu_id customer) address)
                               (customer_addresses b3))
      by (rewrite Hone; left).
    apply list_elem_of_filter in Hin as [Hsame Hin].
    exists customer, row, b2. split_and!; try done.
    + rewrite elem_of_app. by left.
    + by rewrite Ha3, Ha2.
    + left. done.
Qed.

Lemma same_address_content customer_id a a' row :
  same_content a a' ->
  db_customers.same_address customer_id a row ->
  db_customers.same_address customer_id a' row.
Proof.
  intros (H1 & H2 & H3 & H4 & H5) (? & ? & ? & ? & ? & ?).
  repeat split; congruence.
Qed.

(** X19. An address is stored once: saving the same address again for the
    same email, whatever ["id"] the second dictionary carries, returns the
    id the first call returned, and does no more than flush what the first
    call left waiting; no customer and no address is added. *)
Theorem save_customer_address_reuses_id email a a' b id1 b1 id2 b2 :
  save_customer_address email a b = (Done id1, b1) ->
  same_content a a' ->
  save_customer_address email a' b1 = (Done id2, b2) ->
  id2 = id1
  /\ customers b2 = customers b1
  /\ customer_addresses b2 = customer_addresses b1 ++ new_addresses b1
  /\ new_addresses b2 = []
  /\ ab_uuid_drawn b2 = ab_uuid_drawn b1.
Proof.
  intros Hfirst Hsame Hsecond.
  apply save_customer_address_done in Hfirst
    as (c & row & _ & Hc & Hemail & Hrow & Hmatch & Hid & _).
  unfold db_customers.save_customer_address in Hsecond.
  apply work_bind_done in Hsecond as (found & b3o & Hget & H).
  unfold db_customers.get_customer in Hget.
  apply work_bind_done in Hget as (rows & b3 & Hsel & Hscalar).
  apply select_customers_done in Hsel as [Hflush ->].
  pose proof (autoflush_done _ _ Hflush) as (Hc3 & Ha3 & Hn3 & Hu3).
  apply (scalar_one_or_none_member _ _ _ _ c) in Hscalar as (-> & _ & ->);
    [|apply list_elem_of_filter; by rewrite Hc3].
  apply work_bind_done in H as (customer & b4 & [= <- <-] & H).
  apply work_bind_done in H as (rows & b4 & Hsel & H).
  apply select_same_address_done in Hsel as [Hflush4 ->].
  rewrite (autoflush_settled b3 Hn3) in Hflush4. injection Hflush4 as <-.
  apply work_bind_done in H as (existing & b5 & Hscalar & H).
  apply (scalar_one_or_none_member _ _ _ _ row) in Hscalar as (-> & _ & ->).
  - injection H as <- <-. split_and!; done.
  - apply list_elem_of_filter. split; [by eapply same_address_content|].
    by rewrite Ha3.
Qed.

(** X20. What was saved is listed: after a returning save, the addresses
    listed for the email include one with the returned id and the content
    that was given. *)
Theorem save_then_get_customer_addresses email address b id b1 rows b2 :
  save_customer_address email address b = (Done id, b1) ->
  db_customers.get_customer_addresses email b1 = (Done rows, b2) ->
  exists row,
    row ∈ rows
    /\ ca_id row = id
    /\ ca_street_address row = d_street_address address
    /\ ca_city row = d_address_locality address
    /\ ca_state row = d_address_region address
    /\ ca_postal_code row = d_postal_code address
    /\ ca_country row = d_address_country address.
Proof.
  intros Hsave Hget.
  apply save_customer_address_done in Hsave
    as (c & row & _ & Hc & Hemail & Hrow & Hmatch & Hid & _).
  unfold db_customers.get_customer_addresses in Hget.
  apply work_bind_done in Hget as (found & b3 & Hsel & H).
  apply select_customers_done in Hsel as [Hflush ->].
  pose proof (autoflush_done _ _ Hflush) as (Hc3 & Ha3 & Hn3 & Hu3).
  apply work_bind_done in H as (customer & b4 & Hscalar & H).
  apply (scalar_one_or_none_member _ _ _ _ c) in Hscalar as (-> & _ & ->);
    [|apply list_elem_of_filter; by rewrite Hc3].
  unfold db_customers.select_addresses_of in H.
  apply work_bind_done in H as ([] & b5 & Hflush5 & [= <- <-]).
  rewrite (autoflush_settled b3 Hn3) in Hflush5. injection Hflush5 as <-.
  destruct Hmatch as (Hcid & ? & ? & ? & ? & ?).
  exists row. split_and!; try done.
  apply list_elem_of_filter. split; [done|]. by rewrite Ha3.
Qed.

End AddressBookFacts.

Section AddressBookInvariant.

Variable uuid4_at : nat -> string.

Lemma same_address_as_row cid cid' a a' row r :
  db_customers.same_address cid a row ->
  db_customers.same_address cid' a' row ->
  db_customers.same_address cid' a' r <-> db_customers.same_address cid a r.
Proof.
  intros (? & ? & ? & ? & ? & ?) (? & ? & ? & ? & ? & ?).
  split; intros (? & ? & ? & ? & ? & ?); repeat split; congruence.
Qed.

(** X21. The helper never makes its own lookups ambiguous: from a store in
    which an email names at most one customer and a customer holds an
    address at most once, a returning save followed by the flush leaves
    such a store again. *)
Theorem save_customer_address_keeps_lookups_unambiguous
    email address b id b1 b2 :
  settled b ->
  unambiguous b ->
  db_customers.save_customer_address uuid4_at email address b = (Done id, b1) ->
  db_customers.autoflush b1 = (Done tt, b2) ->
  settled b2 /\ unambiguous b2.
Proof.
  intros Hsettled [Hcust Haddr] Hsave Hflush.
  apply save_customer_address_done in Hsave
    as (c & row & _ & _ & Hemail & _ & Hmatch & _ & _ & Hcases & Ha1 & Hnew).
  apply autoflush_done in Hflush as (Hc2 & Ha2 & Hn2 & _).
  unfold settled in Hsettled. rewrite Hsettled, app_nil_r in Ha1.
  split; [exact Hn2|]. split.
  - intros email'. rewrite Hc2.
    destruct Hcases as [[-> _]|[Hnone ->]]; [apply Hcust|].
    rewrite filter_app, length_app.
    destruct (decide (cu_email c = Some email')) as [Heq|Hne].
    + assert (email' = email) as -> by congruence.
      rewrite Hnone, filter_cons_True by done. cbn. lia.
    + rewrite filter_cons_False by done. cbn.
      specialize (Hcust email'). lia.
  - intros cid' address'. rewrite Ha2.
    destruct Hnew as [[-> _]|[-> Hnone]].
    + rewrite app_nil_r, Ha1. apply Haddr.
    + rewrite filter_app, length_app, Ha1.
      destruct (decide (db_customers.same_address cid' address' row))
        as [Hsame|Hdiff].
      * rewrite filter_cons_True by done.
        rewrite (list_filter_iff _
                   (db_customers.same_address (cu_id c) address)).
        { rewrite Ha1 in Hnone. rewrite Hnone. cbn. lia. }
        intros r. by apply (same_address_as_row _ _ _ _ row).
      * rewrite filter_cons_False by done. cbn.
        specialize (Haddr cid' address'). lia.
Qed.

(** X22. Lookups by email at the edges: an email no customer has is not an
    error, it gives no customer and an empty address list and writes
    nothing; an email two customers share makes every helper raise
    [MultipleResultsFound], the save included. *)
Theorem customer_lookup_edges email address b :
  settled b ->
  (filter (fun c => cu_email c = Some email) (customers b) = [] ->
   db_customers.get_customer email b = (Done None, b)
   /\ db_customers.get_customer_addresses email b = (Done [], b))
  /\ ((2 <= length (filter (fun c => cu_email c = Some email) (customers b)))%nat ->
      db_customers.get_customer email b = (Failed MultipleResultsFound, b)
      /\ db_customers.get_customer_addresses email b
         = (Failed MultipleResultsFound, b)
      /\ db_customers.save_customer_address uuid4_at email address b
         = (Failed MultipleResultsFound, b)).
Proof.
  intros Hsettled.
  assert (Hsel : db_customers.select_customers email b
                 = (Done (filter (fun c => cu_email c = Some email)
                                 (customers b)), b)).
  { unfold db_customers.select_customers.
    by rewrite (work_bind_step _ _ _ _ _ (autoflush_settled b Hsettled)). }
  split.
  - intros Hnone.
    unfold db_customers.get_customer, db_customers.get_customer_addresses.
    rewrite !(work_bind_step _ _ _ _ _ Hsel), Hnone. done.
  - intros Htwo.
    assert (Hscalar : scalar_one_or_none
                        (filter (fun c => cu_email c = Some email) (customers b))
                        b
                      = (Failed MultipleResultsFound, b)
                        :> Try (option Customer) * AddressBook).
    { destruct (filter _ _) as [|x [|y rest]]; cbn in Htwo; [lia|lia|done]. }
    assert (Hget : db_customers.get_customer email b
                   = (Failed MultipleResultsFound, b)).
    { unfold db_customers.get_customer.
      by rewrite (work_bind_step _ _ _ _ _ Hsel). }
    split_and!.
    + exact Hget.
    + unfold db_customers.get_customer_addresses.
      rewrite (work_bind_step _ _ _ _ _ Hsel).
      by rewrite (work_bind_failed _ _ _ _ _ Hscalar).
    + unfold db_customers.save_customer_address.
      by rewrite (work_bind_failed _ _ _ _ _ Hget).
Qed.

End AddressBookInvariant.

(** ** Posting back what GET returned *)

Section CartDraftEcho.

Variable uuid4_at : nat -> string.

Lemma bind_ret_l {A B} (a : A) (k : A -> M B) s : bind (ret a) k s = k a s.
Proof. reflexivity. Qed.

Lemma line_matches_echo cart_draft_id entry row :
  line_matches uuid4_at cart_draft_id (echo_line entry) row ->
  li_id (fst entry) <> "" ->
  li_cart_draft_id (fst entry) = cart_draft_id ->
  row = fst entry.
Proof.
  unfold line_matches. cbn [echo_line agent_state.l_id
    agent_state.l_ingredient_key agent_state.l_canonical_ingredient_json
    agent_state.l_primary_sku_json agent_state.l_quantity agent_state.l_unit
    agent_state.l_confidence agent_state.l_chosen_reason
    agent_state.l_substitution_policy_json agent_state.l_line_total_cents].
  intros H Hid Hcart. rewrite (truthy_nonempty _ Hid) in H.
  destruct H as (? & ? & ? & ? & ? & ? & ? & ? & ? & ? & ?).
  destruct entry as [line alts]. destruct row, line. cbn in *. congruence.
Qed.

Lemma alt_matches_echo line_item_id alt row :
  alt_matches uuid4_at line_item_id (echo_alternative alt) row ->
  alt_id alt <> "" ->
  alt_line_item_id alt = line_item_id ->
  row = alt.
Proof.
  unfold alt_matches. cbn [echo_alternative agent_state.a_id agent_state.a_rank
    agent_state.a_sku_json agent_state.a_score_breakdown_json
    agent_state.a_reason agent_state.a_confidence].
  intros H Hid Hline. rewrite (truthy_nonempty _ Hid) in H.
  destruct H as (? & ? & ? & ? & ? & ? & ?).
  destruct row, alt. cbn in *. congruence.
Qed.

Lemma echo_alternatives_equal line_item_id alts rows :
  Forall2 (alt_matches uuid4_at line_item_id) (echo_alternative <$> alts) rows ->
  Forall (fun a => alt_id a <> "" /\ alt_line_item_id a = line_item_id) alts ->
  rows = alts.
Proof.
  rewrite Forall2_fmap_l. intros H.
  induction H as [|a row alts' rows' Hm _ IH]; intros Hall; [reflexivity|].
  apply Forall_cons in Hall as [[Hid Hline] Hall].
  f_equal; [by eapply alt_matches_echo | by apply IH].
Qed.

Lemma add_alternative_ok record s :
  in_int64 (alt_rank record) ->
  alt_id record ∉ alt_id <$> cart_draft_alternatives s ->
  db.add_alternative record s
  = (Returned tt, set_alternatives (fun t => t ++ [record]) s).
Proof.
  intros Hr H. unfold db.add_alternative.
  by rewrite (bool_decide_eq_true_2 _ Hr), (bool_decide_eq_false_2 _ H).
Qed.

Lemma add_line_item_ok record s :
  binds (li_line_total_cents record) ->
  li_id record ∉ li_id <$> cart_draft_line_items s ->
  db.add_line_item record s
  = (Returned tt, set_line_items (fun t => t ++ [record]) s).
Proof.
  intros Hr H. unfold db.add_line_item.
  by rewrite (bool_decide_eq_true_2 _ Hr), (bool_decide_eq_false_2 _ H).
Qed.

Lemma id_or_uuid4_supplied id :
  id <> "" -> agent_state.id_or_uuid4 uuid4_at (Some id) = ret id.
Proof.
  intros H. unfold agent_state.id_or_uuid4. by rewrite truthy_nonempty.
Qed.

(** Rows that are put back under their own, unused ids go in. *)
Lemma add_alternatives_echo_returns line_id rows :
  forall s,
    Forall (fun a => alt_id a <> "" /\ in_int64 (alt_rank a)) rows ->
    NoDup (alt_id <$> rows) ->
    (forall a, a ∈ rows -> alt_id a ∉ alt_id <$> cart_draft_alternatives s) ->
    exists s',
      agent_state.add_alternatives uuid4_at line_id (echo_alternative <$> rows) s
        = (Returned tt, s')
      /\ cart_draft_line_items s' = cart_draft_line_items s
      /\ alt_id <$> cart_draft_alternatives s'
         = (alt_id <$> cart_draft_alternatives s) ++ (alt_id <$> rows)
      /\ uuid_drawn s' = uuid_drawn s.
Proof.
  induction rows as [|a rest IH]; intros s Hne Hnd Hfresh.
  - exists s. rewrite app_nil_r. done.
  - apply Forall_cons in Hne as [[Hid Hrank] Hne].
    rewrite fmap_cons in Hnd. apply NoDup_cons in Hnd as [Ha Hnd].
    rewrite fmap_cons. cbn [agent_state.add_alternatives].
    cbn [echo_alternative agent_state.a_id].
    rewrite (id_or_uuid4_supplied _ Hid), bind_ret_l.
    unfold bind at 1, db.add_alternative.
    cbn [alt_rank agent_state.a_rank].
    rewrite (bool_decide_eq_true_2 _ Hrank).
    rewrite bool_decide_eq_false_2 by (cbn [alt_id]; apply Hfresh; left).
    lazymatch goal with
    | |- context [set_alternatives ?f s] =>
        destruct (IH (set_alternatives f s) Hne Hnd)
          as (s' & Heq & Hl & Hids & Hu)
    end.
    { intros a' Hin. cbn. rewrite fmap_app, elem_of_app. intros [Hold|Hnew].
      - by apply (Hfresh a'); [right|].
      - cbn in Hnew. apply list_elem_of_singleton in Hnew.
        apply Ha. rewrite <- Hnew. by apply list_elem_of_fmap_2. }
    exists s'. split; [exact Heq|]. split; [exact Hl|]. split; [|exact Hu].
    rewrite Hids. cbn. by rewrite fmap_app, <- app_assoc.
Qed.

Lemma add_line_items_echo_return cart_draft_id entries :
  forall s,
    Forall (fun e => li_id (fst e) <> ""
                     /\ binds (li_line_total_cents (fst e))
                     /\ Forall (fun a => alt_id a <> "" /\ in_int64 (alt_rank a))
                               (snd e)) entries ->
    NoDup (li_id <$> entries.*1) ->
    (forall e, e ∈ entries ->
       li_id (fst e) ∉ li_id <$> cart_draft_line_items s) ->
    NoDup (alt_id <$> mjoin entries.*2) ->
    (forall a, a ∈ mjoin entries.*2 ->
       alt_id a ∉ alt_id <$> cart_draft_alternatives s) ->
    exists persisted s',
      agent_state.add_line_items uuid4_at cart_draft_id (echo_line <$> entries) s
        = (Returned persisted, s')
      /\ uuid_drawn s' = uuid_drawn s.
Proof.
  induction entries as [|e rest IH]; intros s Hne Hndl Hfl Hnda Hfa.
  - exists [], s. done.
  - apply Forall_cons in Hne as [(Hid & Htotal & Haid) Hne].
    rewrite !fmap_cons in Hndl. apply NoDup_cons in Hndl as [Hl Hndl].
    rewrite fmap_cons in Hnda, Hfa.
    change (mjoin (snd e :: rest.*2)) with (snd e ++ mjoin rest.*2) in Hnda, Hfa.
    rewrite fmap_app in Hnda. apply NoDup_app in Hnda as (Hnd1 & Hdisj & Hnd2).
    rewrite fmap_cons. cbn [agent_state.add_line_items].
    cbn [echo_line agent_state.l_id].
    rewrite (id_or_uuid4_supplied _ Hid), bind_ret_l. cbn zeta.
    unfold bind at 1, db.add_line_item.
    cbn [li_line_total_cents agent_state.l_line_total_cents].
    rewrite (bool_decide_eq_true_2 _ Htotal).
    rewrite bool_decide_eq_false_2 by (cbn [li_id]; apply Hfl; left).
    cbn [agent_state.l_alternatives].
    lazymatch goal with
    | |- context [set_line_items ?f s] =>
        destruct (add_alternatives_echo_returns (li_id (fst e)) (snd e)
                    (set_line_items f s) Haid Hnd1)
          as (s2 & Halts & Hl2 & Ha2 & Hu2)
    end.
    { intros a Hin. cbn. apply Hfa. rewrite elem_of_app. by left. }
    rewrite (bind_step _ _ _ _ _ Halts).
    destruct (IH s2 Hne Hndl) as (persisted & s3 & Hrec & Hu3).
    + intros e' Hin. rewrite Hl2. cbn. rewrite fmap_app, elem_of_app.
      intros [Hold|Hnew].
      * by apply (Hfl e'); [right|].
      * cbn in Hnew. apply list_elem_of_singleton in Hnew.
        apply Hl. rewrite <- Hnew.
        apply list_elem_of_fmap_2. by apply list_elem_of_fmap_2.
    + exact Hnd2.
    + intros a Hin. rewrite Ha2. cbn. rewrite elem_of_app.
      intros [Hold|Hnew].
      * apply (Hfa a); [|done]. rewrite elem_of_app. by right.
      * apply (Hdisj _ Hnew). by apply list_elem_of_fmap_2.
    + rewrite (bind_step _ _ _ _ _ Hrec).
      eexists _, _. split; [reflexivity|]. by rewrite Hu3, Hu2.
Qed.

Lemma filters_by_line_NoDup (alts : list CartDraftAlternative)
    (lines : list CartDraftLineItem) :
  NoDup (alt_id <$> alts) ->
  NoDup (li_id <$> lines) ->
  NoDup (alt_id <$>
           mjoin ((fun line =>
                     filter (fun a => alt_line_item_id a = li_id line) alts)
                    <$> lines)).
Proof.
  intros Halts. induction lines as [|line rest IH]; [constructor|].
  rewrite !fmap_cons. intros [Hline Hrest]%NoDup_cons.
  change (mjoin (?l :: ?ls)) with (l ++ mjoin ls).
  rewrite fmap_app. apply NoDup_app. split; [by apply NoDup_keys_filter|].
  split; [|by apply IH].
  intros x (a & -> & Ha)%list_elem_of_fmap_1 (a' & Heq & Ha')%list_elem_of_fmap_1.
  apply list_elem_of_filter in Ha as [Hlid Ha].
  apply list_elem_of_join in Ha' as (l & Ha' & Hl).
  apply list_elem_of_fmap_1 in Hl as (line' & -> & Hline').
  apply list_elem_of_filter in Ha' as [Hlid' Ha'].
  assert (a = a') as <- by (by eapply (NoDup_keys_inj alt_id)).
  apply Hline. rewrite <- Hlid, Hlid'. by apply list_elem_of_fmap_2.
Qed.

Lemma bind_gets {A B} (f : Session -> A) (k : A -> M B) s :
  bind (gets f) k s = k (f s) s.
Proof. reflexivity. Qed.

Lemma bind_modify {B} (f : Session -> Session) (k : unit -> M B) s :
  bind (modify f) k s = k tt (f s).
Proof. reflexivity. Qed.

(** The deletes of [_replace_cart_line_items] never fail: the call comes down
    to the inserts, run on the store without the draft's children. *)
Lemma _replace_cart_line_items_deletes cart_draft_id line_items s :
  let existing_ids :=
    li_id <$> filter (fun r => li_cart_draft_id r = cart_draft_id)
                     (cart_draft_line_items s) in
  exists s0,
    agent_state._replace_cart_line_items uuid4_at cart_draft_id line_items s
      = agent_state.add_line_items uuid4_at cart_draft_id line_items s0
    /\ cart_draft_line_items s0
       = filter (fun r => li_cart_draft_id r ≠ cart_draft_id)
                (cart_draft_line_items s)
    /\ cart_draft_alternatives s0
       = filter (fun a => alt_line_item_id a ∉ existing_ids)
                (cart_draft_alternatives s)
    /\ uuid_drawn s0 = uuid_drawn s.
Proof.
  intros existing_ids. unfold agent_state._replace_cart_line_items.
  unfold db.get_cart_draft_line_items. rewrite bind_gets. cbv zeta.
  fold existing_ids. destruct existing_ids as [|i ids].
  - rewrite bind_ret_l. unfold db.delete_cart_draft_line_items.
    rewrite bind_modify. eexists. split; [reflexivity|].
    split; [done|]. split; [|done]. cbn.
    symmetry. apply filter_all, Forall_forall. intros a _. apply not_elem_of_nil.
  - unfold db.delete_alternatives_in. rewrite bind_modify.
    unfold db.delete_cart_draft_line_items. rewrite bind_modify.
    eexists. split; [reflexivity|]. done.
Qed.


Lemma children_of_lines cart_draft_id s :
  (children_of cart_draft_id s).*1
  = filter (fun r => li_cart_draft_id r = cart_draft_id)
           (cart_draft_line_items s).
Proof.
  unfold children_of.
  induction (filter _ (cart_draft_line_items s)) as [|x l IH]; [done|].
  rewrite !fmap_cons. by f_equal.
Qed.

Lemma children_of_alternatives cart_draft_id s :
  (children_of cart_draft_id s).*2
  = (fun line => filter (fun a => alt_line_item_id a = li_id line)
                        (cart_draft_alternatives s))
      <$> filter (fun r => li_cart_draft_id r = cart_draft_id)
                 (cart_draft_line_items s).
Proof.
  unfold children_of.
  induction (filter _ (cart_draft_line_items s)) as [|x l IH]; [done|].
  rewrite !fmap_cons. by f_equal.
Qed.

Lemma children_of_elem cart_draft_id s e :
  e ∈ children_of cart_draft_id s ->
  fst e ∈ cart_draft_line_items s
  /\ li_cart_draft_id (fst e) = cart_draft_id
  /\ snd e = filter (fun a => alt_line_item_id a = li_id (fst e))
                    (cart_draft_alternatives s).
Proof.
  intros (line & -> & Hin)%list_elem_of_fmap_1.
  apply list_elem_of_filter in Hin as [Hc Hin]. done.
Qed.

(** Putting a draft's own children back always goes through, and draws no
    identifier. *)
Lemma _replace_cart_line_items_echo_returns cart_draft_id s :
  line_item_ids_unique s -> alternative_ids_unique s ->
  child_ids_nonempty s -> child_integers_bind s ->
  exists persisted s',
    agent_state._replace_cart_line_items uuid4_at cart_draft_id
      (echo_line <$> children_of cart_draft_id s) s
      = (Returned persisted, s')
    /\ uuid_drawn s' = uuid_drawn s.
Proof.
  intros Hlu Hau [Hln Han] [Hlb Hab].
  rewrite Forall_forall in Hlb. rewrite Forall_forall in Hab.
  destruct (_replace_cart_line_items_deletes cart_draft_id
              (echo_line <$> children_of cart_draft_id s) s)
    as (s0 & -> & Hl0 & Ha0 & Hu0).
  rewrite Forall_forall in Hln. rewrite Forall_forall in Han.
  destruct (add_line_items_echo_return cart_draft_id
              (children_of cart_draft_id s) s0)
    as (persisted & s' & Hadd & Hu).
  - apply Forall_forall. intros e (Hin & _ & ->)%children_of_elem.
    split; [by apply Hln|]. split; [by apply Hlb|]. apply Forall_forall.
    intros a [_ Ha]%list_elem_of_filter. split; [by apply Han|by apply Hab].
  - rewrite children_of_lines. by apply NoDup_keys_filter.
  - intros e (Hin & Hc & _)%children_of_elem. rewrite Hl0.
    intros (r & Hk & Hr)%list_elem_of_fmap_1.
    apply list_elem_of_filter in Hr as [Hne Hr]. apply Hne.
    by rewrite <- (NoDup_keys_inj li_id _ _ _ Hlu Hin Hr Hk).
  - rewrite children_of_alternatives.
    apply filters_by_line_NoDup; [done|]. by apply NoDup_keys_filter.
  - intros a Ha. rewrite children_of_alternatives in Ha.
    apply list_elem_of_join in Ha as (l & Ha & Hl).
    apply list_elem_of_fmap_1 in Hl as (line & -> & Hline).
    apply list_elem_of_filter in Ha as [Hlid Ha]. rewrite Ha0.
    intros (a' & Hk & Ha')%list_elem_of_fmap_1.
    apply list_elem_of_filter in Ha' as [Hnot Ha']. apply Hnot.
    rewrite <- (NoDup_keys_inj alt_id _ _ _ Hau Ha Ha' Hk), Hlid.
    by apply list_elem_of_fmap_2.
  - exists persisted, s'. split; [done|]. by rewrite Hu.
Qed.

(** What comes back when the re-read follows such a replacement. *)
Lemma echo_children_equal cart_draft_id (alts' : list CartDraftAlternative)
    entries persisted :
  Forall2
    (fun line row =>
       line_matches uuid4_at cart_draft_id line row
       /\ Forall2 (alt_matches uuid4_at (li_id row))
                  (agent_state.l_alternatives line)
                  (filter (fun a => alt_line_item_id a = li_id row) alts'))
    (echo_line <$> entries) persisted ->
  Forall (fun e => li_id (fst e) <> ""
                   /\ li_cart_draft_id (fst e) = cart_draft_id
                   /\ Forall (fun a => alt_id a <> ""
                                       /\ alt_line_item_id a = li_id (fst e))
                             (snd e)) entries ->
  (fun line => (line, filter (fun a => alt_line_item_id a = li_id line) alts'))
    <$> persisted = entries.
Proof.
  rewrite Forall2_fmap_l. intros H.
  induction H as [|e row entries' persisted' [Hline Halts] _ IH];
    intros Hall; [reflexivity|].
  apply Forall_cons in Hall as [(Hid & Hc & Ha) Hall].
  rewrite fmap_cons. f_equal; [|by apply IH].
  apply line_matches_echo in Hline; [|done..]. subst row.
  cbn [echo_line agent_state.l_alternatives] in Halts.
  apply echo_alternatives_equal in Halts; [|done].
  rewrite Halts. by destruct e.
Qed.


Lemma bind_bind {A B C} (c : M A) (k : A -> M B) (k' : B -> M C) s :
  bind (bind c k) k' s = bind c (fun a => bind (k a) k') s.
Proof. unfold bind. by destruct (c s) as [[a|e] s1]. Qed.

Lemma save_cart_draft_same key row s :
  cart_drafts s !! key = Some row ->
  db.save_cart_draft key row s = (Returned tt, s).
Proof.
  intros H. rewrite (save_cart_draft_unchanged _ _ _ _ H eq_refl).
  unfold set_cart_drafts. rewrite (insert_id _ _ _ H). by destruct s.
Qed.

(** X23. Posting back what GET returned: for a stored draft whose row sits
    under its own id (not the empty string), with a non-empty [updated_at],
    in a store whose child ids are unique and non-empty, whose child
    integers are ones an INTEGER column holds and whose alternatives all
    reference stored line items, POST of the GET body returns that same
    body, GET afterwards returns it again, the parent table is as before and
    no identifier is drawn. *)
Theorem upsert_cart_draft_echo cart_draft_id resp s :
  agent_state.get_cart_draft cart_draft_id s = (Returned resp, s) ->
  cd_id (agent_state.cart resp) = cart_draft_id ->
  cart_draft_id <> "" ->
  cd_updated_at (agent_state.cart resp) <> "" ->
  line_item_ids_unique s -> alternative_ids_unique s ->
  alternatives_reference_line_items s -> child_ids_nonempty s ->
  child_integers_bind s ->
  exists s',
    agent_state.upsert_cart_draft uuid4_at (echo_upsert resp) s
      = (Returned resp, s')
    /\ agent_state.get_cart_draft cart_draft_id s' = (Returned resp, s')
    /\ cart_drafts s' = cart_drafts s
    /\ uuid_drawn s' = uuid_drawn s.
Proof.
  intros Hget Hkey Hid Hup Hlu Hau Hfk Hne Hint.
  unfold agent_state.get_cart_draft, db.get_cart_draft in Hget.
  rewrite bind_gets in Hget.
  destruct (cart_drafts s !! cart_draft_id) as [draft|] eqn:Hlook; [|done].
  rewrite (bind_step _ _ _ _ _ (read_line_items_returns _ _)) in Hget.
  unfold ret in Hget. injection Hget as <-.
  cbn [agent_state.cart agent_state.lineItems] in *.
  fold (children_of cart_draft_id s).
  destruct (_replace_cart_line_items_echo_returns cart_draft_id s Hlu Hau Hne
              Hint)
    as (persisted & s' & Hrep & Hu).
  pose proof (_replace_cart_line_items_returned uuid4_at _ _ _ _ _ Hrep Hfk)
    as (_ & _ & (_ & _ & Hc & _) & Hmine & Hmatch & _).
  exists s'.
  assert (Hread : agent_state.read_line_items cart_draft_id s'
                  = (Returned (children_of cart_draft_id s), s')).
  { rewrite read_line_items_returns. do 2 f_equal. rewrite Hmine.
    apply (echo_children_equal cart_draft_id _ _ _ Hmatch).
    destruct Hne as [Hln Han].
    rewrite Forall_forall in Hln. rewrite Forall_forall in Han.
    apply Forall_forall. intros e (Hin & Hcart & ->)%children_of_elem.
    split; [by apply Hln|]. split; [done|]. apply Forall_forall.
    intros a [Hline Ha]%list_elem_of_filter. split; [by apply Han|done]. }
  split_and!; [| |done|done].
  - unfold agent_state.upsert_cart_draft. cbv zeta.
    cbn [echo_upsert agent_state.u_cart agent_state.u_line_items
         echo_cart_payload agent_state.c_id agent_state.c_agent_run_id
         agent_state.c_recipe_id agent_state.c_servings
         agent_state.c_pantry_items_removed agent_state.c_policies
         agent_state.c_quote_summary agent_state.c_checkout_session_id
         agent_state.c_cart_hash agent_state.c_quote_hash
         agent_state.c_created_at agent_state.c_updated_at
         agent_state.cart agent_state.lineItems].
    rewrite Hkey, (id_or_uuid4_supplied _ Hid), bind_ret_l.
    unfold db.get_cart_draft. rewrite bind_gets, Hlook.
    unfold agent_state._now_iso. rewrite bind_gets.
    rewrite !patch_self, (py_or_nonempty _ _ Hup).
    replace {| cd_id := cd_id draft;
               cd_agent_run_id := cd_agent_run_id draft;
               cd_recipe_id := cd_recipe_id draft;
               cd_servings := cd_servings draft;
               cd_pantry_items_removed := cd_pantry_items_removed draft;
               cd_policies := cd_policies draft;
               cd_quote_summary := cd_quote_summary draft;
               cd_checkout_session_id := cd_checkout_session_id draft;
               cd_cart_hash := cd_cart_hash draft;
               cd_quote_hash := cd_quote_hash draft;
               cd_created_at := cd_created_at draft;
               cd_updated_at := cd_updated_at draft |}
      with draft by (by destruct draft).
    cbv beta iota zeta. rewrite !bind_bind.
    rewrite (bind_step _ _ _ _ _ (save_cart_draft_same _ _ _ Hlook)).
    cbv beta. rewrite bind_bind, (bind_step _ _ _ _ _ Hrep). cbv beta.
    rewrite bind_ret_l.
    rewrite (bind_step _ _ _ _ _ Hread). reflexivity.
  - unfold agent_state.get_cart_draft, db.get_cart_draft.
    rewrite bind_gets, Hc, Hlook.
    by rewrite (bind_step _ _ _ _ _ Hread).
Qed.

End CartDraftEcho.

(** ** Worked instances of the further properties *)

Lemma reserve_stock_twice_is_reserve_sum_witness :
  inventory stocked_session !! "sku-5" = Some (Some 5)
  /\ db.reserve_stock "sku-5" 3 None
       (snd (db.reserve_stock "sku-5" 2 None stocked_session))
     = db.reserve_stock "sku-5" 5 None stocked_session
  /\ db.get_inventory "sku-5"
       (snd (db.reserve_stock "sku-5" 3 None
               (snd (db.reserve_stock "sku-5" 2 None stocked_session))))
     = Some 0.
Proof.
  assert (H : inventory stocked_session !! "sku-5" = Some (Some 5))
    by (vm_compute; reflexivity).
  split; [exact H|].
  destruct (reserve_stock_twice_is_reserve_sum "sku-5" 2 3 None None None 5
              stocked_session H ltac:(unfold in_int64; lia)
              ltac:(lia) ltac:(lia) ltac:(lia))
    as (_ & Hsum & _ & Hleft).
  split; [exact Hsum | exact Hleft].
Defined.

Lemma reserve_stock_negative_quantity_restocks_witness :
  fst (db.reserve_stock "sku-5" (-3) None stocked_session) = Returned true
  /\ db.get_inventory "sku-5"
       (snd (db.reserve_stock "sku-5" (-3) None stocked_session))
     = Some (5 - -3).
Proof.
  destruct (reserve_stock_negative_quantity_restocks "sku-5" (-3) None 5
              stocked_session ltac:(vm_compute; reflexivity)
              ltac:(lia) ltac:(lia) ltac:(lia)) as (Hok & Hstock & _).
  split; [exact Hok | exact Hstock].
Defined.

Lemma reserve_stock_fallback_never_tops_up_witness :
  db.reserve_stock "sku-5" 6 (Some 100) stocked_session
  = (Returned false, stocked_session).
Proof.
  apply (reserve_stock_fallback_never_tops_up "sku-5" 6 100 5).
  - vm_compute. reflexivity.
  - unfold in_int64. lia.
  - lia.
Defined.

Lemma get_agent_run_after_upsert_witness :
  agent_state.get_agent_run "run-7" (snd first_run_upsert)
  = (Returned (returned_or blank_run first_run_upsert), snd first_run_upsert).
Proof.
  apply (get_agent_run_after_upsert sample_uuid4_at
           (run_payload_with_id "run-7") empty_session).
  vm_compute. reflexivity.
Defined.

Lemma upsert_agent_run_idempotent_witness :
  exists run1 s1,
    first_run_upsert = (Returned run1, s1)
    /\ agent_state.upsert_agent_run sample_uuid4_at
         (run_payload_with_id "run-7")
         (set_wall_clock "2026-01-02T00:00:00+00:00" s1)
       = (Returned (with_updated_at run1 "2026-01-02T00:00:00+00:00"),
          set_agent_runs
            <["run-7" := with_updated_at run1 "2026-01-02T00:00:00+00:00"]>
            (set_wall_clock "2026-01-02T00:00:00+00:00" s1)).
Proof.
  destruct (upsert_agent_run_idempotent sample_uuid4_at
              (run_payload_with_id "run-7") "run-7" empty_session
              ltac:(reflexivity))
    as (run1 & s1 & Hfirst & _ & _ & _ & Hagain).
  exists run1, s1. split; [exact Hfirst|].
  destruct (Hagain "2026-01-02T00:00:00+00:00")
    as (run2 & Hsecond & _ & _ & _ & Hstamp).
  rewrite Hsecond. by rewrite (Hstamp (or_introl eq_refl)).
Defined.

Lemma upsert_agent_run_echo_witness :
  agent_state.upsert_agent_run sample_uuid4_at
    (echo_run_payload sample_run agent_state.QUOTE_CART) run_session
  = (Returned sample_run, run_session).
Proof.
  apply (upsert_agent_run_echo sample_uuid4_at sample_run
           agent_state.QUOTE_CART run_session).
  - vm_compute. reflexivity.
  - discriminate.
  - discriminate.
  - reflexivity.
Defined.

Lemma get_cart_draft_after_upsert_witness :
  agent_state.get_cart_draft "draft-1" (snd first_upsert)
  = (Returned (returned_or blank_response first_upsert), snd first_upsert).
Proof.
  apply (get_cart_draft_after_upsert sample_uuid4_at
           (sample_upsert "draft-1" [flour_line; eggs_line]) empty_session).
  vm_compute. reflexivity.
Defined.


Lemma upsert_cart_draft_leaves_other_drafts_witness :
  fst (agent_state.get_cart_draft "draft-1" (snd other_upsert))
  = fst (agent_state.get_cart_draft "draft-1" (snd first_upsert)).
Proof.
  apply (upsert_cart_draft_leaves_other_drafts sample_uuid4_at
           (sample_upsert "draft-2" [eggs_line]) (snd first_upsert)
           (returned_or blank_response other_upsert) (snd other_upsert)
           "draft-1").
  - vm_compute. reflexivity.
  - unfold line_item_ids_unique. apply (bool_decide_unpack _).
    vm_compute. exact I.
  - discriminate.
Defined.

Lemma upsert_cart_draft_keeps_ids_unique_witness :
  line_item_ids_unique (snd other_upsert)
  /\ alternative_ids_unique (snd other_upsert).
Proof.
  apply (upsert_cart_draft_keeps_ids_unique sample_uuid4_at
           (sample_upsert "draft-2" [eggs_line]) (snd first_upsert)
           (returned_or blank_response other_upsert)).
  - vm_compute. reflexivity.
  - unfold line_item_ids_unique. apply (bool_decide_unpack _).
    vm_compute. exact I.
  - unfold alternative_ids_unique. apply (bool_decide_unpack _).
    vm_compute. exact I.
Defined.

Lemma tally_inj i j : tally i = tally j -> i = j.
Proof.
  revert j. induction i as [|i IH]; intros [|j] H; try done.
  injection H as H. f_equal. by apply IH.
Qed.

Lemma sample_uuid4_at_fresh : uuid4_fresh sample_uuid4_at empty_session.
Proof.
  split.
  - intros i j H. unfold sample_uuid4_at in H.
    apply tally_inj. by simplify_eq/=.
  - split; intros k _; apply not_elem_of_nil.
Qed.

Lemma upsert_cart_draft_with_generated_ids_returns_witness :
  exists resp s',
    agent_state.upsert_cart_draft sample_uuid4_at anonymous_upsert empty_session
    = (Returned resp, s')
    /\ length (agent_state.lineItems resp) = 1%nat
    /\ uuid4_fresh sample_uuid4_at s'.
Proof.
  apply (upsert_cart_draft_with_generated_ids_returns sample_uuid4_at
           anonymous_upsert empty_session sample_uuid4_at_fresh).
  - unfold ids_left_to_server. apply (bool_decide_unpack _).
    vm_compute. exact I.
  - split.
    + cbn. unfold in_int64. lia.
    + repeat constructor; cbn; unfold in_int64; lia.
Defined.

Lemma upsert_cart_draft_echo_witness :
  exists s',
    agent_state.upsert_cart_draft sample_uuid4_at
      (echo_upsert (returned_or blank_response first_upsert))
      (snd first_upsert)
    = (Returned (returned_or blank_response first_upsert), s')
    /\ agent_state.get_cart_draft "draft-1" s'
       = (Returned (returned_or blank_response first_upsert), s')
    /\ cart_drafts s' = cart_drafts (snd first_upsert)
    /\ uuid_drawn s' = uuid_drawn (snd first_upsert).
Proof.
  apply (upsert_cart_draft_echo sample_uuid4_at "draft-1"
           (returned_or blank_response first_upsert) (snd first_upsert)).
  - vm_compute. reflexivity.
  - reflexivity.
  - discriminate.
  - vm_compute. discriminate.
  - unfold line_item_ids_unique. apply (bool_decide_unpack _).
    vm_compute. exact I.
  - unfold alternative_ids_unique. apply (bool_decide_unpack _).
    vm_compute. exact I.
  - unfold alternatives_reference_line_items. apply (bool_decide_unpack _).
    vm_compute. exact I.
  - unfold child_ids_nonempty.
    split; apply (bool_decide_unpack _); vm_compute; exact I.
  - unfold child_integers_bind.
    split; apply (bool_decide_unpack _); vm_compute; exact I.
Defined.

Lemma list_products_reports_catalog_witness :
  products_route.list_products sample_catalog None
  = (Done [ {| products_route.item_id := "milk";
               products_route.item_title := Some "Whole Milk";
               products_route.item_price := Some 399;
               products_route.item_image_url := None;
               products_route.item_inventory_quantity := Some (Some 12) |} ],
     Some true).
Proof.
  rewrite (list_products_reports_catalog sample_catalog None
             (or_introl eq_refl)).
  vm_compute. reflexivity.
Defined.

Lemma list_products_with_stale_answer_witness :
  (exists items,
     products_route.list_products sample_catalog (Some false)
     = (Done items, Some false)
     /\ length items = 1%nat
     /\ Forall (fun item => products_route.item_inventory_quantity item = None)
               items)
  /\ products_route.list_products legacy_catalog (Some true)
     = (Failed (OperationalError "no such column: products.inventory_quantity"),
        Some true).
Proof.
  split.
  - apply (proj1 (list_products_with_stale_answer sample_catalog)).
    reflexivity.
  - apply (proj2 (list_products_with_stale_answer legacy_catalog)).
    + reflexivity.
    + intros H. apply (f_equal (fun m => m !! "milk")) in H.
      vm_compute in H. discriminate.
Defined.



Lemma save_customer_address_reuses_id_witness :
  first_save = (Done "uuid-i", snd first_save)
  /\ second_save = (Done "uuid-i", snd second_save)
  /\ customers (snd second_save) = customers (snd first_save)
  /\ length (customer_addresses (snd second_save)) = 1%nat.
Proof.
  assert (H1 : first_save = (Done "uuid-i", snd first_save))
    by (vm_compute; reflexivity).
  assert (H2 : second_save = (Done "uuid-i", snd second_save))
    by (vm_compute; reflexivity).
  destruct (save_customer_address_reuses_id sample_uuid4_at "ann@example.com"
              home_address home_address_with_id empty_book
              "uuid-i" (snd first_save) "uuid-i" (snd second_save)
              H1 ltac:(vm_compute; auto) H2)
    as (_ & Hcustomers & Haddresses & _).
  split; [exact H1|]. split; [exact H2|]. split; [exact Hcustomers|].
  rewrite Haddresses. vm_compute. reflexivity.
Defined.

Lemma save_then_get_customer_addresses_witness :
  exists row,
    row ∈ returned_rows
            (db_customers.get_customer_addresses "ann@example.com"
               (snd first_save))
    /\ ca_id row = "uuid-i"
    /\ ca_street_address row = Some "1 Main St".
Proof.
  destruct (save_then_get_customer_addresses sample_uuid4_at "ann@example.com"
              home_address empty_book "uuid-i" (snd first_save)
              (returned_rows
                 (db_customers.get_customer_addresses "ann@example.com"
                    (snd first_save)))
              (snd (db_customers.get_customer_addresses "ann@example.com"
                      (snd first_save)))
              ltac:(vm_compute; reflexivity) ltac:(vm_compute; reflexivity))
    as (row & Hin & Hid & Hstreet & _).
  exists row. split; [exact Hin|]. split; [exact Hid | exact Hstreet].
Defined.

Lemma save_customer_address_keeps_lookups_unambiguous_witness :
  settled (snd (db_customers.autoflush (snd first_save)))
  /\ unambiguous (snd (db_customers.autoflush (snd first_save))).
Proof.
  apply (save_customer_address_keeps_lookups_unambiguous sample_uuid4_at
           "ann@example.com" home_address empty_book "uuid-i"
           (snd first_save)).
  - reflexivity.
  - split; intros; cbn; lia.
  - vm_compute. reflexivity.
  - vm_compute. reflexivity.
Defined.

Lemma customer_lookup_edges_witness :
  db_customers.get_customer "bob@example.com" shared_email_book
  = (Done None, shared_email_book)
  /\ db_customers.get_customer "ann@example.com" shared_email_book
     = (Failed MultipleResultsFound, shared_email_book)
  /\ db_customers.save_customer_address sample_uuid4_at "ann@example.com"
       home_address shared_email_book
     = (Failed MultipleResultsFound, shared_email_book).
Proof.
  split.
  - apply (proj1 (customer_lookup_edges sample_uuid4_at "bob@example.com"
                    home_address shared_email_book eq_refl)).
    vm_compute. reflexivity.
  - destruct (proj2 (customer_lookup_edges sample_uuid4_at "ann@example.com"
                       home_address shared_email_book eq_refl))
      as (Hget & _ & Hsave).
    + vm_compute. lia.
    + split; [exact Hget | exact Hsave].
Defined.
